(** * vice radar scope: label placement, conflict alerts and in-trail spacing

    A shallow embedding of [src/radarscope.go] (type [RadarScopePane] and the
    functions it needs each frame) together with the properties that the
    specification states about it.

    Numbers are modelled the way the Go code has them: [float32] values are
    IEEE-754 binary32 numbers ([spec_float] with a 24 bit mantissa and
    exponent bound 128), every arithmetic operation rounding to nearest even
    on its own (no fused multiply-add, as on amd64); [int] and [int32] are
    [Z], the altitudes staying far from the bounds of these types;
    [time.Time] and [time.Duration] are [Z] nanoseconds.  Go maps keyed by
    [*Aircraft] become [gmap]s keyed by the pointer's address. *)

From Stdlib Require Import ZArith Lia.
From Stdlib Require Import Floats.SpecFloat.
From stdpp Require Import gmap strings list fin_maps.

Open Scope Z_scope.

(** ** binary32 arithmetic *)

Module F32.

Definition prec : Z := 24.
Definition emax : Z := 128.

Definition float32 : Type := spec_float.

Definition add : float32 -> float32 -> float32 := SFadd prec emax.
Definition sub : float32 -> float32 -> float32 := SFsub prec emax.
Definition mul : float32 -> float32 -> float32 := SFmul prec emax.
Definition div : float32 -> float32 -> float32 := SFdiv prec emax.
Definition sqrt : float32 -> float32 := SFsqrt prec emax.

(** Go's [<], [<=], [>], [>=], [==] and [!=] on floats: every ordered
    comparison with a NaN is false, and [!=] is the negation of [==]. *)
Definition ltb (x y : float32) : bool := SFltb x y.
Definition leb (x y : float32) : bool := SFleb x y.
Definition gtb (x y : float32) : bool := SFltb y x.
Definition geb (x y : float32) : bool := SFleb y x.
Definition eqb (x y : float32) : bool := SFeqb x y.
Definition neb (x y : float32) : bool := negb (SFeqb x y).

(** An integer constant such as [float32(20)] or the literal [15]. *)
Definition of_Z (z : Z) : float32 := binary_normalize prec emax z 0 false.

Definition zero : float32 := S754_zero false.

#[global] Instance float32_eq_dec : EqDecision float32.
Proof. solve_decision. Defined.

#[global] Instance float32_inhabited : Inhabited float32 := populate zero.

End F32.

Abbreviation float32 := F32.float32.

Declare Scope f32_scope.
Delimit Scope f32_scope with f32.
Infix "+" := F32.add : f32_scope.
Infix "-" := F32.sub : f32_scope.
Infix "*" := F32.mul : f32_scope.
Infix "/" := F32.div : f32_scope.
Infix "<?" := F32.ltb : f32_scope.
Infix "<=?" := F32.leb : f32_scope.
Infix ">?" := F32.gtb : f32_scope.
Infix ">=?" := F32.geb : f32_scope.
Infix "==?" := F32.eqb (at level 70) : f32_scope.
Infix "!=?" := F32.neb (at level 70) : f32_scope.
Notation "# z" := (F32.of_Z z) (at level 5, format "# z") : f32_scope.

(** ** Vectors and extents *)

(** [[2]float32]. *)
Definition vec2 : Type := float32 * float32.

Definition vzero : vec2 := (F32.zero, F32.zero).

(** [v[0] != 0 || v[1] != 0], the test the code uses for "has a manual
    offset". *)
Definition nonzero2f (v : vec2) : bool :=
  ((v.1 !=? F32.zero) || (v.2 !=? F32.zero))%f32.

(** [v[0] == 0 && v[1] == 0]. *)
Definition iszero2f (v : vec2) : bool :=
  ((v.1 ==? F32.zero) && (v.2 ==? F32.zero))%f32.

(** Modelled from the spec: the vector helpers [add2f], [sub2f], [scale2f],
    [length2f] and [normalize2f] are called by [radarscope.go] but declared
    outside [src/]; they are the componentwise sum and difference, the
    product with a scalar, the Euclidean length and the unit vector of the
    same direction (the zero vector staying zero) that section 4.1 relies on
    ("unit vectors", "unit step", "translate"). *)
Definition add2f (a b : vec2) : vec2 := ((a.1 + b.1)%f32, (a.2 + b.2)%f32).

Definition sub2f (a b : vec2) : vec2 := ((a.1 - b.1)%f32, (a.2 - b.2)%f32).

Definition scale2f (a : vec2) (s : float32) : vec2 := ((s * a.1)%f32, (s * a.2)%f32).

Definition length2f (v : vec2) : float32 :=
  F32.sqrt (v.1 * v.1 + v.2 * v.2)%f32.

Definition normalize2f (a : vec2) : vec2 :=
  let l := length2f a in
  if (l ==? F32.zero)%f32 then vzero else scale2f a (#1 / l)%f32.

(** [Extent2D]: an axis-aligned box given by its minimum corner [p0] and its
    maximum corner [p1]. *)
Record Extent2D : Type := mkExtent { p0 : vec2; p1 : vec2 }.

Module Extent2D.

(** The zero value of the Go struct. *)
Definition zero : Extent2D := mkExtent vzero vzero.

(** Modelled from the spec: the methods [Offset], [Expand] and [Center] of
    [Extent2D] are declared outside [src/]; section 3 describes a label box
    as the local box "expanded by a fixed padding" and "translated by" a
    vector, and section 4.1 speaks of the centers of boxes. *)
Definition Offset (e : Extent2D) (p : vec2) : Extent2D :=
  mkExtent (add2f (p0 e) p) (add2f (p1 e) p).

Definition Expand (e : Extent2D) (d : float32) : Extent2D :=
  mkExtent (((p0 e).1 - d)%f32, ((p0 e).2 - d)%f32)
           (((p1 e).1 + d)%f32, ((p1 e).2 + d)%f32).

Definition Center (e : Extent2D) : vec2 :=
  ((((p0 e).1 + (p1 e).1) / #2)%f32, (((p0 e).2 + (p1 e).2) / #2)%f32).

End Extent2D.

(** Modelled from the spec: the function [Overlaps] is declared outside
    [src/]; two boxes overlap (section 4.1) when their extents meet on
    both axes. *)
Definition Overlaps (a b : Extent2D) : bool :=
  let x := (((p1 a).1 >=? (p0 b).1) && ((p0 a).1 <=? (p1 b).1))%f32 in
  let y := (((p1 a).2 >=? (p0 b).2) && ((p0 a).2 <=? (p1 b).2))%f32 in
  x && y.

#[global] Instance Extent2D_eq_dec : EqDecision Extent2D.
Proof. solve_decision. Defined.

#[global] Instance Extent2D_inhabited : Inhabited Extent2D := populate Extent2D.zero.

(** ** Choosing the connection point of a datablock *)

(** [datablockConnectP]: the point of [bbox] that should sit on the track,
    and whether it is a corner. *)
Definition datablockConnectP (bbox : Extent2D) (heading : float32) : vec2 * bool :=
  let center := Extent2D.Center bbox in
  let heading := (heading + #15)%f32 in
  let heading := if (heading <? #0)%f32 then (heading + #360)%f32 else heading in
  let heading := if (heading >? #360)%f32 then (heading - #360)%f32 else heading in
  if (heading <? #30)%f32 then (((p0 bbox).1, center.2), false)
  else if (heading <? #90)%f32 then (((p0 bbox).1, (p1 bbox).2), true)
  else if (heading <? #120)%f32 then ((center.1, (p1 bbox).2), false)
  else if (heading <? #180)%f32 then (((p0 bbox).1, (p0 bbox).2), true)
  else if (heading <? #210)%f32 then (((p0 bbox).1, center.2), false)
  else if (heading <? #270)%f32 then (((p0 bbox).1, (p1 bbox).2), true)
  else if (heading <? #300)%f32 then ((center.1, (p0 bbox).2), false)
  else (((p0 bbox).1, (p0 bbox).2), true).


(** The wrap-around that [datablockConnectP] applies to its argument: shift
    by 15 degrees, then at most one correction by a full turn. *)
Definition wrapHeading (heading : float32) : float32 :=
  let heading := (heading + #15)%f32 in
  let heading := if (heading <? #0)%f32 then (heading + #360)%f32 else heading in
  if (heading >? #360)%f32 then (heading - #360)%f32 else heading.

(** The five points of a box that [datablockConnectP] can return.  The box
    has its minimum corner at [p0]; in window coordinates y grows upwards, so
    the edge at [p0]'s y is the bottom edge and the one at [p1]'s y the top
    edge. *)
Inductive Anchor : Type :=
| LeftEdgeMid
| TopLeftCorner
| TopEdgeMid
| BottomLeftCorner
| BottomEdgeMid.

Definition anchorPoint (a : Anchor) (bbox : Extent2D) : vec2 :=
  let center := Extent2D.Center bbox in
  match a with
  | LeftEdgeMid => ((p0 bbox).1, center.2)
  | TopLeftCorner => ((p0 bbox).1, (p1 bbox).2)
  | TopEdgeMid => (center.1, (p1 bbox).2)
  | BottomLeftCorner => ((p0 bbox).1, (p0 bbox).2)
  | BottomEdgeMid => (center.1, (p0 bbox).2)
  end.

Definition anchorIsCorner (a : Anchor) : bool :=
  match a with
  | TopLeftCorner | BottomLeftCorner => true
  | LeftEdgeMid | TopEdgeMid | BottomEdgeMid => false
  end.

(** ** Aircraft and their scope state *)

(** A [*Aircraft]: the address of an aircraft object.  Equality of pointers
    is all the code uses of them as map keys. *)
Definition AcPtr : Type := positive.

(** Modelled from the spec: the type [Aircraft] and its methods [Callsign],
    [Position], [Heading], [Altitude] and [LostTrack] are declared outside
    [src/]; section 6 gives the per-frame snapshot of an aircraft as its
    identifier, position, heading, altitude, destination and lost-track flag,
    which is what the methods return during one frame. *)
Record Aircraft : Type := mkAircraft {
  Callsign : string;
  Position : vec2;
  Heading : float32;
  Altitude : Z;
  LostTrack : bool;
  arrive : string
}.

(** The zero value of the Go struct. *)
Definition zeroAircraft : Aircraft :=
  mkAircraft String.EmptyString vzero F32.zero 0 false String.EmptyString.

(** [AircraftScopeState]. *)
Record AircraftScopeState : Type := mkScopeState {
  isGhost : bool;
  datablockAutomaticOffset : vec2;
  datablockManualOffset : vec2;
  datablockText : string * string;
  datablockTextCurrent : bool;
  datablockBounds : Extent2D
}.

(** [&AircraftScopeState{}], every field at its zero value. *)
Definition newScopeState : AircraftScopeState :=
  mkScopeState false vzero vzero (String.EmptyString, String.EmptyString) false Extent2D.zero.

(** [&AircraftScopeState{isGhost: true}]. *)
Definition newGhostScopeState : AircraftScopeState :=
  mkScopeState true vzero vzero (String.EmptyString, String.EmptyString) false Extent2D.zero.

Definition setAutomaticOffset (v : vec2) (s : AircraftScopeState) : AircraftScopeState :=
  mkScopeState (isGhost s) v (datablockManualOffset s) (datablockText s)
    (datablockTextCurrent s) (datablockBounds s).

Definition setTextCurrent (b : bool) (s : AircraftScopeState) : AircraftScopeState :=
  mkScopeState (isGhost s) (datablockAutomaticOffset s) (datablockManualOffset s)
    (datablockText s) b (datablockBounds s).

#[global] Instance AircraftScopeState_inhabited : Inhabited AircraftScopeState :=
  populate newScopeState.

(** The test [t.datablockManualOffset[0] != 0 || t.datablockManualOffset[1] != 0]. *)
Definition hasManualOffset (t : AircraftScopeState) : bool :=
  nonzero2f (datablockManualOffset t).

(** [AircraftScopeState.WindowDatablockBounds]: takes the aircraft position
    in window coordinates. *)
Definition WindowDatablockBounds (t : AircraftScopeState) (p : vec2) : Extent2D :=
  let db := Extent2D.Offset (datablockBounds t) p in
  if hasManualOffset t
  then Extent2D.Offset db (datablockManualOffset t)
  else Extent2D.Offset db (datablockAutomaticOffset t).

(** An [AircraftPair], the key of [rangeWarnings]. *)
Definition AircraftPair : Type := AcPtr * AcPtr.

(** Modelled from the spec: the type [RangeLimits] is declared outside
    [src/]; section 3 gives an entry as the four thresholds
    [WarningLateral], [WarningVertical], [ViolationLateral] and
    [ViolationVertical], in distance and altitude units. *)
Record RangeLimits : Type := mkRangeLimits {
  WarningLateral : float32;
  WarningVertical : Z;
  ViolationLateral : float32;
  ViolationVertical : Z
}.

(** [RadarScopePane], restricted to the fields that the per-frame engines
    read or write ([RangeLimitsTable] is the field [RangeLimits]).  The
    store [aircraft] maps each tracked aircraft to its scope state; the
    states are held by value here, every one of them being allocated for
    its own key (see [processEvent], and [Dup.Duplicate] for the pointers
    themselves). *)
Record RadarScopePane : Type := mkPane {
  RotationAngle : float32;
  AutomaticDatablockLayout : bool;
  MinAltitude : Z;
  MaxAltitude : Z;
  DrawRangeIndicators : bool;
  RangeLimitsTable : list RangeLimits;
  rangeWarnings : gset AircraftPair;
  AutoMIT : bool;
  AutoMITAirports : gset string;
  CRDAEnabled : bool;
  lastRangeNotificationPlayed : Z;
  aircraft : gmap AcPtr AircraftScopeState;
  ghostAircraft : gmap AcPtr AcPtr;
  pointedOutAircraft : gmap AcPtr (string * Z)
}.

Definition setAircraft (m : gmap AcPtr AircraftScopeState) (rs : RadarScopePane)
    : RadarScopePane :=
  mkPane (RotationAngle rs) (AutomaticDatablockLayout rs) (MinAltitude rs)
    (MaxAltitude rs) (DrawRangeIndicators rs) (RangeLimitsTable rs)
    (rangeWarnings rs) (AutoMIT rs) (AutoMITAirports rs) (CRDAEnabled rs)
    (lastRangeNotificationPlayed rs) m (ghostAircraft rs)
    (pointedOutAircraft rs).

Definition setGhostAircraft (g : gmap AcPtr AcPtr) (rs : RadarScopePane)
    : RadarScopePane :=
  mkPane (RotationAngle rs) (AutomaticDatablockLayout rs) (MinAltitude rs)
    (MaxAltitude rs) (DrawRangeIndicators rs) (RangeLimitsTable rs)
    (rangeWarnings rs) (AutoMIT rs) (AutoMITAirports rs) (CRDAEnabled rs)
    (lastRangeNotificationPlayed rs) (aircraft rs) g (pointedOutAircraft rs).

Definition setRangeWarnings (w : gset AircraftPair) (rs : RadarScopePane)
    : RadarScopePane :=
  mkPane (RotationAngle rs) (AutomaticDatablockLayout rs) (MinAltitude rs)
    (MaxAltitude rs) (DrawRangeIndicators rs) (RangeLimitsTable rs) w
    (AutoMIT rs) (AutoMITAirports rs) (CRDAEnabled rs)
    (lastRangeNotificationPlayed rs) (aircraft rs) (ghostAircraft rs)
    (pointedOutAircraft rs).

Definition setLastRangeNotificationPlayed (t : Z) (rs : RadarScopePane)
    : RadarScopePane :=
  mkPane (RotationAngle rs) (AutomaticDatablockLayout rs) (MinAltitude rs)
    (MaxAltitude rs) (DrawRangeIndicators rs) (RangeLimitsTable rs)
    (rangeWarnings rs) (AutoMIT rs) (AutoMITAirports rs) (CRDAEnabled rs) t
    (aircraft rs) (ghostAircraft rs) (pointedOutAircraft rs).

Definition setPointedOutAircraft (p : gmap AcPtr (string * Z)) (rs : RadarScopePane)
    : RadarScopePane :=
  mkPane (RotationAngle rs) (AutomaticDatablockLayout rs) (MinAltitude rs)
    (MaxAltitude rs) (DrawRangeIndicators rs) (RangeLimitsTable rs)
    (rangeWarnings rs) (AutoMIT rs) (AutoMITAirports rs) (CRDAEnabled rs)
    (lastRangeNotificationPlayed rs) (aircraft rs) (ghostAircraft rs) p.

(** ** Loops over a slice *)

(** [for i, x := range l { s = body(i, x, s) }], the index starting at [i]. *)
Fixpoint forRangeFrom {S A : Type} (body : nat -> A -> S -> S) (i : nat) (l : list A) (s : S) : S :=
  match l with
  | [] => s
  | x :: l' => forRangeFrom body (Datatypes.S i) l' (body i x s)
  end.

Definition forRange {S A : Type} (body : nat -> A -> S -> S) (l : list A) (s : S) : S :=
  forRangeFrom body 0%nat l s.

(** [for { s, again = pass(s); if !again { break } }], cut off after [fuel]
    passes: [None] when the loop has not left by then. *)
Fixpoint loopWhile {S : Type} (pass : S -> S * bool) (fuel : nat) (s : S) : option S :=
  match fuel with
  | O => None
  | Datatypes.S fuel' =>
      let '(s', again) := pass s in
      if again then loopWhile pass fuel' s' else Some s'
  end.

(** The state after [n] passes of that loop, or after its last pass when it
    leaves earlier. *)
Fixpoint passes {S : Type} (pass : S -> S * bool) (n : nat) (s : S) : S :=
  match n with
  | O => s
  | Datatypes.S n' =>
      let '(s', again) := pass s in
      if again then passes pass n' s' else s'
  end.

(** ** Datablock layout *)

(** The working data of the automatic layout: the scope states (reached in
    the Go code through [rs.aircraft[ac]]) and the two local slices
    [datablockBounds] and [placed], indexed like the sorted aircraft. *)
Record LayoutState : Type := mkLayout {
  ls_states : gmap AcPtr AircraftScopeState;
  ls_bounds : list Extent2D;
  ls_placed : list bool
}.

(** [rs.aircraft[ac]]; the keys that the layout asks for are keys of the
    map. *)
Definition stateOf (ls : LayoutState) (ac : AcPtr) : AircraftScopeState :=
  default newScopeState (ls_states ls !! ac).

(** [datablockBounds[i]] and [placed[i]]. *)
Definition boundsAt (ls : LayoutState) (i : nat) : Extent2D :=
  default Extent2D.zero (ls_bounds ls !! i).

Definition placedAt (ls : LayoutState) (i : nat) : bool :=
  default false (ls_placed ls !! i).

(** [state.datablockAutomaticOffset = v] through the pointer [rs.aircraft[ac]]. *)
Definition writeAutomaticOffset (ac : AcPtr) (v : vec2) (ls : LayoutState) : LayoutState :=
  mkLayout (alter (setAutomaticOffset v) ac (ls_states ls)) (ls_bounds ls) (ls_placed ls).

Definition writeBounds (i : nat) (b : Extent2D) (ls : LayoutState) : LayoutState :=
  mkLayout (ls_states ls) (<[i:=b]> (ls_bounds ls)) (ls_placed ls).

Definition writePlaced (i : nat) (b : bool) (ls : LayoutState) : LayoutState :=
  mkLayout (ls_states ls) (ls_bounds ls) (<[i:=b]> (ls_placed ls)).

(** The closure [allowed] of the second pass: no overlap with a placed box. *)
Fixpoint allowedFrom (placed : list bool) (b : Extent2D) (i : nat) (bounds : list Extent2D) : bool :=
  match bounds with
  | [] => true
  | db :: rest =>
      if default false (placed !! i) && Overlaps b db then false
      else allowedFrom placed b (S i) rest
  end.

Definition allowed (ls : LayoutState) (b : Extent2D) : bool :=
  allowedFrom (ls_placed ls) b 0%nat (ls_bounds ls).

(** The closure [allowed] of the last loop: no overlap with any box other
    than the one at [idx]. *)
Fixpoint allowedOtherFrom (idx : nat) (b : Extent2D) (i : nat) (bounds : list Extent2D) : bool :=
  match bounds with
  | [] => true
  | db :: rest =>
      if negb (i =? idx)%nat && Overlaps b db then false
      else allowedOtherFrom idx b (S i) rest
  end.

Definition allowedOther (ls : LayoutState) (idx : nat) (b : Extent2D) : bool :=
  allowedOtherFrom idx b 0%nat (ls_bounds ls).

(** Insertion of an aircraft into a slice sorted by callsign, for
    [sort.Slice(aircraft, ... Callsign() < ... Callsign())]. *)
Fixpoint insertByCallsign (name : AcPtr -> string) (ac : AcPtr) (l : list AcPtr) : list AcPtr :=
  match l with
  | [] => [ac]
  | x :: l' =>
      if Stdlib.Strings.String.ltb (name x) (name ac)
      then x :: insertByCallsign name ac l'
      else ac :: l
  end.

Definition sortByCallsign (name : AcPtr -> string) (l : list AcPtr) : list AcPtr :=
  foldr (insertByCallsign name) [] l.

Section Layout.

(** The aircraft objects behind the pointers, the projection
    [windowFromLatLongP] handed to the function and the pane extent of
    [ctx.paneExtent]. *)
Variable deref : AcPtr -> Aircraft.
Variable windowFromLatLongP : vec2 -> vec2.
Variables paneWidth paneHeight : float32.

Variable rs : RadarScopePane.

(** [ac.LostTrack(now) || ac.Altitude() < int(rs.MinAltitude) ||
    ac.Altitude() > int(rs.MaxAltitude)]: the aircraft is skipped. *)
Definition filteredOut (ac : AcPtr) : bool :=
  LostTrack (deref ac)
  || (Altitude (deref ac) <? MinAltitude rs)
  || (Altitude (deref ac) >? MaxAltitude rs).

(** The closure [offsetSelfOnly]. *)
Definition offsetSelfOnly (ac : AcPtr) (info : AircraftScopeState) : vec2 :=
  let bbox := Extent2D.Expand (datablockBounds info) (#5)%f32 in
  let heading := (Heading (deref ac) + RotationAngle rs)%f32 in
  let '(pConnect, isCorner) := datablockConnectP bbox heading in
  let v := scale2f pConnect (#(-1))%f32 in
  if negb isCorner then add2f v (scale2f (normalize2f v) (#3)%f32) else v.

(** The branch [!rs.AutomaticDatablockLayout]: every aircraft is laid out
    with respect to its own track only.  The iterations of the loop over the
    map touch one state each, so their order does not matter. *)
Definition layoutSelfOnly : gmap AcPtr AircraftScopeState :=
  map_imap (fun ac state =>
    Some (if filteredOut ac then state
          else if hasManualOffset state then setAutomaticOffset vzero state
          else setAutomaticOffset (offsetSelfOnly ac state) state))
    (aircraft rs).

(** "Is it on screen (or getting there?)" *)
Definition onScreen (pw : vec2) : bool :=
  ((pw.1 >? #(-100)) && (pw.1 <? paneWidth + #100)
   && (pw.2 >? #(-100)) && (pw.2 <? paneHeight + #100))%f32.

(** The slice [aircraft] of the automatic layout: the aircraft that are
    neither skipped nor off screen, sorted by callsign. *)
Definition layoutAircraft : list AcPtr :=
  sortByCallsign (fun ac => Callsign (deref ac))
    (filter (fun ac => negb (filteredOut ac)
                       && onScreen (windowFromLatLongP (Position (deref ac))) = true)
            (map_to_list (aircraft rs)).*1).

(** First pass: "anyone who has a manual offset goes where they go,
    period." *)
Definition pinManual (i : nat) (ac : AcPtr) (ls : LayoutState) : LayoutState :=
  let state := stateOf ls ac in
  if hasManualOffset state then
    let pw := windowFromLatLongP (Position (deref ac)) in
    let b := Extent2D.Expand (WindowDatablockBounds state pw) (#5)%f32 in
    writePlaced i true (writeBounds i b ls)
  else ls.

(** Second pass: "anyone who can be placed without interfering with
    already-placed ones gets to be in their happy place." *)
Definition placeIdeal (i : nat) (ac : AcPtr) (ls : LayoutState) : LayoutState :=
  if placedAt ls i then ls
  else
    let state := stateOf ls ac in
    let offset := offsetSelfOnly ac state in
    let netOffset := sub2f offset (datablockAutomaticOffset state) in
    let pw := windowFromLatLongP (Position (deref ac)) in
    let db := Extent2D.Offset (Extent2D.Expand (WindowDatablockBounds state pw) (#5)%f32) netOffset in
    if allowed ls db
    then writeAutomaticOffset ac offset (writeBounds i db (writePlaced i true ls))
    else ls.

(** Third pass, first loop: an unplaced aircraft seen for the first time
    starts at its ideal offset. *)
Definition startIdeal (i : nat) (ac : AcPtr) (ls : LayoutState) : LayoutState :=
  if placedAt ls i then ls
  else
    let state := stateOf ls ac in
    if iszero2f (datablockAutomaticOffset state)
    then writeAutomaticOffset ac (offsetSelfOnly ac state) ls
    else ls.

(** "Initialize current datablockBounds for all of the unplaced aircraft". *)
Definition initBounds (i : nat) (ac : AcPtr) (ls : LayoutState) : LayoutState :=
  if placedAt ls i then ls
  else
    let state := stateOf ls ac in
    let pw := windowFromLatLongP (Position (deref ac)) in
    writeBounds i (Extent2D.Expand (WindowDatablockBounds state pw) (#5)%f32) ls.

(** The repulsion that the boxes overlapping [db] exert on the box at index
    [i], with the flag [anyOverlap]. *)
Definition repulse (i : nat) (db : Extent2D) (j : nat) (pb : Extent2D)
    (acc : vec2 * bool) : vec2 * bool :=
  if (i =? j)%nat || negb (Overlaps db pb) then acc
  else
    let v := sub2f (Extent2D.Center db) (Extent2D.Center pb) in
    (add2f acc.1 (normalize2f v), true).

Definition iterScale : float32 := (#2)%f32.

(** The step that one relaxation iteration computes for the box at index
    [i]: the sum of the repulsions, scaled by [iterScale] and cut to the
    length 32. *)
Definition relaxStep (i : nat) (ls : LayoutState) (anyOverlap : bool) : vec2 * bool :=
  let db := boundsAt ls i in
  let '(force, anyOverlap) := forRange (repulse i db) (ls_bounds ls) (vzero, anyOverlap) in
  let force := scale2f force iterScale in
  let maxlen := (#32)%f32 in
  let force :=
    if (length2f force >? maxlen)%f32
    then scale2f force (maxlen / length2f force)%f32
    else force in
  (force, anyOverlap).

(** The body of the loop over the aircraft in one relaxation iteration. *)
Definition relaxOne (i : nat) (ac : AcPtr) (st : LayoutState * bool) : LayoutState * bool :=
  let '(ls, anyOverlap) := st in
  if placedAt ls i then st
  else
    let db := boundsAt ls i in
    let '(force, anyOverlap) := relaxStep i ls anyOverlap in
    let state := stateOf ls ac in
    let ls := writeAutomaticOffset ac (add2f (datablockAutomaticOffset state) force) ls in
    (writeBounds i db ls, anyOverlap).

Section Slice.

(** The sorted slice [aircraft]. *)
Variable acs : list AcPtr.

(** One iteration of [for iter := 0; iter < 20; iter++]; [anyOverlap] is
    only written. *)
Definition relaxIteration (ls : LayoutState) : LayoutState :=
  (forRange relaxOne acs (ls, false)).1.

Definition relaxation (ls : LayoutState) : LayoutState :=
  Nat.iter 20 relaxIteration ls.

(** The body of the loop over the aircraft in one pass of the last loop:
    "pull everyone in along their attraction line". *)
Definition attractOne (i : nat) (ac : AcPtr) (st : LayoutState * bool) : LayoutState * bool :=
  let '(ls, anyMoved) := st in
  if placedAt ls i then st
  else
    let db := boundsAt ls i in
    let state := stateOf ls ac in
    let goBack := sub2f (offsetSelfOnly ac state) (datablockAutomaticOffset state) in
    if (length2f goBack <? #1)%f32 then st
    else
      let force := normalize2f goBack in
      let dbMoved := Extent2D.Offset db force in
      if allowedOther ls i dbMoved
      then (writeAutomaticOffset ac (add2f (datablockAutomaticOffset state) force)
              (writeBounds i dbMoved ls), true)
      else st.

(** One pass of [for { ... if !anyMoved { break } }]. *)
Definition attractPass (ls : LayoutState) : LayoutState * bool :=
  forRange attractOne acs (ls, false).

(** The layout state when the relaxation begins: the three passes are
    over and every unplaced index has its current box. *)
Definition layoutStarted : LayoutState :=
  let n := length acs in
  let ls := mkLayout (aircraft rs) (replicate n Extent2D.zero) (replicate n false) in
  let ls := forRange pinManual acs ls in
  let ls := forRange placeIdeal acs ls in
  let ls := forRange startIdeal acs ls in
  forRange initBounds acs ls.

(** The layout state when the relaxation is over and the last loop begins. *)
Definition layoutRelaxed : LayoutState := relaxation layoutStarted.

(** The automatic layout over the slice [acs]; [fuel] bounds the number of
    passes of the last loop. *)
Definition layoutAutomatic (fuel : nat) : option LayoutState :=
  loopWhile attractPass fuel layoutRelaxed.

End Slice.

(** [RadarScopePane.layoutDatablocks]. *)
Definition layoutDatablocks (fuel : nat) : option RadarScopePane :=
  if negb (AutomaticDatablockLayout rs)
  then Some (setAircraft layoutSelfOnly rs)
  else (fun ls => setAircraft (ls_states ls) rs) <$> layoutAutomatic layoutAircraft fuel.

End Layout.


(** ** Range indicators and the conflict alert *)

(** [time.Time] and [time.Duration] in nanoseconds; the zero [time.Time] is
    0.  [Sub] saturates at the bounds of a [Duration], a 64 bit integer. *)
Definition Second : Z := 1000000000.

Definition maxDuration : Z := 2 ^ 63 - 1.
Definition minDuration : Z := - 2 ^ 63.

Definition timeSub (t u : Z) : Z := Z.max minDuration (Z.min maxDuration (t - u)).

(** [time.Since(t)] when the clock reads [now]. *)
Definition timeSince (now t : Z) : Z := timeSub now t.

(** Modelled from the spec: the type [RangeConflict] returned by
    [GetConflicts] is declared outside [src/]; by section 4.2 (a) each
    entry carries the pair and the limits entry used. *)
Record RangeConflict : Type := mkConflict {
  conflictAircraft : AcPtr * AcPtr;
  conflictLimits : RangeLimits
}.

(** The events handed to [globalConfig.AudioSettings.HandleEvent]. *)
Inductive AudioEvent : Type := AudioEventConflictAlert.

(** [rs.rangeWarnings[AircraftPair{a, b}] = nil] for both orders of every
    pair of the list. *)
Definition addRangeWarnings (l : list RangeConflict) (m : gset AircraftPair) : gset AircraftPair :=
  foldl (fun m w =>
           {[ ((conflictAircraft w).2, (conflictAircraft w).1) ]}
           ∪ ({[ ((conflictAircraft w).1, (conflictAircraft w).2) ]} ∪ m)) m l.

Section Proximity.

Variable deref : AcPtr -> Aircraft.

(** [GetConflicts], declared outside [src/]: the warnings and the
    violations among the aircraft handed to it. *)
Variable GetConflicts : list AcPtr -> list RangeLimits -> list RangeConflict * list RangeConflict.

(** The aircraft that [drawRangeIndicators] hands to [GetConflicts]: not a
    ghost, not lost, inside the altitude range. *)
Definition rangeAircraft (rs : RadarScopePane) : list AcPtr :=
  (filter (fun p : AcPtr * AircraftScopeState =>
             negb (isGhost p.2) && negb (LostTrack (deref p.1))
             && (Altitude (deref p.1) >=? MinAltitude rs)
             && (Altitude (deref p.1) <=? MaxAltitude rs) = true)
          (map_to_list (aircraft rs))).*1.

(** [RadarScopePane.drawRangeIndicators], up to the audio alert: the pane
    afterwards and the audio events fired.  [clock.1] is what the clock
    reads in [time.Since], [clock.2] what it reads in the [time.Now] that
    follows.  The drawing that comes after has no effect on the pane. *)
Definition drawRangeIndicators (rs : RadarScopePane) (clock : Z * Z)
    : RadarScopePane * list AudioEvent :=
  if negb (DrawRangeIndicators rs) then (rs, [])
  else
    let '(warnings, violations) := GetConflicts (rangeAircraft rs) (RangeLimitsTable rs) in
    let rs := setRangeWarnings (addRangeWarnings violations (addRangeWarnings warnings ∅)) rs in
    if (0 <? length violations)%nat
       && (timeSince clock.1 (lastRangeNotificationPlayed rs) >? 3 * Second)
    then (setLastRangeNotificationPlayed clock.2 rs, [AudioEventConflictAlert])
    else (rs, []).

(** Successive frames: the audio events of all of them. *)
Definition drawRangeIndicatorsOver (rs : RadarScopePane) (clocks : list (Z * Z))
    : RadarScopePane * list AudioEvent :=
  foldl (fun st clock =>
           let '(rs', events) := drawRangeIndicators st.1 clock in
           (rs', st.2 ++ events))
        (rs, []) clocks.

End Proximity.

(** ** Miles in trail *)

(** Modelled from the spec: the type [Arrival] returned by
    [getDistanceSortedArrivals] is declared outside [src/]; the code reads
    its field [aircraft], and by section 4.2 (b) the arrivals are sorted by
    their distance to the destination. *)
Record Arrival : Type := mkArrival {
  arrivalAircraft : AcPtr;
  arrivalDistance : float32
}.

(** The three colours [ctx.cs.Safe], [ctx.cs.Caution] and [ctx.cs.Error]. *)
Inductive Severity : Type := Safe | Caution | Error.

(** One call of the closure [annotatedLine]: the line from [p0] to [p1] in
    a colour, the two distances of its text, and whether the text is drawn
    (its centre lies inside the pane).  [mitPair] is not drawn: it names
    the two aircraft whose positions [p0] and [p1] are. *)
Record MITLine : Type := mkMITLine {
  mitP0 : vec2;
  mitP1 : vec2;
  mitColor : Severity;
  mitText : float32 * float32;
  mitTextDrawn : bool;
  mitPair : AircraftPair
}.

Section MIT.

Variable deref : AcPtr -> Aircraft.
Variable windowFromLatLongP : vec2 -> vec2.
Variables paneWidth paneHeight : float32.

(** Helpers and globals declared outside [src/]: the distance in nautical
    miles between two positions, the heading from one position to another
    for a magnetic correction, the difference of two headings, the midpoint
    of two positions, the distance that two aircraft will have after some
    seconds, [database.MagneticVariation], the arrivals to a set of
    airports sorted by distance, and the sequence [positionConfig.mit]. *)
Variable nmdistance2ll : vec2 -> vec2 -> float32.
Variable headingp2ll : vec2 -> vec2 -> float32 -> float32.
Variable headingDifference : float32 -> float32 -> float32.
Variable mid2ll : vec2 -> vec2 -> vec2.
Variable EstimatedFutureDistance : AcPtr -> AcPtr -> Z -> float32.
Variable MagneticVariation : float32.
Variable getDistanceSortedArrivals : gset string -> list Arrival.
Variable mit : list AcPtr.

Variable rs : RadarScopePane.

(** The closure [annotatedLine]. *)
Definition annotatedLine (p0 p1 : vec2) (color : Severity) (text : float32 * float32)
    (pair : AircraftPair) : MITLine :=
  let textPos := windowFromLatLongP (mid2ll p0 p1) in
  let drawn := ((textPos.1 >=? #0) && (textPos.1 <? paneWidth)
                && (textPos.2 >=? #0) && (textPos.2 <? paneHeight))%f32 in
  mkMITLine p0 p1 color text drawn pair.

(** The choice of the colour, the same in both modes. *)
Definition severityOf (dist : float32) : Severity :=
  if (dist >? #5)%f32 then Safe
  else if (dist >? #3)%f32 then Caution
  else Error.

(** The closure [inTrail]. *)
Definition inTrail (front back : Arrival) : bool :=
  let dalt := Altitude (deref (arrivalAircraft back)) - Altitude (deref (arrivalAircraft front)) in
  let backHeading := Heading (deref (arrivalAircraft back)) in
  let angle := headingp2ll (Position (deref (arrivalAircraft back)))
                 (Position (deref (arrivalAircraft front))) MagneticVariation in
  let diff := headingDifference backHeading angle in
  (diff <? #150)%f32 && (dalt <? 3000).

(** What the search for the arrival at index [i] holds: [minDist], and
    [closest] with [estDist] once [closestSet] is true. *)
Definition Search : Type := float32 * option (Arrival * float32).

(** The body of the loop over [j]. *)
Definition searchStep (i : nat) (ai : Arrival) (j : nat) (aj : Arrival) (st : Search) : Search :=
  let ac := arrivalAircraft ai in
  let ac2 := arrivalAircraft aj in
  let dist := nmdistance2ll (Position (deref ac)) (Position (deref ac2)) in
  if (i =? j)%nat || negb (String.eqb (arrive (deref ac2)) (arrive (deref ac))) then st
  else if (dist <? st.1)%f32 && inTrail ai aj
       then (dist, Some (aj, EstimatedFutureDistance ac2 ac 30))
       else st.

Definition search (arr : list Arrival) (i : nat) (ai : Arrival) : Search :=
  forRange (searchStep i ai) arr ((#20)%f32, None).

(** The body of the loop over [i], which starts at 1. *)
Definition autoMITStep (arr : list Arrival) (i : nat) (ai : Arrival) (out : list MITLine)
    : list MITLine :=
  if (i =? 0)%nat then out
  else
    let ac := arrivalAircraft ai in
    match search arr i ai with
    | (minDist, Some (closest, estDist)) =>
        let p0 := Position (deref ac) in
        let p1 := Position (deref (arrivalAircraft closest)) in
        if bool_decide ((ac, arrivalAircraft closest) ∈ rangeWarnings rs) then out
        else out ++ [annotatedLine p0 p1 (severityOf minDist) (minDist, estDist)
                       (ac, arrivalAircraft closest)]
    | (_, None) => out
    end.

(** The body of the loop of the other branch, over [positionConfig.mit]
    from index 1, with the aircraft before it. *)
Definition sequenceMITStep (i : nat) (trailing : AcPtr) (out : list MITLine) : list MITLine :=
  match i with
  | O => out
  | Datatypes.S i' =>
      match mit !! i' with
      | None => out
      | Some front =>
          if bool_decide ((front, trailing) ∈ rangeWarnings rs) then out
          else
            let pfront := Position (deref front) in
            let ptrailing := Position (deref trailing) in
            let dist := nmdistance2ll pfront ptrailing in
            let estDist := EstimatedFutureDistance front trailing 30 in
            out ++ [annotatedLine pfront ptrailing (severityOf dist) (dist, estDist)
                      (front, trailing)]
      end
  end.

(** [RadarScopePane.drawMIT]: the lines it draws, in order. *)
Definition drawMIT : list MITLine :=
  if AutoMIT rs && (length mit =? 0)%nat
  then
    let arr := getDistanceSortedArrivals (AutoMITAirports rs) in
    forRange (autoMITStep arr) arr []
  else forRange sequenceMITStep mit [].

End MIT.

(** The candidates that the search for the arrival [ai] at index [i]
    lets through: another index, the same destination, and
    [inTrail ai aj]. *)
Definition candidate (deref : AcPtr -> Aircraft)
    (headingp2ll : vec2 -> vec2 -> float32 -> float32)
    (headingDifference : float32 -> float32 -> float32) (MagneticVariation : float32)
    (i : nat) (ai : Arrival) (j : nat) (aj : Arrival) : bool :=
  negb (i =? j)%nat
  && String.eqb (arrive (deref (arrivalAircraft aj))) (arrive (deref (arrivalAircraft ai)))
  && inTrail deref headingp2ll headingDifference MagneticVariation ai aj.

(** ** The predecessor as the specification words it *)

(** Section 4.2 (b) asks, for an arrival, for a predecessor: another
    aircraft bound for the same destination, within 20 distance units, such
    that the heading of the trailing aircraft (the arrival) differs from
    the bearing from it to the leading one (the predecessor) by less than
    150 degrees, and with an altitude difference below 3000. *)
Definition claimedPredecessor (deref : AcPtr -> Aircraft)
    (nmdistance2ll : vec2 -> vec2 -> float32)
    (headingp2ll : vec2 -> vec2 -> float32 -> float32)
    (headingDifference : float32 -> float32 -> float32) (MagneticVariation : float32)
    (trailing leading : AcPtr) : bool :=
  negb (bool_decide (trailing = leading))
  && String.eqb (arrive (deref leading)) (arrive (deref trailing))
  && (nmdistance2ll (Position (deref trailing)) (Position (deref leading)) <? #20)%f32
  && (headingDifference (Heading (deref trailing))
        (headingp2ll (Position (deref trailing)) (Position (deref leading)) MagneticVariation)
      <? #150)%f32
  && (Z.abs (Altitude (deref trailing) - Altitude (deref leading)) <? 3000).

(** ** The anchor policy as the specification words it *)

(** The specification lists eight sectors of the wrapped heading, of widths
    30/60/30/90/30/60/30/60 degrees, and the anchor of each.  This is that
    table, to be compared with [datablockConnectP]. *)
Definition claimedSectors : list (Z * Anchor) :=
  [ (30, LeftEdgeMid); (60, BottomLeftCorner); (30, BottomEdgeMid);
    (90, BottomLeftCorner); (30, LeftEdgeMid); (60, BottomLeftCorner);
    (30, BottomEdgeMid); (60, BottomLeftCorner) ].

Fixpoint claimedAnchorFrom (lo : Z) (h : float32) (sectors : list (Z * Anchor)) : option Anchor :=
  match sectors with
  | [] => None
  | (w, a) :: rest =>
      if (h <? #(lo + w))%f32 then Some a else claimedAnchorFrom (lo + w) h rest
  end.

(** The anchor that the specification gives to a heading [h] in [0,360). *)
Definition claimedAnchor (h : float32) : option Anchor :=
  claimedAnchorFrom 0 h claimedSectors.

(** The sectors of [datablockConnectP], as bounds on a wrapped heading [h]
    in [0,360): [sectorTable h a] says that [a] is the anchor of the sector
    in which [h] lies. *)
Definition sectorTable (h : float32) (a : Anchor) : Prop :=
  ((#0 <=? h)%f32 = true -> (h <? #30)%f32 = true -> a = LeftEdgeMid)
  /\ ((#30 <=? h)%f32 = true -> (h <? #90)%f32 = true -> a = TopLeftCorner)
  /\ ((#90 <=? h)%f32 = true -> (h <? #120)%f32 = true -> a = TopEdgeMid)
  /\ ((#120 <=? h)%f32 = true -> (h <? #180)%f32 = true -> a = BottomLeftCorner)
  /\ ((#180 <=? h)%f32 = true -> (h <? #210)%f32 = true -> a = LeftEdgeMid)
  /\ ((#210 <=? h)%f32 = true -> (h <? #270)%f32 = true -> a = TopLeftCorner)
  /\ ((#270 <=? h)%f32 = true -> (h <? #300)%f32 = true -> a = BottomEdgeMid)
  /\ ((#300 <=? h)%f32 = true -> (h <? #360)%f32 = true -> a = BottomLeftCorner).

(** The offset that puts the anchor [a] of the padded box on the track:
    the opposite of the anchor, pushed 3 units further for an edge
    midpoint. *)
Definition anchorOffset (a : Anchor) (bbox : Extent2D) : vec2 :=
  let v := scale2f (anchorPoint a bbox) (#(-1))%f32 in
  if anchorIsCorner a then v else add2f v (scale2f (normalize2f v) (#3)%f32).

(** ** Events *)

(** The events of the aircraft stream that [processEvents] handles. *)
Inductive Event : Type :=
| AddedAircraftEvent (ac : AcPtr)
| RemovedAircraftEvent (ac : AcPtr)
| ModifiedAircraftEvent (ac : AcPtr)
| PointOutEvent (ac : AcPtr) (controller : string).

(** The part "new ghost" of the cases of an added and of a modified
    aircraft.  [ghost] is what [rs.CRDAConfig.GetGhost(v.ac)], declared
    outside [src/], returns for this event: nil or a ghost aircraft. *)
Definition newGhost (ghost : option AcPtr) (ac : AcPtr) (rs : RadarScopePane) : RadarScopePane :=
  if CRDAEnabled rs then
    match ghost with
    | Some g =>
        setAircraft (<[g := newGhostScopeState]> (aircraft rs))
          (setGhostAircraft (<[ac := g]> (ghostAircraft rs)) rs)
    | None => rs
    end
  else rs.

(** One iteration of the loop of [processEvents]. *)
Definition processEvent (rs : RadarScopePane) (ev : Event * option AcPtr) : RadarScopePane :=
  let '(event, ghost) := ev in
  match event with
  | AddedAircraftEvent ac =>
      newGhost ghost ac (setAircraft (<[ac := newScopeState]> (aircraft rs)) rs)
  | RemovedAircraftEvent ac =>
      let rs :=
        match ghostAircraft rs !! ac with
        | Some g => setAircraft (delete g (aircraft rs)) rs
        | None => rs
        end in
      let rs := setAircraft (delete ac (aircraft rs)) rs in
      setGhostAircraft (delete ac (ghostAircraft rs)) rs
  | ModifiedAircraftEvent ac =>
      let rs :=
        if CRDAEnabled rs then
          match ghostAircraft rs !! ac with
          | Some oldGhost =>
              setGhostAircraft (delete ac (ghostAircraft rs))
                (setAircraft (delete oldGhost (aircraft rs)) rs)
          | None => rs
          end
        else rs in
      let rs :=
        match aircraft rs !! ac with
        | None => setAircraft (<[ac := newScopeState]> (aircraft rs)) rs
        | Some state => setAircraft (<[ac := setTextCurrent false state]> (aircraft rs)) rs
        end in
      newGhost ghost ac rs
  | PointOutEvent ac controller =>
      setPointedOutAircraft (<[ac := (controller, 5 * Second)]> (pointedOutAircraft rs)) rs
  end.

(** [RadarScopePane.processEvents]: the events of the frame in the order of
    their delivery, each with the ghost that [GetGhost] returns for it. *)
Definition processEvents (rs : RadarScopePane) (events : list (Event * option AcPtr))
    : RadarScopePane :=
  foldl processEvent rs events.

(** ** Duplicating a pane *)

(** [Duplicate] is where the pointers of the store matter: here the pane
    holds a [*AircraftScopeState] for every aircraft and the objects live
    in a heap. *)
Module Dup.

Definition StatePtr : Type := positive.

(** The scope states and the aircraft objects that are allocated. *)
Record Heap : Type := mkHeap {
  states : gmap StatePtr AircraftScopeState;
  objects : gmap AcPtr Aircraft
}.

(** The fields of [RadarScopePane] that [Duplicate] does not copy as they
    are, the static draw configuration, the command buffers and the event
    subscription apart. *)
Record Pane : Type := mkPane {
  ScopeName : string;
  rangeWarnings : gset AircraftPair;
  aircraft : gmap AcPtr StatePtr;
  ghostAircraft : gmap AcPtr AcPtr;
  pointedOutAircraft : gmap AcPtr (string * Z);
  AutoMITAirports : gset string
}.

(** [&AircraftScopeState{isGhost: tracked.isGhost, datablockText:
    tracked.datablockText}]. *)
Definition copyState (tracked : AircraftScopeState) : AircraftScopeState :=
  mkScopeState (isGhost tracked) vzero vzero (datablockText tracked) false Extent2D.zero.

(** The body of the loop over [rs.aircraft]: a new state is allocated. *)
Definition copyTracked (h : Heap) (ac : AcPtr) (tracked : StatePtr)
    (acc : gmap StatePtr AircraftScopeState * gmap AcPtr StatePtr)
    : gmap StatePtr AircraftScopeState * gmap AcPtr StatePtr :=
  let p := fresh (dom acc.1) in
  (<[p := copyState (default newScopeState (states h !! tracked))]> acc.1,
   <[ac := p]> acc.2).

(** The body of the loop over [rs.ghostAircraft]: [ghost := *gh] is a new
    aircraft object with the fields of the ghost. *)
Definition copyGhost (h : Heap) (ac : AcPtr) (gh : AcPtr)
    (acc : gmap AcPtr Aircraft * gmap AcPtr AcPtr)
    : gmap AcPtr Aircraft * gmap AcPtr AcPtr :=
  let g := fresh (dom acc.1) in
  (<[g := default zeroAircraft (objects h !! gh)]> acc.1, <[ac := g]> acc.2).

(** [RadarScopePane.Duplicate]: the heap afterwards and the new pane. *)
Definition Duplicate (h : Heap) (rs : Pane) (nameAsCopy : bool) : Heap * Pane :=
  let name := if nameAsCopy then String.append (ScopeName rs) " Copy" else ScopeName rs in
  let '(states', aircraft') := map_fold (copyTracked h) (states h, ∅) (aircraft rs) in
  let '(objects', ghosts') := map_fold (copyGhost h) (objects h, ∅) (ghostAircraft rs) in
  (mkHeap states' objects',
   mkPane name (rangeWarnings rs) aircraft' ghosts' ∅ (AutoMITAirports rs)).

(** The store of a pane as the per-frame engines see it. *)
Definition store (h : Heap) (rs : Pane) : gmap AcPtr AircraftScopeState :=
  omap (fun p => states h !! p) (aircraft rs).

End Dup.

(** ** Reading the layout state *)

(** What a loop body of the third pass or of the two loops after it does to
    the layout state at an index that is not placed: it may write the
    automatic offset of that index's aircraft and the box of that index,
    nothing else. *)
Definition updUnplaced (i : nat) (ac : AcPtr) (ov : option vec2) (ob : option Extent2D)
    (ls : LayoutState) : LayoutState :=
  mkLayout
    (from_option (fun v => alter (setAutomaticOffset v) ac (ls_states ls)) (ls_states ls) ov)
    (from_option (fun b => <[i:=b]> (ls_bounds ls)) (ls_bounds ls) ob)
    (ls_placed ls).

(** A property of layout states that such writes keep, for the slice
    [acs]. *)
Definition keptByAdjust (acs : list AcPtr) (P : LayoutState -> Prop) : Prop :=
  forall i ac ov ob ls,
    acs !! i = Some ac -> placedAt ls i = false -> P ls -> P (updUnplaced i ac ov ob ls).

(** The two slices are as long as the slice of aircraft. *)
Definition sized (acs : list AcPtr) (ls : LayoutState) : Prop :=
  length (ls_bounds ls) = length acs /\ length (ls_placed ls) = length acs.

(** The aircraft [ac] is pinned: its state is [st], and every index of the
    slice that holds it is placed with the box [B]. *)
Definition pinned (acs : list AcPtr) (ac : AcPtr) (st : AircraftScopeState) (B : Extent2D)
    (ls : LayoutState) : Prop :=
  sized acs ls
  /\ ls_states ls !! ac = Some st
  /\ forall i, acs !! i = Some ac ->
       ls_placed ls !! i = Some true /\ ls_bounds ls !! i = Some B.

(** No state has lost or gained a manual offset with respect to the store
    [m]. *)
Definition manualKept (m : gmap AcPtr AircraftScopeState) (ls : LayoutState) : Prop :=
  forall ac, datablockManualOffset (stateOf ls ac)
             = datablockManualOffset (default newScopeState (m !! ac)).

(** Two placed boxes do not overlap unless both belong to aircraft with a
    manual offset; an index that is not placed has no manual offset. *)
Definition separated (acs : list AcPtr) (ls : LayoutState) : Prop :=
  (forall i x, acs !! i = Some x -> placedAt ls i = false ->
               hasManualOffset (stateOf ls x) = false)
  /\ (forall i j xi xj,
        i <> j -> acs !! i = Some xi -> acs !! j = Some xj ->
        placedAt ls i = true -> placedAt ls j = true ->
        hasManualOffset (stateOf ls xi) = false \/ hasManualOffset (stateOf ls xj) = false ->
        Overlaps (boundsAt ls i) (boundsAt ls j) = false).

(** A float that is neither a NaN nor an infinity; a vector of two such. *)
Definition isFinite (x : float32) : bool :=
  match x with
  | S754_nan | S754_infinity _ => false
  | _ => true
  end.

Definition finite2f (v : vec2) : bool := isFinite v.1 && isFinite v.2.

(** The padded label box of the aircraft [ac] when its state is [s]:
    [state.WindowDatablockBounds(pw).Expand(5)], what its datablock takes
    up in the window. *)
Definition paddedLabelBox (deref : AcPtr -> Aircraft) (windowFromLatLongP : vec2 -> vec2)
    (ac : AcPtr) (s : AircraftScopeState) : Extent2D :=
  Extent2D.Expand (WindowDatablockBounds s (windowFromLatLongP (Position (deref ac)))) (#5)%f32.

(** The box [db] that the second pass tests for an aircraft whose state is
    [s]: the padded label box moved by [netOffset], the difference between
    the ideal and the current automatic offset. *)
Definition movedToIdeal (deref : AcPtr -> Aircraft) (windowFromLatLongP : vec2 -> vec2)
    (rs : RadarScopePane) (ac : AcPtr) (s : AircraftScopeState) : Extent2D :=
  Extent2D.Offset (paddedLabelBox deref windowFromLatLongP ac s)
    (sub2f (offsetSelfOnly deref rs ac s) (datablockAutomaticOffset s)).

(** What the layout holds for a placed index, in terms of the state [s] that
    its aircraft had in the store when the layout began: an aircraft with a
    manual offset has kept its state and its box is its padded label box;
    any other one has got its ideal offset and its box is the one that the
    second pass tested. *)
Definition recorded (deref : AcPtr -> Aircraft) (windowFromLatLongP : vec2 -> vec2)
    (rs : RadarScopePane) (acs : list AcPtr) (ls : LayoutState) : Prop :=
  forall i x, acs !! i = Some x -> placedAt ls i = true ->
    let s := default newScopeState (aircraft rs !! x) in
    if hasManualOffset s
    then stateOf ls x = s
         /\ boundsAt ls i = paddedLabelBox deref windowFromLatLongP x s
    else stateOf ls x = setAutomaticOffset (offsetSelfOnly deref rs x s) s
         /\ boundsAt ls i = movedToIdeal deref windowFromLatLongP rs x s.

(** During the first two passes: the aircraft of the slice are tracked, and
    one at an index that is not placed has no manual offset and still has
    the state that it had in the store. *)
Definition untouched (rs : RadarScopePane) (acs : list AcPtr) (ls : LayoutState) : Prop :=
  (forall x, x ∈ acs -> is_Some (ls_states ls !! x))
  /\ forall i x, acs !! i = Some x -> placedAt ls i = false ->
       stateOf ls x = default newScopeState (aircraft rs !! x)
       /\ hasManualOffset (stateOf ls x) = false.



(** ** Concrete scenes *)

Module Scene.

(** A label box 40 wide and 12 high, as [updateDatablockTextAndBounds]
    builds it: from [(0,-12)] to [(40,0)]. *)
Definition box : Extent2D := mkExtent (#0, #(-12))%f32 (#40, #0)%f32.

Definition mkAc (cs : string) (x y h alt : Z) : Aircraft :=
  mkAircraft cs (#x, #y)%f32 (#h)%f32 alt false "KJFK".

Definition state (auto manual : vec2) : AircraftScopeState :=
  mkScopeState false auto manual (String.EmptyString, String.EmptyString) true box.

Definition pane (automatic : bool) (acs : gmap AcPtr AircraftScopeState) : RadarScopePane :=
  mkPane (#0)%f32 automatic 0 60000 true [] ∅ false ∅ false 0 acs ∅ ∅.

(** Window coordinates are the positions themselves; the pane is 1000 by
    1000. *)
Definition project (p : vec2) : vec2 := p.
Definition side : float32 := (#1000)%f32.

End Scene.

(** ** A scene for the conflict alert *)

Module AlertScene.

Definition deref (ac : AcPtr) : Aircraft := Scene.mkAc "AAL1" 100 100 0 5000.

Definition limits : RangeLimits := mkRangeLimits (#5)%f32 1000 (#3)%f32 500.

(** A detector that reports two violations and no warning. *)
Definition twoViolations (acs : list AcPtr) (table : list RangeLimits)
    : list RangeConflict * list RangeConflict :=
  ([], [mkConflict (1%positive, 2%positive) limits; mkConflict (1%positive, 3%positive) limits]).

(** A pane whose last alert was played at [last]. *)
Definition pane (last : Z) : RadarScopePane :=
  mkPane (#0)%f32 false 0 60000 true [] ∅ false ∅ false last ∅ ∅ ∅.

(** Some instant of the year 2022, in nanoseconds since the zero time. *)
Definition t0 : Z := 63800000000 * Second.

End AlertScene.

(** ** A scene for miles in trail *)

Module MITScene.

(** Three arrivals to the same airport on one meridian, all heading north at
    5000 feet: [AAL1] at 10 miles from the airport, [BAW2] 5 miles behind
    it, [DAL3] 5 miles further behind.  Positions are in nautical miles. *)
Definition deref (ac : AcPtr) : Aircraft :=
  match ac with
  | 1%positive => Scene.mkAc "AAL1" 0 (-10) 0 5000
  | 2%positive => Scene.mkAc "BAW2" 0 (-15) 0 5000
  | _ => Scene.mkAc "DAL3" 0 (-20) 0 5000
  end.

Definition arrivals (airports : gset string) : list Arrival :=
  [mkArrival 1%positive (#10)%f32; mkArrival 2%positive (#15)%f32;
   mkArrival 3%positive (#20)%f32].

(** Modelled from the spec: the helpers [nmdistance2ll], [headingp2ll],
    [headingDifference], [mid2ll] and [EstimatedFutureDistance] are
    declared outside [src/]; section 4.2 speaks of the lateral distance in
    a planar approximation, of the bearing from one aircraft to another, of
    the difference of two headings and of the distance projected along the
    ground tracks.  On this meridian the distance is the length of the
    difference, the heading from [p] to [q] is north (0) when [q] lies
    north of [p] and south (180) otherwise, two headings differ by the
    absolute value of their difference, at most 180, and the aircraft,
    flying at the same speed, keep their distance. *)
Definition nmdistance2ll (p q : vec2) : float32 := length2f (sub2f p q).

Definition headingp2ll (p q : vec2) (magCorrection : float32) : float32 :=
  if (q.2 >? p.2)%f32 then (#0)%f32 else (#180)%f32.

Definition headingDifference (a b : float32) : float32 :=
  let d := SFabs (a - b)%f32 in
  if (d >? #180)%f32 then (#360 - d)%f32 else d.

Definition mid2ll (p q : vec2) : vec2 :=
  (((p.1 + q.1) / #2)%f32, ((p.2 + q.2) / #2)%f32).

Definition EstimatedFutureDistance (a b : AcPtr) (seconds : Z) : float32 :=
  nmdistance2ll (Position (deref a)) (Position (deref b)).

(** A pane with automatic miles in trail, or without. *)
Definition pane (auto : bool) (warnings : gset AircraftPair) : RadarScopePane :=
  mkPane (#0)%f32 false 0 60000 true [] warnings auto {["KJFK"%string]} false 0 ∅ ∅ ∅.

(** A detector that reports one warning, between [BAW2] and [AAL1]. *)
Definition oneWarning (acs : list AcPtr) (table : list RangeLimits)
    : list RangeConflict * list RangeConflict :=
  ([mkConflict (2%positive, 1%positive) AlertScene.limits], []).

End MITScene.

(** ** A scene for events and duplication *)

Module StoreScene.

(** A pane that tracks [AAL1], dragged to the manual offset (10,10), with
    its ghost, the aircraft 9; converging runway display is on. *)
Definition tracked : AircraftScopeState :=
  mkScopeState false (#3, #4)%f32 (#10, #10)%f32 ("AAL1"%string, "AAL1 50"%string) true
    Scene.box.

Definition pane : RadarScopePane :=
  mkPane (#0)%f32 false 0 60000 true [] ∅ false ∅ true 0
    (<[1%positive := tracked]> (<[9%positive := newGhostScopeState]> ∅))
    (<[1%positive := 9%positive]> ∅) ∅.

(** The same pane with its pointers: the state of [AAL1] at address 1, the
    state of its ghost at address 2. *)
Definition heap : Dup.Heap :=
  Dup.mkHeap (<[1%positive := tracked]> (<[2%positive := newGhostScopeState]> ∅))
    (<[1%positive := Scene.mkAc "AAL1" 100 100 0 5000]>
       (<[9%positive := Scene.mkAc "AAL1" 300 300 0 5000]> ∅)).

Definition refs : Dup.Pane :=
  Dup.mkPane "Scope" ∅ (<[1%positive := 1%positive]> (<[9%positive := 2%positive]> ∅))
    (<[1%positive := 9%positive]> ∅) ∅ ∅.

End StoreScene.

(** ** Scenes for the layout *)

Module LayoutScene.

Import Scene.

(** Two aircraft on the same spot and a third one far from them, at 5000
    feet and heading north; a fourth one on the spot of the first two,
    heading north-east. *)
Definition deref (ac : AcPtr) : Aircraft :=
  match ac with
  | 1%positive => mkAc "AAL1" 100 100 0 5000
  | 2%positive => mkAc "BAW2" 100 100 0 5000
  | 3%positive => mkAc "DAL3" 400 400 0 5000
  | _ => mkAc "EZY4" 100 100 45 5000
  end.

Definition manual10 : AircraftScopeState := state vzero (#10, #10)%f32.

Definition fresh : AircraftScopeState := state vzero vzero.

(** [AAL1] has the manual offset (10,10), [BAW2] has none and has not been
    laid out yet. *)
Definition store : gmap AcPtr AircraftScopeState :=
  <[1%positive := manual10]> (<[2%positive := fresh]> ∅).

(** [AAL1] with its manual offset and [DAL3], not laid out yet. *)
Definition apart : gmap AcPtr AircraftScopeState :=
  <[1%positive := manual10]> (<[3%positive := fresh]> ∅).

(** Both aircraft with the manual offset (10,10). *)
Definition bothManual : gmap AcPtr AircraftScopeState :=
  <[1%positive := manual10]> (<[2%positive := manual10]> ∅).


(** [EZY4] alone, not placed, three units to the right of its ideal offset
    (5,-5). *)
Definition returning : LayoutState :=
  mkLayout (<[4%positive := state (#8, #(-5))%f32 vzero]> ∅)
    [Extent2D.Expand (WindowDatablockBounds (state (#8, #(-5))%f32 vzero) (#100, #100)%f32)
       (#5)%f32]
    [false].

End LayoutScene.

(** ** A scene for two datablocks with a shared edge *)

Module EdgeScene.

Import Scene.

(** 60 + 2^-18, the binary32 number that follows 60. *)
Definition after60 : float32 := (#15728641 / #262144)%f32.

(** [AAL1] at (5,100), whose padded label box with the manual offset
    (10,10) ends at x = 60; [BAW2] at (60 + 2^-18, 100) and [DAL3] at
    (400,400), both heading north-east, with the ideal offset (5,-5). *)
Definition deref (ac : AcPtr) : Aircraft :=
  match ac with
  | 1%positive => mkAc "AAL1" 5 100 0 5000
  | 2%positive => mkAircraft "BAW2" (after60, #100)%f32 (#45)%f32 5000 false "KJFK"
  | _ => mkAc "DAL3" 400 400 45 5000
  end.

(** [AAL1] with its manual offset and [BAW2], not laid out yet. *)
Definition touching : gmap AcPtr AircraftScopeState :=
  <[1%positive := state vzero (#10, #10)%f32]> (<[2%positive := state vzero vzero]> ∅).

(** [AAL1] with its manual offset and [DAL3], which stands at its ideal
    offset already. *)
Definition settled : gmap AcPtr AircraftScopeState :=
  <[1%positive := state vzero (#10, #10)%f32]>
    (<[3%positive := state (#5, #(-5))%f32 vzero]> ∅).

End EdgeScene.

(** * The rest of the pane

    The functions of [src/radarscope.go] around the per-frame engines: the
    set-up of the store, the cached text, what is drawn for a conflict, a
    datablock and a route, and the mouse. *)

(** ** Setting up the store *)

(** [RadarScopePane.initializeAircraft]; [all] is [server.GetAllAircraft()],
    each aircraft with the ghost that [rs.CRDAConfig.GetGhost], declared
    outside [src/], returns for it. *)
Definition initializeAircraft (rs : RadarScopePane) (all : list (AcPtr * option AcPtr))
    : RadarScopePane :=
  foldl (fun rs p =>
           newGhost p.2 p.1 (setAircraft (<[p.1 := newScopeState]> (aircraft rs)) rs))
        (setGhostAircraft ∅ (setAircraft ∅ rs)) all.

(** The loop of [DrawUI] that runs when the datablock format has been
    edited: [state.datablockTextCurrent = false] for every state. *)
Definition staleDatablockText (rs : RadarScopePane) : RadarScopePane :=
  setAircraft (setTextCurrent false <$> aircraft rs) rs.

(** ** Reading the store *)

(** The two maps of a pane agree about the ghosts: a ghost link leads to a
    ghost state, a ghost state is reached by a ghost link, and by one
    only. *)
Definition ghostsConsistent (rs : RadarScopePane) : Prop :=
  (forall ac g, ghostAircraft rs !! ac = Some g ->
     exists s, aircraft rs !! g = Some s /\ isGhost s = true)
  /\ (forall g s, aircraft rs !! g = Some s -> isGhost s = true ->
        exists ac, ghostAircraft rs !! ac = Some g)
  /\ (forall a1 a2 g, ghostAircraft rs !! a1 = Some g -> ghostAircraft rs !! a2 = Some g ->
        a1 = a2).

(** No ghost link leads to [ac]: it is an aircraft of the server, not a
    ghost made for another one. *)
Definition notGhost (rs : RadarScopePane) (ac : AcPtr) : Prop :=
  forall x g, ghostAircraft rs !! x = Some g -> g <> ac.

(** The ghost that [GetGhost] returns for [ac], if any, is a new aircraft
    object: not [ac], and not tracked. *)
Definition newObject (rs : RadarScopePane) (ac : AcPtr) (ghost : option AcPtr) : Prop :=
  forall g, ghost = Some g -> g <> ac /\ aircraft rs !! g = None.

(** What the server keeps to when it delivers an event: the aircraft of the
    event is none of the ghosts, the ghost made for it is a new object, and
    an aircraft that has a ghost is not added again. *)
Definition eventFits (rs : RadarScopePane) (ev : Event * option AcPtr) : Prop :=
  match ev.1 with
  | AddedAircraftEvent ac =>
      notGhost rs ac /\ newObject rs ac ev.2
      /\ (CRDAEnabled rs = true -> is_Some ev.2 -> ghostAircraft rs !! ac = None)
  | RemovedAircraftEvent ac => notGhost rs ac
  | ModifiedAircraftEvent ac => notGhost rs ac /\ newObject rs ac ev.2
  | PointOutEvent _ _ => True
  end.

Fixpoint eventsFit (rs : RadarScopePane) (events : list (Event * option AcPtr)) : Prop :=
  match events with
  | [] => True
  | ev :: rest => eventFits rs ev /\ eventsFit (processEvent rs ev) rest
  end.

(** ** The cached text of a datablock *)

Section DatablockText.

Variable deref : AcPtr -> Aircraft.

(** Declared outside [src/]: the field [squawk] of an aircraft, the two
    handoff queries of the server, [rs.pointedOutAircraft.Get],
    [rs.DataBlockFormat.Format], [rs.datablockFont.BoundText], the helper
    [max] and the three icons. *)
Variable squawk : AcPtr -> Z.
Variables InboundHandoffController OutboundHandoffController : string -> string.
Variable pointedOutGet : gmap AcPtr (string * Z) -> AcPtr -> option string.
Variable Format : AcPtr -> bool -> Z -> string.
Variable BoundText : string -> Z -> Z * Z.
Variable max : float32 -> float32 -> float32.
Variables FontAwesomeIconArrowLeft FontAwesomeIconArrowRight
  FontAwesomeIconExclamationTriangle : string.

(** [squawkCount[sq]] after the first loop: the tracked aircraft with this
    squawk code that are not ghosts. *)
Definition squawkCount (rs : RadarScopePane) (sq : Z) : Z :=
  Z.of_nat (length (filter (fun p : AcPtr * AircraftScopeState =>
                              negb (isGhost p.2) && (squawk p.1 =? sq) = true)
                           (map_to_list (aircraft rs)))).

(** The line [hopo] under the text: handoffs and point out. *)
Definition hopo (rs : RadarScopePane) (ac : AcPtr) : string :=
  let isEmpty s := String.eqb s String.EmptyString in
  let h := String.EmptyString in
  let controller := InboundHandoffController (Callsign (deref ac)) in
  let h := if isEmpty controller then h
           else String.append h (String.append FontAwesomeIconArrowLeft controller) in
  let controller := OutboundHandoffController (Callsign (deref ac)) in
  let h := if isEmpty controller then h
           else String.append h (String.append FontAwesomeIconArrowRight controller) in
  let h := match pointedOutGet (pointedOutAircraft rs) ac with
           | Some controller =>
               String.append h (String.append FontAwesomeIconExclamationTriangle controller)
           | None => h
           end in
  if isEmpty h then h else String (Ascii.ascii_of_nat 10) h.

(** The two texts that the second loop formats for an aircraft. *)
Definition formatted (rs : RadarScopePane) (ac : AcPtr) : string * string :=
  let duplicate := negb (squawkCount rs (squawk ac) =? 1) in
  (String.append (Format ac duplicate 0) (hopo rs ac),
   String.append (Format ac duplicate 1) (hopo rs ac)).

(** The box of two texts: as wide and as high as the larger of them, its
    upper left corner at the origin. *)
Definition textBounds (text : string * string) : Extent2D :=
  let '(bx0, by0) := BoundText text.1 (-2) in
  let '(bx1, by1) := BoundText text.2 (-2) in
  let bx := max (#bx0)%f32 (#bx1)%f32 in
  let by_ := max (#by0)%f32 (#by1)%f32 in
  mkExtent ((#0)%f32, SFopp by_) (bx, (#0)%f32).

(** The body of the second loop of [updateDatablockTextAndBounds]. *)
Definition updateText (rs : RadarScopePane) (ac : AcPtr) (state : AircraftScopeState)
    : AircraftScopeState :=
  if filteredOut deref rs ac then state
  else if datablockTextCurrent state then state
  else
    let text := formatted rs ac in
    mkScopeState (isGhost state) (datablockAutomaticOffset state)
      (datablockManualOffset state) text true (textBounds text).

(** [RadarScopePane.updateDatablockTextAndBounds].  Every iteration of the
    second loop writes the state of its own aircraft only, and the first
    loop has read the ghost flags before. *)
Definition updateDatablockTextAndBounds (rs : RadarScopePane) : RadarScopePane :=
  setAircraft (map_imap (fun ac state => Some (updateText rs ac state)) (aircraft rs)) rs.

End DatablockText.

(** ** A scene for the cached text *)

Module TextScene.

(** Every aircraft squawks 1200 and nobody hands off; the text is the
    callsign, with a star when the squawk code is not the aircraft's own
    alone, and on the second line of the cycle the altitude in hundreds of
    feet; a character is 8 wide and a line 12 high. *)
Definition squawk (ac : AcPtr) : Z := 1200.

Definition noController (callsign : string) : string := String.EmptyString.

Definition pointedOutGet (m : gmap AcPtr (string * Z)) (ac : AcPtr) : option string :=
  fst <$> m !! ac.

Definition Format (ac : AcPtr) (duplicate : bool) (cycle : Z) : string :=
  let name := Callsign (LayoutScene.deref ac) in
  let name := if duplicate then String.append name "*" else name in
  if cycle =? 0 then name else String.append name " 050".

Definition BoundText (s : string) (spacing : Z) : Z * Z :=
  (8 * Z.of_nat (String.length s), 12).

Definition max (a b : float32) : float32 := if (a >? b)%f32 then a else b.

(** [AAL1] with a text that is current, [BAW2] with none yet. *)
Definition cached : AircraftScopeState :=
  mkScopeState false vzero vzero ("OLD"%string, "OLD"%string) true Scene.box.

Definition store : gmap AcPtr AircraftScopeState :=
  <[1%positive := cached]> (<[2%positive := newScopeState]> ∅).

End TextScene.

(** ** Reading the layout state, continued *)

(** The states of the layout are those of the store [m] with, at most,
    other automatic offsets, and the same for an aircraft outside the
    slice; no aircraft has come or gone. *)
Definition framed (m : gmap AcPtr AircraftScopeState) (acs : list AcPtr) (ls : LayoutState)
    : Prop :=
  forall ac,
    match m !! ac, ls_states ls !! ac with
    | Some s, Some s' =>
        s' = setAutomaticOffset (datablockAutomaticOffset s') s /\ (ac ∉ acs -> s' = s)
    | None, None => True
    | _, _ => False
    end.

(** Every aircraft of the slice is tracked, and one that is placed without
    having a manual offset has the automatic offset that [offsetSelfOnly]
    gives it. *)
Definition idealWherePlaced (deref : AcPtr -> Aircraft) (rs : RadarScopePane)
    (acs : list AcPtr) (ls : LayoutState) : Prop :=
  sized acs ls
  /\ (forall x, x ∈ acs -> is_Some (ls_states ls !! x))
  /\ forall i x, acs !! i = Some x -> placedAt ls i = true ->
       hasManualOffset (stateOf ls x) = false ->
       datablockAutomaticOffset (stateOf ls x) = offsetSelfOnly deref rs x (stateOf ls x).

(** Every index of the slice is placed. *)
Definition allPlaced (acs : list AcPtr) (ls : LayoutState) : Prop :=
  forall i, (i < length acs)%nat -> placedAt ls i = true.

(** ** What is drawn for a conflict *)

(** [rs.RangeIndicatorStyle] is an integer: the two constants. *)
Definition RangeIndicatorRings : Z := 0.
Definition RangeIndicatorLine : Z := 1.

(** A circle handed to [AddCircle]: centre and radius in window
    coordinates, the number of segments and the colour. *)
Record RangeCircle : Type := mkRangeCircle {
  circleCenter : vec2;
  circleRadius : float32;
  circleSegments : Z;
  circleColor : Severity
}.

(** A line of the style [RangeIndicatorLine] with its text: the distance,
    printed with one decimal, and the altitude difference in hundreds of
    feet, at the position [rangeTextPos] of the window. *)
Record RangeLine : Type := mkRangeLine {
  rangeP0 : vec2;
  rangeP1 : vec2;
  rangeColor : Severity;
  rangeLineText : float32 * Z;
  rangeTextPos : vec2;
  rangePair : AircraftPair
}.

Section RangeDrawing.

Variable deref : AcPtr -> Aircraft.

(** Declared outside [src/]: [transforms.WindowFromLatLongP],
    [transforms.PixelDistanceNM()], [nmdistance2ll] and [mid2ll]. *)
Variable windowFromLatLongP : vec2 -> vec2.
Variable pixelDistanceNm : float32.
Variable nmdistance2ll : vec2 -> vec2 -> float32.
Variable mid2ll : vec2 -> vec2 -> vec2.

(** The closure [rangeText]; the division of two [int]s truncates. *)
Definition rangeText (ac0 ac1 : AcPtr) : float32 * Z :=
  let dist := nmdistance2ll (Position (deref ac0)) (Position (deref ac1)) in
  let dalt := (Z.abs (Altitude (deref ac0) - Altitude (deref ac1)) + 50) ÷ 100 in
  (dist, dalt).

(** The two circles of a conflict. *)
Definition rangeRings (radius : float32) (color : Severity) (w : RangeConflict)
    : list RangeCircle :=
  let p0 := windowFromLatLongP (Position (deref (conflictAircraft w).1)) in
  let p1 := windowFromLatLongP (Position (deref (conflictAircraft w).2)) in
  [mkRangeCircle p0 (radius / pixelDistanceNm)%f32 360 color;
   mkRangeCircle p1 (radius / pixelDistanceNm)%f32 360 color].

(** The closure [annotatedLine] for a conflict, with the text of
    [rangeText]. *)
Definition rangeLine (color : Severity) (w : RangeConflict) : RangeLine :=
  let ac0 := (conflictAircraft w).1 in
  let ac1 := (conflictAircraft w).2 in
  let p0 := Position (deref ac0) in
  let p1 := Position (deref ac1) in
  mkRangeLine p0 p1 color (rangeText ac0 ac1) (windowFromLatLongP (mid2ll p0 p1)) (ac0, ac1).

(** The [switch] on the style at the end of [drawRangeIndicators], for the
    warnings and the violations of the frame: the circles and the lines
    drawn.  A style that is none of the two constants draws nothing. *)
Definition rangeIndicatorDrawing (style : Z) (warnings violations : list RangeConflict)
    : list RangeCircle * list RangeLine :=
  if style =? RangeIndicatorRings then
    (concat ((fun w => rangeRings (WarningLateral (conflictLimits w)) Caution w) <$> warnings)
     ++ concat ((fun v => rangeRings (ViolationLateral (conflictLimits v)) Error v)
                <$> violations),
     [])
  else if style =? RangeIndicatorLine then
    ([], (rangeLine Caution <$> warnings) ++ (rangeLine Error <$> violations))
  else ([], []).

End RangeDrawing.

(** ** Drawing the datablocks *)

(** The colours of [ColorScheme] that [datablockColor] returns. *)
Inductive DatablockColor : Type :=
| GhostDataBlock
| SelectedDataBlock
| HandingOffDataBlock
| TrackedDataBlock
| UntrackedDataBlock.

(** The closure [qclamp], the "quantized clamp". *)
Definition qclamp (x a b : float32) : float32 :=
  if (x <? a)%f32 then a
  else if (x >? b)%f32 then b
  else ((a + b) / #2)%f32.

(** Where the line from the track at [wp] meets the box [bbox], both in
    window coordinates: [(ex, ey)], or nothing when [drawLine] is set to
    false because the track is inside the box. *)
Definition leaderEnd (wp : vec2) (bbox : Extent2D) : option vec2 :=
  if (wp.2 <? (p0 bbox).2)%f32 then
    Some (qclamp wp.1 (p0 bbox).1 (p1 bbox).1, (p0 bbox).2)
  else if (wp.2 >? (p1 bbox).2)%f32 then
    Some (qclamp wp.1 (p0 bbox).1 (p1 bbox).1, (p1 bbox).2)
  else if (wp.1 <? (p0 bbox).1)%f32 then
    Some ((p0 bbox).1, qclamp wp.2 (p0 bbox).2 (p1 bbox).2)
  else if (wp.1 >? (p1 bbox).1)%f32 then
    Some ((p1 bbox).1, qclamp wp.2 (p0 bbox).2 (p1 bbox).2)
  else None.

(** [(actualNow.Second() / int(rs.DataBlockFrequency)) & 1]; the division
    of two [int]s truncates, and panics when the divisor is zero. *)
Definition flashCycle (second frequency : Z) : option Z :=
  if frequency =? 0 then None else Some (Z.land (second ÷ frequency) 1).

(** What is drawn for one aircraft: the text, its position (the shadow is
    drawn one pixel to the right and below), the colour, and the leader
    line from the position of the aircraft to a point, both as latitude and
    longitude. *)
Record DrawnDatablock : Type := mkDrawnDatablock {
  drawnAircraft : AcPtr;
  drawnText : string;
  drawnAt : vec2;
  drawnColor : DatablockColor;
  drawnLeader : option (vec2 * vec2)
}.

Section Datablocks.

Variable deref : AcPtr -> Aircraft.
Variable windowFromLatLongP : vec2 -> vec2.
Variable latLongFromWindowP : vec2 -> vec2.
Variables paneWidth paneHeight : float32.

(** Declared outside [src/]: [positionConfig.selectedAircraft], the queries
    of the server and the helper [SortedMapKeysPred], which returns the
    keys of a map sorted by a predicate. *)
Variable selectedAircraft : option AcPtr.
Variables InboundHandoffController OutboundHandoffController GetTrackingController
  : string -> string.
Variable serverCallsign : string.
Variable SortedMapKeysPred :
  gmap AcPtr AircraftScopeState -> (AcPtr -> AcPtr -> bool) -> list AcPtr.

(** The fields [DataBlockFrequency] of the pane and whether its
    [DataBlockFormat] is another one than [DataBlockFormatNone]. *)
Variable DataBlockFrequency : Z.
Variable formatDrawsLine : bool.

(** [RadarScopePane.datablockColor]. *)
Definition datablockColor (rs : RadarScopePane) (ac : AcPtr) : DatablockColor :=
  let isEmpty s := String.eqb s String.EmptyString in
  let callsign := Callsign (deref ac) in
  if bool_decide (ac ∈ (map_to_list (ghostAircraft rs)).*2) then GhostDataBlock
  else if bool_decide (selectedAircraft = Some ac) then SelectedDataBlock
  else if negb (isEmpty (InboundHandoffController callsign)) then HandingOffDataBlock
  else if negb (isEmpty (OutboundHandoffController callsign)) then HandingOffDataBlock
  else
    let controller := GetTrackingController callsign in
    if negb (isEmpty controller) && String.eqb controller serverCallsign
    then TrackedDataBlock
    else UntrackedDataBlock.

(** The predicate that sorts the aircraft for drawing. *)
Definition drawnBefore (a b : AcPtr) : bool :=
  let asel := bool_decide (Some a = selectedAircraft) in
  let bsel := bool_decide (Some b = selectedAircraft) in
  if Bool.eqb asel bsel
  then Stdlib.Strings.String.ltb (Callsign (deref a)) (Callsign (deref b))
  else bsel.

(** The body of the loop of [drawDatablocks] for an aircraft that is drawn,
    in the flash cycle [cycle]. *)
Definition drawDatablock (rs : RadarScopePane) (cycle : Z) (ac : AcPtr) : DrawnDatablock :=
  let pac := windowFromLatLongP (Position (deref ac)) in
  let state := default newScopeState (aircraft rs !! ac) in
  let bbox := WindowDatablockBounds state pac in
  let color := datablockColor rs ac in
  let text := if cycle =? 0 then (datablockText state).1 else (datablockText state).2 in
  let leader :=
    if formatDrawsLine then
      match leaderEnd pac bbox with
      | Some e => Some (Position (deref ac), latLongFromWindowP e)
      | None => None
      end
    else None in
  mkDrawnDatablock ac text ((p0 bbox).1, (p1 bbox).2) color leader.

(** The aircraft that the loop does not skip. *)
Definition datablockDrawn (rs : RadarScopePane) (ac : AcPtr) : bool :=
  let pac := windowFromLatLongP (Position (deref ac)) in
  let state := default newScopeState (aircraft rs !! ac) in
  let paneBounds := mkExtent ((#0)%f32, (#0)%f32) (paneWidth, paneHeight) in
  negb (filteredOut deref rs ac) && Overlaps paneBounds (WindowDatablockBounds state pac).

(** [RadarScopePane.drawDatablocks] when [actualNow.Second()] is [second]:
    the datablocks drawn, in order, or nothing when the division panics. *)
Definition drawDatablocks (rs : RadarScopePane) (second : Z) : option (list DrawnDatablock) :=
  let drawn := filter (fun ac => datablockDrawn rs ac = true)
                 (SortedMapKeysPred (aircraft rs) drawnBefore) in
  match drawn with
  | [] => Some []
  | _ => (fun cycle => drawDatablock rs cycle <$> drawn) <$> flashCycle second DataBlockFrequency
  end.

End Datablocks.

(** ** The mouse *)

(** The part of [ctx.mouse] that [consumeMouseEvents] reads for the primary
    button; the type is declared outside [src/]. *)
Record MouseState : Type := mkMouseState {
  mousePos : vec2;
  dragDelta : vec2;
  draggingPrimary : bool;
  clickedPrimary : bool;
  doubleClickedPrimary : bool
}.

(** The fields of [RadarScopePane] that the mouse drives: the aircraft
    whose datablock is being dragged, and the measuring line. *)
Record ScopeMouse : Type := mkScopeMouse {
  acSelectedByDatablock : option AcPtr;
  primaryButtonDoubleClicked : bool;
  primaryDragStart : vec2;
  primaryDragEnd : vec2
}.

Definition setSelectedByDatablock (ac : option AcPtr) (ms : ScopeMouse) : ScopeMouse :=
  mkScopeMouse ac (primaryButtonDoubleClicked ms) (primaryDragStart ms) (primaryDragEnd ms).

Section Mouse.

Variable deref : AcPtr -> Aircraft.
Variable windowFromLatLongP : vec2 -> vec2.

(** Declared outside [src/]: the helper [distance2f] and the method
    [Extent2D.Inside]. *)
Variable distance2f : vec2 -> vec2 -> float32.
Variable Inside : Extent2D -> vec2 -> bool.

(** The order in which the two [range] loops over [rs.aircraft] visit its
    keys; Go leaves it open. *)
Variables visitTracks visitDatablocks : list AcPtr.

(** "Handle dragging the scope center": the end of the measuring line
    follows the drag, and the line goes when the button is released. *)
Definition dragMeasuringLine (ms : ScopeMouse) (mouse : MouseState) : ScopeMouse :=
  if draggingPrimary mouse && primaryButtonDoubleClicked ms then
    mkScopeMouse (acSelectedByDatablock ms) (primaryButtonDoubleClicked ms)
      (primaryDragStart ms) (add2f (primaryDragEnd ms) (dragDelta mouse))
  else if primaryButtonDoubleClicked ms then
    mkScopeMouse (acSelectedByDatablock ms) false (primaryDragStart ms) (primaryDragEnd ms)
  else ms.

(** The state of a datablock dragged by [delta]. *)
Definition dragged (delta : vec2) (state : AircraftScopeState) : AircraftScopeState :=
  mkScopeState (isGhost state) vzero
    (add2f (datablockAutomaticOffset state) (add2f (datablockManualOffset state) delta))
    (datablockText state) (datablockTextCurrent state) (datablockBounds state).

(** The block [if rs.acSelectedByDatablock != nil]; [rs.aircraft[ac]] is
    nil for an aircraft that the store does not hold, and writing through
    it panics. *)
Definition dragDatablock (rs : RadarScopePane) (ms : ScopeMouse) (mouse : MouseState)
    : option (RadarScopePane * ScopeMouse) :=
  match acSelectedByDatablock ms with
  | None => Some (rs, ms)
  | Some ac =>
      if draggingPrimary mouse then
        match aircraft rs !! ac with
        | Some state =>
            Some (setAircraft (<[ac := dragged (dragDelta mouse) state]> (aircraft rs)) rs, ms)
        | None => None
        end
      else Some (rs, setSelectedByDatablock None ms)
  end.

(** "Allow clicking on any track": [clickedAircraft] and [clickedDistance]
    after the first loop. *)
Definition nearestTrack (mouse : MouseState) : option AcPtr * float32 :=
  foldl (fun (st : option AcPtr * float32) ac =>
           let pw := windowFromLatLongP (Position (deref ac)) in
           let dist := distance2f pw (mousePos mouse) in
           if (dist <? st.2)%f32 then (Some ac, dist) else st)
        (None, (#20)%f32) visitTracks.

(** The second loop: the first datablock visited that the mouse is in. *)
Definition datablockHit (rs : RadarScopePane) (mouse : MouseState) : option AcPtr :=
  head (filter (fun ac =>
                  negb (filteredOut deref rs ac)
                  && Inside (WindowDatablockBounds (default newScopeState (aircraft rs !! ac))
                               (windowFromLatLongP (Position (deref ac))))
                       (mousePos mouse) = true)
               visitDatablocks).

(** [RadarScopePane.consumeMouseEvents] on the modelled fields: the pane
    and the mouse fields afterwards and the aircraft of the
    [SelectedAircraftEvent]s posted, or nothing when it panics.  The drag
    with the secondary button and the wheel write [rs.Center] and
    [rs.Range], fields that are not modelled and that nothing here
    reads. *)
Definition consumeMouseEvents (rs : RadarScopePane) (ms : ScopeMouse)
    (mouse : option MouseState) : option (RadarScopePane * ScopeMouse * list AcPtr) :=
  match mouse with
  | None => Some (rs, ms, [])
  | Some mouse =>
      let ms := dragMeasuringLine ms mouse in
      match dragDatablock rs ms mouse with
      | None => None
      | Some (rs, ms) =>
          let ms :=
            if doubleClickedPrimary mouse
            then mkScopeMouse (acSelectedByDatablock ms) true (mousePos mouse) (mousePos mouse)
            else ms in
          if clickedPrimary mouse then
            match datablockHit rs mouse with
            | Some ac => Some (rs, setSelectedByDatablock (Some ac) ms, [ac])
            | None =>
                Some (rs, ms,
                      match (nearestTrack mouse).1 with Some ac => [ac] | None => [] end)
            end
          else Some (rs, ms, [])
      end
  end.

End Mouse.

(** ** A scene for the mouse *)

Module MouseScene.

(** The distance of two points of the window and the test that a point
    lies in a box, borders included. *)
Definition distance2f (p q : vec2) : float32 := length2f (sub2f p q).

Definition Inside (e : Extent2D) (p : vec2) : bool :=
  ((p.1 >=? (p0 e).1) && (p.1 <=? (p1 e).1) && (p.2 >=? (p0 e).2) && (p.2 <=? (p1 e).2))%f32.

(** The datablock of [AAL1] is being dragged, by two pixels to the right. *)
Definition dragging : ScopeMouse := mkScopeMouse (Some 1%positive) false vzero vzero.

Definition drag : MouseState :=
  mkMouseState (#120, #110)%f32 (#2, #0)%f32 true false false.

(** A click at (97,100), three pixels from the tracks of [AAL1] and
    [BAW2], outside their datablocks. *)
Definition idle : ScopeMouse := mkScopeMouse None false vzero vzero.

Definition click : MouseState :=
  mkMouseState (#97, #100)%f32 vzero false true false.

End MouseScene.

(** ** The measuring line *)

(** The conversion [int(x)] of a [float32] that is finite: the fraction is
    cut off.  For other values Go leaves the result open; they are mapped
    to 0 here, and nothing is proved about them. *)
Definition intOfFloat32 (x : float32) : Z :=
  match x with
  | S754_finite s m e =>
      let v := if (0 <=? e) then Z.pos m * 2 ^ e else Z.pos m / 2 ^ (- e) in
      if s then - v else v
  | _ => 0
  end.

(** The heading of the label and its reciprocal, from the heading that
    [headingp2ll] returns. *)
Definition headingLabel (heading : float32) : Z * Z :=
  let hdg := intOfFloat32 (heading + #1 / #2)%f32 in
  let hdg := if hdg =? 0 then 360 else hdg in
  let rhdg := hdg + 180 in
  let rhdg := if rhdg >? 360 then rhdg - 360 else rhdg in
  (hdg, rhdg).

(** What [drawMeasuringLine] draws: the line between two positions, and
    the label with the distance, the heading and its reciprocal at a
    position of the window. *)
Record MeasuringLine : Type := mkMeasuringLine {
  measureP0 : vec2;
  measureP1 : vec2;
  measureDistance : float32;
  measureHeadings : Z * Z;
  measureTextPos : vec2
}.

Section MeasuringLine.

(** Declared outside [src/]: the helpers [nmdistance2ll], [headingp2ll] and
    [mid2f], and [database.MagneticVariation]. *)
Variable latLongFromWindowP : vec2 -> vec2.
Variable nmdistance2ll : vec2 -> vec2 -> float32.
Variable headingp2ll : vec2 -> vec2 -> float32 -> float32.
Variable mid2f : vec2 -> vec2 -> vec2.
Variable MagneticVariation : float32.

(** [RadarScopePane.drawMeasuringLine]. *)
Definition drawMeasuringLine (ms : ScopeMouse) : option MeasuringLine :=
  if negb (primaryButtonDoubleClicked ms) then None
  else
    let p0 := latLongFromWindowP (primaryDragStart ms) in
    let p1 := latLongFromWindowP (primaryDragEnd ms) in
    Some (mkMeasuringLine p0 p1 (nmdistance2ll p0 p1)
            (headingLabel (headingp2ll p0 p1 MagneticVariation))
            (mid2f (primaryDragStart ms) (primaryDragEnd ms))).

End MeasuringLine.

(** ** The route drawn *)

Section Route.

(** Declared outside [src/]: [database.Locate], which may not know a name,
    and the method [Point2LL.IsZero]. *)
Variable Locate : string -> option vec2.
Variable IsZero : vec2 -> bool.

(** The body of the loop over the waypoints: [pPrev] and the lines added so
    far. *)
Definition routeStep (st : vec2 * list (vec2 * vec2)) (waypoint : string)
    : vec2 * list (vec2 * vec2) :=
  match Locate waypoint with
  | None => st
  | Some p => (p, if negb (IsZero st.1) then st.2 ++ [(st.1, p)] else st.2)
  end.

(** [RadarScopePane.drawRoute]: the lines added, for the duration
    [remaining] that [time.Until] returns and the waypoints that
    [strings.Split] returns.  Their colour, which fades with [remaining],
    is left out. *)
Definition drawRoute (remaining : Z) (waypoints : list string) : list (vec2 * vec2) :=
  if remaining <? 0 then []
  else (foldl routeStep (vzero, []) waypoints).2.

End Route.

(** ** A scene for the route *)

Module RouteScene.

(** Three fixes on a line; any other name is not a fix. *)
Definition Locate (name : string) : option vec2 :=
  if String.eqb name "MERIT" then Some (#1, #1)%f32
  else if String.eqb name "HFD" then Some (#2, #2)%f32
  else if String.eqb name "PUT" then Some (#3, #3)%f32
  else None.

Definition IsZero (p : vec2) : bool := iszero2f p.

End RouteScene.

(** ** A frame *)

(** The aircraft that an event is about. *)
Definition eventAircraft (ev : Event) : AcPtr :=
  match ev with
  | AddedAircraftEvent ac | RemovedAircraftEvent ac | ModifiedAircraftEvent ac
  | PointOutEvent ac _ => ac
  end.

(** What only an event or the mouse may change of a scope state: the ghost
    flag and the manual offset. *)
Definition keptPart (s : AircraftScopeState) : bool * vec2 :=
  (isGhost s, datablockManualOffset s).

(** An event that neither adds nor removes the aircraft [ac] nor makes it
    the ghost of another one. *)
Definition eventSpares (ac : AcPtr) (ev : Event * option AcPtr) : Prop :=
  ev.2 <> Some ac
  /\ match ev.1 with
     | AddedAircraftEvent x | RemovedAircraftEvent x => x <> ac
     | _ => True
     end.

(** The datablock of [ac] is being dragged. *)
Definition draggedBy (ms : ScopeMouse) (mouse : option MouseState) (ac : AcPtr) : Prop :=
  exists m, mouse = Some m /\ acSelectedByDatablock ms = Some ac /\ draggingPrimary m = true.

Section Draw.

Variable deref : AcPtr -> Aircraft.
Variable windowFromLatLongP : vec2 -> vec2.
Variables paneWidth paneHeight : float32.
Variable GetConflicts : list AcPtr -> list RangeLimits -> list RangeConflict * list RangeConflict.
Variable squawk : AcPtr -> Z.
Variables InboundHandoffController OutboundHandoffController : string -> string.
Variable pointedOutGet : gmap AcPtr (string * Z) -> AcPtr -> option string.
Variable Format : AcPtr -> bool -> Z -> string.
Variable BoundText : string -> Z -> Z * Z.
Variable max : float32 -> float32 -> float32.
Variables FontAwesomeIconArrowLeft FontAwesomeIconArrowRight
  FontAwesomeIconExclamationTriangle : string.
Variable distance2f : vec2 -> vec2 -> float32.
Variable Inside : Extent2D -> vec2 -> bool.
Variables visitTracks visitDatablocks : list AcPtr.

(** [RadarScopePane.Draw], as far as it changes the pane: the events, the
    texts, the layout, the range indicators with their alert, and the
    mouse, in this order.  What lies between them draws from the pane and
    leaves it as it is.  The result is the pane and its mouse fields after
    the frame, the audio events and the aircraft of the selection events;
    there is none when the frame does not return or panics. *)
Definition Draw (rs : RadarScopePane) (ms : ScopeMouse)
    (events : list (Event * option AcPtr)) (fuel : nat) (clock : Z * Z)
    (mouse : option MouseState)
    : option (RadarScopePane * ScopeMouse * list AudioEvent * list AcPtr) :=
  let rs := processEvents rs events in
  let rs :=
    updateDatablockTextAndBounds deref squawk InboundHandoffController
      OutboundHandoffController pointedOutGet Format BoundText max FontAwesomeIconArrowLeft
      FontAwesomeIconArrowRight FontAwesomeIconExclamationTriangle rs in
  match layoutDatablocks deref windowFromLatLongP paneWidth paneHeight rs fuel with
  | None => None
  | Some rs =>
      let '(rs, audio) := drawRangeIndicators deref GetConflicts rs clock in
      match consumeMouseEvents deref windowFromLatLongP distance2f Inside visitTracks
              visitDatablocks rs ms mouse with
      | None => None
      | Some (rs, ms, posted) => Some (rs, ms, audio, posted)
      end
  end.

End Draw.

(** ** A scene for a frame *)

Module FrameScene.

(** A frame of the pane that tracks [AAL1] and its ghost: [AAL1] is
    modified and gets the ghost 10, aircraft 2 is added with the ghost 11,
    and the mouse clicks next to the tracks. *)
Definition events : list (Event * option AcPtr) :=
  [(ModifiedAircraftEvent 1%positive, Some 10%positive);
   (AddedAircraftEvent 2%positive, Some 11%positive)].

Definition draw (rs : RadarScopePane)
    : option (RadarScopePane * ScopeMouse * list AudioEvent * list AcPtr) :=
  Draw LayoutScene.deref Scene.project Scene.side Scene.side AlertScene.twoViolations
    TextScene.squawk TextScene.noController TextScene.noController TextScene.pointedOutGet
    TextScene.Format TextScene.BoundText TextScene.max "<" ">" "!"
    MouseScene.distance2f MouseScene.Inside [1%positive; 2%positive] [1%positive; 2%positive]
    rs MouseScene.idle events 0 (AlertScene.t0, AlertScene.t0) (Some MouseScene.click).

End FrameScene.
(** * Properties *)

Open Scope nat_scope.

#[global] Arguments F32.add : simpl never.
#[global] Arguments F32.sub : simpl never.
#[global] Arguments F32.mul : simpl never.
#[global] Arguments F32.div : simpl never.
#[global] Arguments F32.sqrt : simpl never.
#[global] Arguments F32.ltb : simpl never.
#[global] Arguments F32.leb : simpl never.
#[global] Arguments F32.gtb : simpl never.
#[global] Arguments F32.geb : simpl never.
#[global] Arguments F32.eqb : simpl never.
#[global] Arguments F32.neb : simpl never.
#[global] Arguments F32.of_Z : simpl never.

(** ** Order facts about binary32 comparison *)

Section FloatOrder.

Lemma SFcompare_swap (x y : float32) :
  SFcompare y x = CompOpp <$> SFcompare x y.
Proof.
  destruct x as [sx|sx| |sx mx ex], y as [sy|sy| |sy my ey]; simpl;
    repeat match goal with s : bool |- _ => destruct s end; simpl;
    try reflexivity;
    rewrite (Z.compare_antisym ey ex); destruct (Z.compare ey ex); simpl;
    try reflexivity;
    rewrite ?CompOpp_involutive; f_equal;
    first [ exact (Pos.compare_cont_antisym my mx Eq)
          | symmetry; exact (Pos.compare_cont_antisym mx my Eq) ].
Qed.

Lemma ltb_trans (x y z : float32) :
  F32.ltb x y = true -> F32.ltb y z = true -> F32.ltb x z = true.
Proof.
  unfold F32.ltb, SFltb.
  destruct x as [sx|sx| |sx mx ex], y as [sy|sy| |sy my ey],
    z as [sz|sz| |sz mz ez]; simpl;
    repeat match goal with s : bool |- _ => destruct s end; simpl;
    try done.
  all: change (PosDef.Pos.compare_cont Eq) with Pos.compare.
  all: destruct (Z.compare_spec ex ey), (Z.compare_spec ey ez), (Z.compare_spec ex ez);
    simpl; try done; try lia.
  all: destruct (Pos.compare_spec mx my), (Pos.compare_spec my mz), (Pos.compare_spec mx mz);
    simpl; try done; try lia.
Qed.

Lemma leb_not_ltb (x y : float32) : F32.leb x y = true -> F32.ltb y x = false.
Proof.
  unfold F32.leb, F32.ltb, SFleb, SFltb. rewrite (SFcompare_swap x y).
  destruct (SFcompare x y) as [[]|]; simpl; congruence.
Qed.

Lemma ltb_not_leb (x y : float32) : F32.ltb x y = true -> F32.leb y x = false.
Proof.
  unfold F32.leb, F32.ltb, SFleb, SFltb. rewrite (SFcompare_swap x y).
  destruct (SFcompare x y) as [[]|]; simpl; congruence.
Qed.

Lemma ltb_irrefl (x : float32) : F32.ltb x x = false.
Proof.
  destruct (F32.ltb x x) eqn:H; [|done].
  pose proof H as H'. unfold F32.ltb, SFltb in H'.
  rewrite (SFcompare_swap x x) in H'.
  unfold F32.ltb, SFltb in H. destruct (SFcompare x x) as [[]|]; simpl in *; congruence.
Qed.

End FloatOrder.

(** ** Loops *)

Section Loops.

Context {S A : Type}.

(** An invariant that may mention how far the loop has come. *)
Lemma forRangeFrom_invariant (P : nat -> S -> Prop) (body : nat -> A -> S -> S)
    (l : list A) (k : nat) (s : S) :
  P k s ->
  (forall i x s', l !! i = Some x -> P (k + i)%nat s' ->
                  P (Datatypes.S (k + i)) (body (k + i)%nat x s')) ->
  P (k + length l)%nat (forRangeFrom body k l s).
Proof.
  revert k s. induction l as [|a l IH]; intros k s Hs Hstep; simpl.
  - by rewrite Nat.add_0_r.
  - replace (k + Datatypes.S (length l))%nat with (Datatypes.S k + length l)%nat by lia.
    apply IH.
    + specialize (Hstep 0%nat a s eq_refl). rewrite Nat.add_0_r in Hstep. auto.
    + intros i x s' Hi HP.
      specialize (Hstep (Datatypes.S i) x s' Hi).
      replace (k + Datatypes.S i)%nat with (Datatypes.S k + i)%nat in Hstep by lia.
      auto.
Qed.

Lemma forRange_invariant_indexed (P : nat -> S -> Prop) (body : nat -> A -> S -> S)
    (l : list A) (s : S) :
  P 0%nat s ->
  (forall i x s', l !! i = Some x -> P i s' -> P (Datatypes.S i) (body i x s')) ->
  P (length l) (forRange body l s).
Proof.
  intros Hs Hstep.
  apply (forRangeFrom_invariant P body l 0 s Hs). intros i x s'. apply Hstep.
Qed.

Lemma forRange_invariant (P : S -> Prop) (body : nat -> A -> S -> S) (l : list A) (s : S) :
  P s ->
  (forall i x s', l !! i = Some x -> P s' -> P (body i x s')) ->
  P (forRange body l s).
Proof.
  intros Hs Hstep.
  apply (forRange_invariant_indexed (fun _ => P) body l s Hs). intros i x s'. apply Hstep.
Qed.

Lemma passes_invariant (P : S -> Prop) (pass : S -> S * bool) (n : nat) (s : S) :
  P s -> (forall s', P s' -> P (pass s').1) -> P (passes pass n s).
Proof.
  intros Hs Hstep. revert s Hs. induction n as [|n IH]; intros s Hs; simpl; [done|].
  specialize (Hstep s Hs). destruct (pass s) as [s' again]. simpl in Hstep.
  destruct again; auto.
Qed.

(** When the loop leaves within [fuel] passes, its result is the state
    after that many passes. *)
Lemma loopWhile_passes (pass : S -> S * bool) (fuel : nat) (s r : S) :
  loopWhile pass fuel s = Some r -> r = passes pass fuel s.
Proof.
  revert s. induction fuel as [|fuel IH]; intros s; simpl; [done|].
  destruct (pass s) as [s' again]. destruct again; [apply IH | congruence].
Qed.


End Loops.

(** ** The connection point of a datablock *)

Lemma datablockConnectP_wrapHeading (bbox : Extent2D) (heading : float32) :
  datablockConnectP bbox heading =
  let center := Extent2D.Center bbox in
  let h := wrapHeading heading in
  if (h <? #30)%f32 then (((p0 bbox).1, center.2), false)
  else if (h <? #90)%f32 then (((p0 bbox).1, (p1 bbox).2), true)
  else if (h <? #120)%f32 then ((center.1, (p1 bbox).2), false)
  else if (h <? #180)%f32 then (((p0 bbox).1, (p0 bbox).2), true)
  else if (h <? #210)%f32 then (((p0 bbox).1, center.2), false)
  else if (h <? #270)%f32 then (((p0 bbox).1, (p1 bbox).2), true)
  else if (h <? #300)%f32 then ((center.1, (p0 bbox).2), false)
  else (((p0 bbox).1, (p0 bbox).2), true).
Proof. reflexivity. Qed.

(** A heading below a bound is below every larger bound. *)
Lemma ltb_below (h : float32) (a b : Z) :
  (h <? #a)%f32 = true -> (#a <? #b)%f32 = true -> (#b <=? h)%f32 = false.
Proof. intros Ha Hab. apply ltb_not_leb. by apply ltb_trans with (#a)%f32. Qed.

Ltac sector_contradiction :=
  match goal with
  | H1 : (?h <? ?c)%f32 = true, H2 : (?h <? ?c)%f32 = false |- _ => congruence
  | H1 : (?h <? ?c)%f32 = true, H2 : (?c <=? ?h)%f32 = true |- _ =>
      apply ltb_not_leb in H1; congruence
  | H1 : (?h <? #?a)%f32 = true, H2 : (#?b <=? ?h)%f32 = true |- _ =>
      rewrite (ltb_below h a b H1 eq_refl) in H2; discriminate
  end.

(** Every heading falls into one sector, and the anchor returned is the one
    of that sector. *)
Lemma datablockConnectP_sector (bbox : Extent2D) (heading : float32) :
  exists a : Anchor,
    datablockConnectP bbox heading = (anchorPoint a bbox, anchorIsCorner a)
    /\ sectorTable (wrapHeading heading) a.
Proof.
  rewrite datablockConnectP_wrapHeading. cbv zeta.
  set (h := wrapHeading heading).
  destruct (h <? #30)%f32 eqn:H30; [exists LeftEdgeMid|
  destruct (h <? #90)%f32 eqn:H90; [exists TopLeftCorner|
  destruct (h <? #120)%f32 eqn:H120; [exists TopEdgeMid|
  destruct (h <? #180)%f32 eqn:H180; [exists BottomLeftCorner|
  destruct (h <? #210)%f32 eqn:H210; [exists LeftEdgeMid|
  destruct (h <? #270)%f32 eqn:H270; [exists TopLeftCorner|
  destruct (h <? #300)%f32 eqn:H300; [exists BottomEdgeMid|
  exists BottomLeftCorner]]]]]]];
  (split; [reflexivity|]);
  unfold sectorTable; repeat split; intros; try reflexivity; sector_contradiction.
Qed.

(** ** Boxes *)

Lemma Overlaps_sym (a b : Extent2D) : Overlaps a b = Overlaps b a.
Proof.
  unfold Overlaps, F32.geb, F32.leb. cbv zeta.
  repeat match goal with |- context [SFleb ?x ?y] => destruct (SFleb x y) end;
    reflexivity.
Qed.

Lemma WindowDatablockBounds_manual (t : AircraftScopeState) (p : vec2) :
  hasManualOffset t = true ->
  WindowDatablockBounds t p
  = Extent2D.Offset (Extent2D.Offset (datablockBounds t) p) (datablockManualOffset t).
Proof. intros H. unfold WindowDatablockBounds. by rewrite H. Qed.

Lemma hasManualOffset_setAutomaticOffset (v : vec2) (t : AircraftScopeState) :
  hasManualOffset (setAutomaticOffset v t) = hasManualOffset t.
Proof. reflexivity. Qed.

Lemma WindowDatablockBounds_setAutomaticOffset (v : vec2) (t : AircraftScopeState) (p : vec2) :
  hasManualOffset t = true ->
  WindowDatablockBounds (setAutomaticOffset v t) p = WindowDatablockBounds t p.
Proof. intros H. unfold WindowDatablockBounds. simpl. by rewrite hasManualOffset_setAutomaticOffset, H. Qed.

(** ** The closures [allowed] *)

Lemma allowedFrom_spec (placed : list bool) (b : Extent2D) (k : nat) (bounds : list Extent2D) :
  allowedFrom placed b k bounds = true ->
  forall j db, bounds !! j = Some db -> default false (placed !! (k + j)%nat) = true ->
               Overlaps b db = false.
Proof.
  revert k. induction bounds as [|d rest IH]; intros k Hall j db Hj Hp; [done|].
  simpl in Hall.
  destruct (default false (placed !! k) && Overlaps b d) eqn:Hk; [done|].
  destruct j as [|j]; simpl in Hj.
  - injection Hj as ->. rewrite Nat.add_0_r in Hp. rewrite Hp in Hk. done.
  - apply (IH (S k) Hall j db Hj). by replace (S k + j)%nat with (k + S j)%nat by lia.
Qed.

Lemma allowed_spec (ls : LayoutState) (b : Extent2D) (j : nat) :
  allowed ls b = true -> length (ls_placed ls) <= length (ls_bounds ls) ->
  placedAt ls j = true -> Overlaps b (boundsAt ls j) = false.
Proof.
  intros Hall Hlen Hp. unfold placedAt in Hp.
  destruct (ls_placed ls !! j) as [pj|] eqn:Hpj; [|done]. simpl in Hp. subst pj.
  apply lookup_lt_Some in Hpj as Hlt.
  destruct (lookup_lt_is_Some_2 (ls_bounds ls) j) as [db Hdb]; [lia|].
  unfold boundsAt. rewrite Hdb. simpl.
  apply (allowedFrom_spec _ _ _ _ Hall j db Hdb). simpl. by rewrite Hpj.
Qed.


(** ** Reading and writing the layout state *)

Lemma stateOf_alter_ne (f : AircraftScopeState -> AircraftScopeState) (ac x : AcPtr)
    (m : gmap AcPtr AircraftScopeState) (bs : list Extent2D) (ps : list bool) :
  ac <> x -> stateOf (mkLayout (alter f ac m) bs ps) x = stateOf (mkLayout m bs ps) x.
Proof. intros Hne. unfold stateOf. simpl. by rewrite lookup_alter_ne. Qed.

Lemma stateOf_alter_manual (v : vec2) (ac x : AcPtr)
    (m : gmap AcPtr AircraftScopeState) (bs bs' : list Extent2D) (ps ps' : list bool) :
  datablockManualOffset (stateOf (mkLayout (alter (setAutomaticOffset v) ac m) bs ps) x)
  = datablockManualOffset (stateOf (mkLayout m bs' ps') x).
Proof.
  unfold stateOf. simpl. destruct (decide (ac = x)) as [->|Hne].
  - rewrite lookup_alter_eq. by destruct (m !! x).
  - by rewrite lookup_alter_ne.
Qed.

Lemma stateOf_writeAutomaticOffset_manual (ac x : AcPtr) (v : vec2) (ls : LayoutState) :
  datablockManualOffset (stateOf (writeAutomaticOffset ac v ls) x)
  = datablockManualOffset (stateOf ls x).
Proof. destruct ls. apply stateOf_alter_manual. Qed.

Lemma stateOf_updUnplaced_manual (i : nat) (ac x : AcPtr) (ov : option vec2)
    (ob : option Extent2D) (ls : LayoutState) :
  datablockManualOffset (stateOf (updUnplaced i ac ov ob ls) x)
  = datablockManualOffset (stateOf ls x).
Proof.
  destruct ls as [m bs ps]. destruct ov as [v|]; simpl; [|done].
  apply stateOf_alter_manual.
Qed.

Lemma placedAt_updUnplaced (i k : nat) (ac : AcPtr) (ov : option vec2)
    (ob : option Extent2D) (ls : LayoutState) :
  placedAt (updUnplaced i ac ov ob ls) k = placedAt ls k.
Proof. reflexivity. Qed.

Lemma boundsAt_updUnplaced_ne (i k : nat) (ac : AcPtr) (ov : option vec2)
    (ob : option Extent2D) (ls : LayoutState) :
  i <> k -> boundsAt (updUnplaced i ac ov ob ls) k = boundsAt ls k.
Proof.
  intros Hne. unfold boundsAt. destruct ob as [b|]; simpl; [|done].
  by rewrite list_lookup_insert_ne.
Qed.

Lemma sized_updUnplaced (acs : list AcPtr) (i : nat) (ac : AcPtr) (ov : option vec2)
    (ob : option Extent2D) (ls : LayoutState) :
  sized acs ls -> sized acs (updUnplaced i ac ov ob ls).
Proof.
  intros [Hb Hp]. split; [|done]. destruct ob as [b|]; simpl; [|done].
  by rewrite length_insert.
Qed.

Lemma updUnplaced_id (i : nat) (ac : AcPtr) (ls : LayoutState) :
  updUnplaced i ac None None ls = ls.
Proof. by destruct ls. Qed.

Lemma stateOf_writeAutomaticOffset_eq (ac : AcPtr) (v : vec2) (ls : LayoutState) :
  is_Some (ls_states ls !! ac) ->
  stateOf (writeAutomaticOffset ac v ls) ac = setAutomaticOffset v (stateOf ls ac).
Proof.
  intros [s Hs]. unfold stateOf, writeAutomaticOffset. simpl.
  by rewrite lookup_alter_eq, Hs.
Qed.

Lemma stateOf_writeAutomaticOffset_ne (ac x : AcPtr) (v : vec2) (ls : LayoutState) :
  ac <> x -> stateOf (writeAutomaticOffset ac v ls) x = stateOf ls x.
Proof. intros Hne. unfold stateOf, writeAutomaticOffset. simpl. by rewrite lookup_alter_ne. Qed.

(** The loop bodies after the second pass leave a placed index alone and
    only adjust an unplaced one. *)
Section Bodies.

Variable deref : AcPtr -> Aircraft.
Variable windowFromLatLongP : vec2 -> vec2.
Variable rs : RadarScopePane.

Lemma startIdeal_shape (i : nat) (ac : AcPtr) (ls : LayoutState) :
  (placedAt ls i = true /\ startIdeal deref rs i ac ls = ls)
  \/ (placedAt ls i = false
      /\ exists ov ob, startIdeal deref rs i ac ls = updUnplaced i ac ov ob ls).
Proof.
  unfold startIdeal. destruct (placedAt ls i) eqn:Hp; [by left|right].
  split; [done|]. destruct (iszero2f _).
  - by eexists (Some _), None.
  - exists None, None. by rewrite updUnplaced_id.
Qed.

Lemma initBounds_shape (i : nat) (ac : AcPtr) (ls : LayoutState) :
  (placedAt ls i = true /\ initBounds deref windowFromLatLongP i ac ls = ls)
  \/ (placedAt ls i = false
      /\ exists ov ob, initBounds deref windowFromLatLongP i ac ls = updUnplaced i ac ov ob ls).
Proof.
  unfold initBounds. destruct (placedAt ls i) eqn:Hp; [by left|right].
  split; [done|]. by eexists None, (Some _).
Qed.

Lemma relaxOne_shape (i : nat) (ac : AcPtr) (st : LayoutState * bool) :
  (placedAt st.1 i = true /\ relaxOne i ac st = st)
  \/ (placedAt st.1 i = false
      /\ exists ov ob, (relaxOne i ac st).1 = updUnplaced i ac ov ob st.1).
Proof.
  destruct st as [ls any]. unfold relaxOne. simpl.
  destruct (placedAt ls i) eqn:Hp; [by left|right].
  split; [done|]. destruct (relaxStep _ _ _) as [force any']. simpl.
  by eexists (Some _), (Some _).
Qed.

Lemma attractOne_shape (i : nat) (ac : AcPtr) (st : LayoutState * bool) :
  (placedAt st.1 i = true /\ attractOne deref rs i ac st = st)
  \/ (placedAt st.1 i = false
      /\ exists ov ob, (attractOne deref rs i ac st).1 = updUnplaced i ac ov ob st.1).
Proof.
  destruct st as [ls any]. unfold attractOne. simpl.
  destruct (placedAt ls i) eqn:Hp; [by left|right].
  split; [done|].
  destruct (F32.ltb _ _); [exists None, None; by rewrite updUnplaced_id|].
  destruct (allowedOther _ _ _); [|exists None, None; by rewrite updUnplaced_id].
  by eexists (Some _), (Some _).
Qed.

(** So whatever such writes keep holds after each of these loops. *)
Section Kept.

Variable acs : list AcPtr.
Variable P : LayoutState -> Prop.
Hypothesis P_kept : keptByAdjust acs P.

Lemma startIdeal_keeps (ls : LayoutState) :
  P ls -> P (forRange (startIdeal deref rs) acs ls).
Proof.
  intros HP. apply forRange_invariant; [done|]. intros i x s' Hi Hs'.
  destruct (startIdeal_shape i x s') as [[_ ->]|[Hp (ov & ob & ->)]]; [done|].
  by apply P_kept.
Qed.

Lemma initBounds_keeps (ls : LayoutState) :
  P ls -> P (forRange (initBounds deref windowFromLatLongP) acs ls).
Proof.
  intros HP. apply forRange_invariant; [done|]. intros i x s' Hi Hs'.
  destruct (initBounds_shape i x s') as [[_ ->]|[Hp (ov & ob & ->)]]; [done|].
  by apply P_kept.
Qed.

Lemma relaxIteration_keeps (ls : LayoutState) :
  P ls -> P (relaxIteration acs ls).
Proof.
  intros HP. unfold relaxIteration.
  apply (forRange_invariant (fun st => P st.1)); [done|]. intros i x s' Hi Hs'.
  destruct (relaxOne_shape i x s') as [[_ ->]|[Hp (ov & ob & ->)]]; [done|].
  by apply P_kept.
Qed.

Lemma relaxation_keeps (ls : LayoutState) :
  P ls -> P (relaxation acs ls).
Proof.
  intros HP. unfold relaxation. generalize 20. intros n.
  induction n as [|n IH]; simpl; [done|]. by apply relaxIteration_keeps.
Qed.

Lemma attractPass_keeps (ls : LayoutState) :
  P ls -> P (attractPass deref rs acs ls).1.
Proof.
  intros HP. unfold attractPass.
  apply (forRange_invariant (fun st => P st.1)); [done|]. intros i x s' Hi Hs'.
  destruct (attractOne_shape i x s') as [[_ ->]|[Hp (ov & ob & ->)]]; [done|].
  by apply P_kept.
Qed.

Lemma attractPasses_keep (n : nat) (ls : LayoutState) :
  P ls -> P (passes (attractPass deref rs acs) n ls).
Proof. intros HP. apply passes_invariant; [done|]. apply attractPass_keeps. Qed.

End Kept.

End Bodies.

(** ** A manual offset pins the box *)

Section Pinned.

Variable deref : AcPtr -> Aircraft.
Variable windowFromLatLongP : vec2 -> vec2.
Variable rs : RadarScopePane.
Variable acs : list AcPtr.
Variable ac : AcPtr.
Variable st : AircraftScopeState.
Variable B : Extent2D.

Lemma pinned_unplaced_other (i : nat) (x : AcPtr) (ls : LayoutState) :
  pinned acs ac st B ls -> acs !! i = Some x -> placedAt ls i = false -> x <> ac.
Proof.
  intros (_ & _ & Hidx) Hi Hp ->. destruct (Hidx i Hi) as [Hpl _].
  unfold placedAt in Hp. by rewrite Hpl in Hp.
Qed.

Lemma pinned_write (i : nat) (x : AcPtr) (ls : LayoutState)
    (m : gmap AcPtr AircraftScopeState) (bs : list Extent2D) (ps : list bool) :
  pinned acs ac st B ls -> acs !! i = Some x -> x <> ac ->
  m !! ac = ls_states ls !! ac ->
  length bs = length (ls_bounds ls) -> length ps = length (ls_placed ls) ->
  (forall k, k <> i -> bs !! k = ls_bounds ls !! k) ->
  (forall k, k <> i -> ps !! k = ls_placed ls !! k) ->
  pinned acs ac st B (mkLayout m bs ps).
Proof.
  intros ([Hlb Hlp] & Hst & Hidx) Hi Hne Hm Hbs Hps Hbk Hpk.
  split; [split; simpl; congruence|]. split; [simpl; congruence|].
  intros k Hk. assert (k <> i) as Hki by (intros ->; congruence).
  simpl. rewrite (Hbk k Hki), (Hpk k Hki). by apply Hidx.
Qed.

Lemma pinned_kept : keptByAdjust acs (pinned acs ac st B).
Proof.
  intros i x ov ob ls Hi Hp Hpin.
  pose proof (pinned_unplaced_other i x ls Hpin Hi Hp) as Hne.
  apply (pinned_write i x ls); try done.
  - destruct ov as [v|]; simpl; [|done]. by rewrite lookup_alter_ne.
  - destruct ob as [b|]; simpl; [|done]. by rewrite length_insert.
  - intros k Hk. destruct ob as [b|]; simpl; [|done]. by rewrite list_lookup_insert_ne.
Qed.

Lemma pinned_placeIdeal (i : nat) (x : AcPtr) (ls : LayoutState) :
  acs !! i = Some x -> pinned acs ac st B ls ->
  pinned acs ac st B (placeIdeal deref windowFromLatLongP rs i x ls).
Proof.
  intros Hi Hpin. unfold placeIdeal.
  destruct (placedAt ls i) eqn:Hp; [done|].
  destruct (allowed _ _); [|done].
  pose proof (pinned_unplaced_other i x ls Hpin Hi Hp) as Hne.
  apply (pinned_write i x ls); try done; simpl.
  - by rewrite lookup_alter_ne.
  - by rewrite length_insert.
  - by rewrite length_insert.
  - intros k Hk. by rewrite list_lookup_insert_ne.
  - intros k Hk. by rewrite list_lookup_insert_ne.
Qed.

Hypothesis Hst : aircraft rs !! ac = Some st.
Hypothesis Hmanual : hasManualOffset st = true.
Hypothesis HB :
  B = Extent2D.Expand
        (WindowDatablockBounds st (windowFromLatLongP (Position (deref ac)))) (#5)%f32.

Lemma pinned_pinManual :
  pinned acs ac st B
    (forRange (pinManual deref windowFromLatLongP) acs
       (mkLayout (aircraft rs) (replicate (length acs) Extent2D.zero)
          (replicate (length acs) false))).
Proof.
  set (ls0 := mkLayout _ _ _).
  pose (P := fun (k : nat) (ls : LayoutState) =>
    sized acs ls /\ ls_states ls = aircraft rs
    /\ forall i, i < k -> acs !! i = Some ac ->
         ls_placed ls !! i = Some true /\ ls_bounds ls !! i = Some B).
  assert (P (length acs) (forRange (pinManual deref windowFromLatLongP) acs ls0)) as HP.
  { apply forRange_invariant_indexed.
    - split; [split; simpl; by rewrite length_replicate|]. split; [done|]. intros i Hi. lia.
    - intros k x ls Hk ([Hlb Hlp] & Hs & Hidx).
      apply lookup_lt_Some in Hk as Hlt.
      unfold pinManual. destruct (hasManualOffset (stateOf ls x)) eqn:Hm.
      + split; [split; simpl; by rewrite length_insert|]. split; [done|].
        intros i Hi Hiac. simpl. destruct (decide (i = k)) as [->|Hik].
        * rewrite !list_lookup_insert_eq by lia.
          assert (x = ac) as -> by congruence.
          unfold stateOf. rewrite Hs, Hst. simpl. by rewrite HB.
        * rewrite !list_lookup_insert_ne by done. apply Hidx; [lia|done].
      + split; [done|]. split; [done|]. intros i Hi Hiac.
        destruct (decide (i = k)) as [->|Hik]; [|apply Hidx; [lia|done]].
        assert (x = ac) as -> by congruence.
        unfold stateOf in Hm. rewrite Hs, Hst in Hm. simpl in Hm. congruence. }
  destruct HP as (Hsz & Hs & Hidx). split; [done|]. split; [by rewrite Hs|].
  intros i Hi. apply Hidx; [|done]. by apply lookup_lt_Some in Hi.
Qed.

Lemma pinned_layoutRelaxed :
  pinned acs ac st B (layoutRelaxed deref windowFromLatLongP rs acs).
Proof.
  unfold layoutRelaxed, layoutStarted. cbv zeta.
  apply relaxation_keeps; [apply pinned_kept|].
  apply initBounds_keeps; [apply pinned_kept|].
  apply startIdeal_keeps; [apply pinned_kept|].
  apply forRange_invariant; [apply pinned_pinManual|].
  intros i x ls Hi Hpin. by apply pinned_placeIdeal.
Qed.

Lemma pinned_passes (n : nat) :
  pinned acs ac st B
    (passes (attractPass deref rs acs) n (layoutRelaxed deref windowFromLatLongP rs acs)).
Proof. apply attractPasses_keep; [apply pinned_kept|apply pinned_layoutRelaxed]. Qed.

End Pinned.

Lemma layoutSelfOnly_lookup (deref : AcPtr -> Aircraft) (rs : RadarScopePane) (ac : AcPtr) :
  layoutSelfOnly deref rs !! ac
  = (fun state =>
       if filteredOut deref rs ac then state
       else if hasManualOffset state then setAutomaticOffset vzero state
       else setAutomaticOffset (offsetSelfOnly deref rs ac state) state)
    <$> aircraft rs !! ac.
Proof.
  unfold layoutSelfOnly. rewrite map_lookup_imap. by destruct (aircraft rs !! ac).
Qed.

(** C1. For every aircraft whose scope state has a non-zero manual offset,
    the label box is the local box moved by the track position and by the
    manual offset, whatever the automatic offset is.  The layout on its own
    track keeps the manual offset and the local box, hence that label box,
    and resets the automatic offset to zero for an aircraft that it lays
    out (one that is not skipped as lost or outside the altitude range).
    The automatic layout, over every slice of aircraft and after every
    number of passes of its last loop, leaves the state of that aircraft as
    it was and every index of the aircraft placed, with the padded label
    box; so does every run of [layoutDatablocks] that returns. *)
Theorem C1_manual_offset_pins_box
    (deref : AcPtr -> Aircraft) (windowFromLatLongP : vec2 -> vec2)
    (paneWidth paneHeight : float32) (rs : RadarScopePane)
    (ac : AcPtr) (st : AircraftScopeState) :
  aircraft rs !! ac = Some st ->
  hasManualOffset st = true ->
  let pw := windowFromLatLongP (Position (deref ac)) in
  let box := Extent2D.Offset (Extent2D.Offset (datablockBounds st) pw)
               (datablockManualOffset st) in
  (forall v p, WindowDatablockBounds (setAutomaticOffset v st) p
               = Extent2D.Offset (Extent2D.Offset (datablockBounds st) p)
                   (datablockManualOffset st))
  /\ (exists st',
        layoutSelfOnly deref rs !! ac = Some st'
        /\ datablockManualOffset st' = datablockManualOffset st
        /\ datablockBounds st' = datablockBounds st
        /\ WindowDatablockBounds st' pw = box
        /\ (filteredOut deref rs ac = false -> datablockAutomaticOffset st' = vzero))
  /\ (forall acs n,
        let ls := passes (attractPass deref rs acs) n
                    (layoutRelaxed deref windowFromLatLongP rs acs) in
        ls_states ls !! ac = Some st
        /\ forall i, acs !! i = Some ac ->
             ls_placed ls !! i = Some true
             /\ ls_bounds ls !! i = Some (Extent2D.Expand box (#5)%f32))
  /\ (forall fuel rs',
        layoutDatablocks deref windowFromLatLongP paneWidth paneHeight rs fuel = Some rs' ->
        exists st',
          aircraft rs' !! ac = Some st'
          /\ datablockManualOffset st' = datablockManualOffset st
          /\ WindowDatablockBounds st' pw = box).
Proof.
  intros Hst Hm pw box.
  assert (forall v p, WindowDatablockBounds (setAutomaticOffset v st) p
               = Extent2D.Offset (Extent2D.Offset (datablockBounds st) p)
                   (datablockManualOffset st)) as Hbox.
  { intros v p. rewrite WindowDatablockBounds_setAutomaticOffset by done.
    by apply WindowDatablockBounds_manual. }
  assert (exists st',
        layoutSelfOnly deref rs !! ac = Some st'
        /\ datablockManualOffset st' = datablockManualOffset st
        /\ datablockBounds st' = datablockBounds st
        /\ WindowDatablockBounds st' pw = box
        /\ (filteredOut deref rs ac = false -> datablockAutomaticOffset st' = vzero))
    as Hself.
  { rewrite layoutSelfOnly_lookup, Hst. simpl. rewrite Hm.
    destruct (filteredOut deref rs ac).
    - exists st. repeat split; try done; by apply WindowDatablockBounds_manual.
    - exists (setAutomaticOffset vzero st). repeat split; try done; apply Hbox. }
  assert (forall acs n,
        pinned acs ac st (Extent2D.Expand box (#5)%f32)
          (passes (attractPass deref rs acs) n
             (layoutRelaxed deref windowFromLatLongP rs acs))) as Hauto.
  { intros acs n. apply pinned_passes; [done..|].
    by rewrite WindowDatablockBounds_manual. }
  split; [done|]. split; [done|]. split.
  - intros acs n. destruct (Hauto acs n) as (_ & Hs & Hidx). by split.
  - intros fuel rs'. unfold layoutDatablocks.
    destruct (AutomaticDatablockLayout rs); simpl.
    + unfold layoutAutomatic.
      destruct (loopWhile _ fuel _) as [ls|] eqn:Hloop; [|done].
      intros [= <-]. apply loopWhile_passes in Hloop. subst ls.
      destruct (Hauto (layoutAircraft deref windowFromLatLongP paneWidth paneHeight rs) fuel)
        as (_ & Hs & _).
      exists st. simpl. repeat split; try done; by apply WindowDatablockBounds_manual.
    + intros [= <-]. simpl. destruct Hself as (st' & H1 & H2 & H3 & H4 & H5).
      exists st'. by repeat split.
Qed.

Lemma C1_manual_offset_pins_box_witness :
  let pw := (#100, #100)%f32 in
  let box := mkExtent (#110, #98)%f32 (#150, #110)%f32 in
  (exists st',
     layoutSelfOnly LayoutScene.deref (Scene.pane false LayoutScene.store) !! 1%positive
       = Some st'
     /\ WindowDatablockBounds st' pw = box
     /\ datablockAutomaticOffset st' = vzero)
  /\ (exists rs' st',
        layoutDatablocks LayoutScene.deref Scene.project Scene.side Scene.side
          (Scene.pane true LayoutScene.store) 1 = Some rs'
        /\ aircraft rs' !! 1%positive = Some st'
        /\ WindowDatablockBounds st' pw = box).
Proof.
  destruct (C1_manual_offset_pins_box LayoutScene.deref Scene.project Scene.side Scene.side
              (Scene.pane false LayoutScene.store) 1%positive LayoutScene.manual10
              eq_refl eq_refl) as (_ & (st' & H1 & _ & _ & H4 & H5) & _ & _).
  destruct (C1_manual_offset_pins_box LayoutScene.deref Scene.project Scene.side Scene.side
              (Scene.pane true LayoutScene.store) 1%positive LayoutScene.manual10
              eq_refl eq_refl) as (_ & _ & _ & Hrun).
  split.
  - exists st'. split; [exact H1|]. split; [exact H4|]. apply H5. reflexivity.
  - destruct (layoutDatablocks LayoutScene.deref Scene.project Scene.side Scene.side
                (Scene.pane true LayoutScene.store) 1) as [rs'|] eqn:Hrs'.
    + destruct (Hrun 1 rs' Hrs') as (st'' & Ha & _ & Hb).
      exists rs', st''. split; [reflexivity|]. split; [exact Ha|exact Hb].
    + vm_compute in Hrs'. discriminate Hrs'.
Defined.

(** ** Placed boxes do not overlap, manual ones apart *)

Lemma manualKept_kept (acs : list AcPtr) (m : gmap AcPtr AircraftScopeState) :
  keptByAdjust acs (manualKept m).
Proof.
  intros i x ov ob ls _ _ Hk y. rewrite stateOf_updUnplaced_manual. apply Hk.
Qed.

Lemma hasManualOffset_updUnplaced (i : nat) (ac x : AcPtr) (ov : option vec2)
    (ob : option Extent2D) (ls : LayoutState) :
  hasManualOffset (stateOf (updUnplaced i ac ov ob ls) x) = hasManualOffset (stateOf ls x).
Proof. unfold hasManualOffset. by rewrite stateOf_updUnplaced_manual. Qed.

Lemma separated_kept (acs : list AcPtr) :
  keptByAdjust acs (fun ls => sized acs ls /\ separated acs ls).
Proof.
  intros i x ov ob ls Hi Hp [Hsz [Hun Hsep]].
  split; [by apply sized_updUnplaced|]. split.
  - intros k y Hk Hpk. rewrite hasManualOffset_updUnplaced. by apply (Hun k y Hk).
  - intros a b xa xb Hab Ha Hb Hpa Hpb Hman.
    rewrite placedAt_updUnplaced in Hpa, Hpb.
    rewrite !hasManualOffset_updUnplaced in Hman.
    rewrite !boundsAt_updUnplaced_ne by congruence.
    by apply (Hsep a b xa xb).
Qed.

Section Separated.

Variable deref : AcPtr -> Aircraft.
Variable windowFromLatLongP : vec2 -> vec2.
Variable rs : RadarScopePane.
Variable acs : list AcPtr.

Lemma manualKept_placeIdeal (i : nat) (x : AcPtr) (ls : LayoutState) :
  manualKept (aircraft rs) ls ->
  manualKept (aircraft rs) (placeIdeal deref windowFromLatLongP rs i x ls).
Proof.
  intros Hk. unfold placeIdeal. destruct (placedAt ls i); [done|].
  destruct (allowed _ _); [|done]. intros y.
  rewrite stateOf_writeAutomaticOffset_manual. apply Hk.
Qed.

Lemma separated_placeIdeal (i : nat) (x : AcPtr) (ls : LayoutState) :
  acs !! i = Some x ->
  sized acs ls /\ separated acs ls ->
  sized acs (placeIdeal deref windowFromLatLongP rs i x ls)
  /\ separated acs (placeIdeal deref windowFromLatLongP rs i x ls).
Proof.
  intros Hi [[Hlb Hlp] [Hun Hsep]]. unfold placeIdeal.
  destruct (placedAt ls i) eqn:Hp; [done|].
  set (db := Extent2D.Offset _ _).
  destruct (allowed ls db) eqn:Hall; [|done].
  apply lookup_lt_Some in Hi as Hlt.
  set (ls' := writeAutomaticOffset _ _ _).
  assert (forall y, hasManualOffset (stateOf ls' y) = hasManualOffset (stateOf ls y)) as Hman.
  { intros y. unfold hasManualOffset, ls'.
    by rewrite stateOf_writeAutomaticOffset_manual. }
  assert (placedAt ls' i = true) as Hpi.
  { unfold placedAt, ls'. simpl. by rewrite list_lookup_insert_eq by lia. }
  assert (forall k, k <> i -> placedAt ls' k = placedAt ls k) as Hpk.
  { intros k Hk. unfold placedAt, ls'. simpl. by rewrite list_lookup_insert_ne. }
  assert (boundsAt ls' i = db) as Hbi.
  { unfold boundsAt, ls'. simpl. by rewrite list_lookup_insert_eq by lia. }
  assert (forall k, k <> i -> boundsAt ls' k = boundsAt ls k) as Hbk.
  { intros k Hk. unfold boundsAt, ls'. simpl. by rewrite list_lookup_insert_ne. }
  split; [split; unfold ls'; simpl; by rewrite length_insert|]. split.
  - intros k y Hk Hpk'. rewrite Hman. destruct (decide (k = i)) as [->|Hki]; [congruence|].
    apply (Hun k y Hk). by rewrite <- Hpk.
  - intros a b xa xb Hab Ha Hb Hpa Hpb Hm. rewrite !Hman in Hm.
    destruct (decide (a = i)) as [->|Hai]; [|destruct (decide (b = i)) as [->|Hbi']].
    + rewrite Hbi, Hbk by done. rewrite Hpk in Hpb by done.
      apply allowed_spec; [done|lia|done].
    + rewrite Hbi, Hbk by done. rewrite Hpk in Hpa by done.
      rewrite Overlaps_sym. apply allowed_spec; [done|lia|done].
    + rewrite !Hbk by done. rewrite Hpk in Hpa, Hpb by done.
      by apply (Hsep a b xa xb).
Qed.

(** After the first pass exactly the aircraft with a manual offset are
    placed. *)
Lemma pinManual_placed :
  let ls := forRange (pinManual deref windowFromLatLongP) acs
              (mkLayout (aircraft rs) (replicate (length acs) Extent2D.zero)
                 (replicate (length acs) false)) in
  sized acs ls /\ ls_states ls = aircraft rs
  /\ forall i x, acs !! i = Some x -> placedAt ls i = hasManualOffset (stateOf ls x).
Proof.
  set (ls0 := mkLayout _ _ _). cbv zeta.
  pose (P := fun (k : nat) (ls : LayoutState) =>
    sized acs ls /\ ls_states ls = aircraft rs
    /\ (forall i x, i < k -> acs !! i = Some x ->
          placedAt ls i = hasManualOffset (stateOf ls x))
    /\ (forall i, k <= i -> placedAt ls i = false)).
  assert (P (length acs) (forRange (pinManual deref windowFromLatLongP) acs ls0)) as HP.
  { apply forRange_invariant_indexed.
    - split; [split; simpl; by rewrite length_replicate|]. split; [done|].
      split; [intros; lia|]. intros i _. unfold placedAt. simpl.
      destruct (replicate (length acs) false !! i) as [b|] eqn:Hb; [|done].
      apply lookup_replicate in Hb as [-> _]. done.
    - intros k x ls Hk ([Hlb Hlp] & Hs & Hlow & Hhigh).
      apply lookup_lt_Some in Hk as Hlt.
      unfold pinManual. destruct (hasManualOffset (stateOf ls x)) eqn:Hm.
      + split; [split; simpl; by rewrite length_insert|]. split; [done|]. split.
        * intros i y Hi Hy. unfold placedAt, stateOf. simpl.
          destruct (decide (i = k)) as [->|Hik].
          -- rewrite list_lookup_insert_eq by lia. simpl.
             assert (y = x) as -> by congruence. symmetry. exact Hm.
          -- rewrite list_lookup_insert_ne by done. apply Hlow; [lia|done].
        * intros i Hi. unfold placedAt. simpl.
          rewrite list_lookup_insert_ne by lia. apply Hhigh. lia.
      + split; [done|]. split; [done|]. split.
        * intros i y Hi Hy. destruct (decide (i = k)) as [->|Hik].
          -- assert (y = x) as -> by congruence. rewrite Hm. apply Hhigh. lia.
          -- apply Hlow; [lia|done].
        * intros i Hi. apply Hhigh. lia. }
  destruct HP as (Hsz & Hs & Hlow & _). split; [done|]. split; [done|].
  intros i x Hi. apply Hlow; [|done]. by apply lookup_lt_Some in Hi.
Qed.

Lemma separated_pinManual :
  let ls := forRange (pinManual deref windowFromLatLongP) acs
              (mkLayout (aircraft rs) (replicate (length acs) Extent2D.zero)
                 (replicate (length acs) false)) in
  (sized acs ls /\ separated acs ls) /\ manualKept (aircraft rs) ls.
Proof.
  cbv zeta. destruct pinManual_placed as (Hsz & Hs & Hpl).
  split; [split; [done|split]|].
  - intros i x Hi Hp. by rewrite <- (Hpl i x Hi).
  - intros a b xa xb _ Ha Hb Hpa Hpb [Hm|Hm].
    + rewrite (Hpl a xa Ha) in Hpa. congruence.
    + rewrite (Hpl b xb Hb) in Hpb. congruence.
  - intros y. unfold stateOf. by rewrite Hs.
Qed.

Lemma separated_passes (n : nat) :
  let ls := passes (attractPass deref rs acs) n
              (layoutRelaxed deref windowFromLatLongP rs acs) in
  (sized acs ls /\ separated acs ls) /\ manualKept (aircraft rs) ls.
Proof.
  cbv zeta. destruct separated_pinManual as [Hsep Hkept].
  assert ((sized acs (forRange (placeIdeal deref windowFromLatLongP rs) acs
             (forRange (pinManual deref windowFromLatLongP) acs
                (mkLayout (aircraft rs) (replicate (length acs) Extent2D.zero)
                   (replicate (length acs) false))))
           /\ separated acs (forRange (placeIdeal deref windowFromLatLongP rs) acs
             (forRange (pinManual deref windowFromLatLongP) acs
                (mkLayout (aircraft rs) (replicate (length acs) Extent2D.zero)
                   (replicate (length acs) false)))))
          /\ manualKept (aircraft rs) (forRange (placeIdeal deref windowFromLatLongP rs) acs
             (forRange (pinManual deref windowFromLatLongP) acs
                (mkLayout (aircraft rs) (replicate (length acs) Extent2D.zero)
                   (replicate (length acs) false))))) as [H2 K2].
  { apply (forRange_invariant
             (fun ls => (sized acs ls /\ separated acs ls) /\ manualKept (aircraft rs) ls));
      [done|].
    intros i x ls Hi [Hs Hk]. split; [by apply separated_placeIdeal|].
    by apply manualKept_placeIdeal. }
  split.
  - apply attractPasses_keep; [apply separated_kept|].
    unfold layoutRelaxed, layoutStarted. cbv zeta.
    apply relaxation_keeps; [apply separated_kept|].
    apply initBounds_keeps; [apply separated_kept|].
    apply startIdeal_keeps; [apply separated_kept|]. exact H2.
  - apply attractPasses_keep; [apply manualKept_kept|].
    unfold layoutRelaxed, layoutStarted. cbv zeta.
    apply relaxation_keeps; [apply manualKept_kept|].
    apply initBounds_keeps; [apply manualKept_kept|].
    apply startIdeal_keeps; [apply manualKept_kept|]. exact K2.
Qed.

End Separated.

(** ** What the layout records for a placed index *)

Lemma sub_diag (x : float32) : isFinite x = true -> (x - x)%f32 = F32.zero.
Proof.
  destruct x as [[]|[]| |s m e]; try done. intros _.
  unfold F32.sub, SFsub. rewrite Z.min_id. unfold shl_align. by rewrite !Z.sub_diag.
Qed.

Lemma sub2f_diag (v : vec2) : finite2f v = true -> sub2f v v = vzero.
Proof.
  intros [H1 H2]%andb_prop. unfold sub2f, vzero. by rewrite !sub_diag.
Qed.

(** Adding zero changes at most the sign of a zero, which no comparison
    sees. *)
Lemma compare_add_zero_l (x y : float32) : SFcompare (x + F32.zero)%f32 y = SFcompare x y.
Proof. destruct x as [[]|[]| |[] m e]; try done; by destruct y. Qed.

Lemma compare_add_zero_r (x y : float32) : SFcompare y (x + F32.zero)%f32 = SFcompare y x.
Proof. destruct x as [[]|[]| |[] m e]; try done; by destruct y. Qed.

Lemma Overlaps_Offset_zero_l (a b : Extent2D) :
  Overlaps (Extent2D.Offset a vzero) b = Overlaps a b.
Proof.
  unfold Overlaps, Extent2D.Offset, add2f, vzero, F32.geb, F32.leb, SFleb.
  cbn [p0 p1 fst snd]. by rewrite !compare_add_zero_l, !compare_add_zero_r.
Qed.

Lemma Overlaps_Offset_zero_r (a b : Extent2D) :
  Overlaps a (Extent2D.Offset b vzero) = Overlaps a b.
Proof. by rewrite Overlaps_sym, Overlaps_Offset_zero_l, Overlaps_sym. Qed.

Lemma setAutomaticOffset_same (s : AircraftScopeState) :
  setAutomaticOffset (datablockAutomaticOffset s) s = s.
Proof. by destruct s. Qed.

Lemma stateOf_updUnplaced_ne (i : nat) (ac x : AcPtr) (ov : option vec2)
    (ob : option Extent2D) (ls : LayoutState) :
  ac <> x -> stateOf (updUnplaced i ac ov ob ls) x = stateOf ls x.
Proof.
  intros Hne. unfold stateOf. destruct ov as [v|]; simpl; [|done].
  by rewrite lookup_alter_ne.
Qed.

Section Recorded.

Variable deref : AcPtr -> Aircraft.
Variable windowFromLatLongP : vec2 -> vec2.
Variable rs : RadarScopePane.
Variable acs : list AcPtr.

Hypothesis acs_NoDup : NoDup acs.
Hypothesis acs_tracked : forall x, x ∈ acs -> is_Some (aircraft rs !! x).

Local Abbreviation recorded := (recorded deref windowFromLatLongP rs acs).

(** The passes after the second one write to aircraft at unplaced indices,
    which are other aircraft than the placed ones. *)
Lemma recorded_kept : keptByAdjust acs recorded.
Proof.
  intros k ac ov ob ls Hk Hpk Hrec i x Hi Hpi.
  rewrite placedAt_updUnplaced in Hpi.
  assert (k <> i) as Hki by congruence.
  assert (ac <> x) as Hne.
  { intros ->. apply Hki. by apply (NoDup_lookup acs k i x). }
  rewrite stateOf_updUnplaced_ne, boundsAt_updUnplaced_ne by done.
  by apply Hrec.
Qed.

(** After the first pass. *)
Lemma recorded_pinManual :
  let ls := forRange (pinManual deref windowFromLatLongP) acs
              (mkLayout (aircraft rs) (replicate (length acs) Extent2D.zero)
                 (replicate (length acs) false)) in
  sized acs ls /\ recorded ls /\ untouched rs acs ls.
Proof.
  cbv zeta. destruct (pinManual_placed deref windowFromLatLongP rs acs) as (Hsz & Hs & Hpl).
  set (ls0 := mkLayout _ _ _) in *.
  assert (forall x, stateOf (forRange (pinManual deref windowFromLatLongP) acs ls0) x
                    = default newScopeState (aircraft rs !! x)) as Hst.
  { intros x. unfold stateOf. by rewrite Hs. }
  split; [done|]. split.
  - assert (let ls := forRange (pinManual deref windowFromLatLongP) acs ls0 in
            (sized acs ls /\ ls_states ls = aircraft rs)
            /\ forall i x, acs !! i = Some x -> placedAt ls i = true ->
                 boundsAt ls i
                 = paddedLabelBox deref windowFromLatLongP x
                     (default newScopeState (aircraft rs !! x))) as [_ Hbox].
    { apply (forRange_invariant (fun ls =>
               (sized acs ls /\ ls_states ls = aircraft rs)
               /\ forall i x, acs !! i = Some x -> placedAt ls i = true ->
                    boundsAt ls i
                    = paddedLabelBox deref windowFromLatLongP x
                        (default newScopeState (aircraft rs !! x)))).
      - split; [split; [split; simpl; by rewrite length_replicate|done]|].
        intros i x _. unfold placedAt, ls0. simpl.
        destruct (replicate (length acs) false !! i) as [b|] eqn:Hb; [|done].
        by apply lookup_replicate in Hb as [-> _].
      - intros k y ls Hk [[[Hlb Hlp] Hsame] Hbox]. unfold pinManual.
        destruct (hasManualOffset (stateOf ls y)); [|done].
        apply lookup_lt_Some in Hk as Hlt.
        split; [split; [split; simpl; by rewrite length_insert|done]|].
        intros i x Hi. unfold placedAt, boundsAt. simpl.
        destruct (decide (i = k)) as [->|Hik].
        + intros _. assert (x = y) as -> by congruence.
          rewrite list_lookup_insert_eq by lia. simpl.
          unfold paddedLabelBox, stateOf. by rewrite Hsame.
        + rewrite !list_lookup_insert_ne by done. by apply Hbox. }
    intros i x Hi Hp. cbv zeta. pose proof Hp as Hm.
    rewrite (Hpl i x Hi), Hst in Hm. rewrite Hm. split; [apply Hst|by apply Hbox].
  - split.
    + intros x Hx. rewrite Hs. by apply acs_tracked.
    + intros i x Hi Hp. split; [apply Hst|]. by rewrite <- (Hpl i x Hi).
Qed.

(** The second pass: the aircraft that it places still has the state of the
    store, so that the box tested is the one of [movedToIdeal]. *)
Lemma recorded_placeIdeal (k : nat) (y : AcPtr) (ls : LayoutState) :
  acs !! k = Some y ->
  sized acs ls /\ recorded ls /\ untouched rs acs ls ->
  sized acs (placeIdeal deref windowFromLatLongP rs k y ls)
  /\ recorded (placeIdeal deref windowFromLatLongP rs k y ls)
  /\ untouched rs acs (placeIdeal deref windowFromLatLongP rs k y ls).
Proof.
  intros Hk ([Hlb Hlp] & Hrec & Htr & Hun). unfold placeIdeal.
  destruct (placedAt ls k) eqn:Hp; [done|].
  destruct (Hun k y Hk Hp) as [Hsy Hmy]. rewrite Hsy in Hmy |- *.
  set (s := default newScopeState (aircraft rs !! y)) in *.
  fold (paddedLabelBox deref windowFromLatLongP y s).
  fold (movedToIdeal deref windowFromLatLongP rs y s).
  destruct (allowed ls _); [|done].
  apply lookup_lt_Some in Hk as Hlt.
  assert (y ∈ acs) as Hy by (by apply list_elem_of_lookup_2 in Hk).
  set (ls' := writeAutomaticOffset _ _ _).
  assert (stateOf ls' y = setAutomaticOffset (offsetSelfOnly deref rs y s) s) as Hsy'.
  { unfold ls'. rewrite stateOf_writeAutomaticOffset_eq by (by apply Htr).
    change (stateOf (writeBounds k _ (writePlaced k true ls)) y) with (stateOf ls y).
    by rewrite Hsy. }
  assert (forall x, x <> y -> stateOf ls' x = stateOf ls x) as Hsx.
  { intros x Hx. unfold ls'. by rewrite stateOf_writeAutomaticOffset_ne. }
  assert (forall i x, acs !! i = Some x -> i <> k -> x <> y) as Hother.
  { intros i x Hi Hik ->. apply Hik. by apply (NoDup_lookup acs i k y). }
  split; [split; unfold ls'; simpl; by rewrite length_insert|]. split; [|split].
  - intros i x Hi. unfold placedAt, boundsAt. cbn [ls' writeAutomaticOffset writeBounds
      writePlaced ls_placed ls_bounds].
    destruct (decide (i = k)) as [->|Hik].
    + intros _. assert (x = y) as -> by congruence. cbv zeta. fold s. rewrite Hmy.
      split; [done|]. by rewrite list_lookup_insert_eq by lia.
    + rewrite !list_lookup_insert_ne by done. intros Hpi.
      rewrite (Hsx x) by (by apply (Hother i)). by apply Hrec.
  - intros x Hx. unfold ls'. simpl.
    destruct (decide (y = x)) as [->|Hne].
    + rewrite lookup_alter_eq. destruct (Htr x Hx) as [t ->]. by eexists.
    + rewrite lookup_alter_ne by done. by apply Htr.
  - intros i x Hi. unfold placedAt. cbn [ls' writeAutomaticOffset writeBounds
      writePlaced ls_placed].
    destruct (decide (i = k)) as [->|Hik].
    + by rewrite list_lookup_insert_eq by lia.
    + rewrite list_lookup_insert_ne by done. intros Hpi.
      rewrite (Hsx x) by (by apply (Hother i)). by apply (Hun i).
Qed.

(** After the automatic layout, however many passes its last loop makes. *)
Lemma recorded_passes (n : nat) :
  recorded (passes (attractPass deref rs acs) n
              (layoutRelaxed deref windowFromLatLongP rs acs)).
Proof.
  assert (let ls := forRange (placeIdeal deref windowFromLatLongP rs) acs
                      (forRange (pinManual deref windowFromLatLongP) acs
                         (mkLayout (aircraft rs) (replicate (length acs) Extent2D.zero)
                            (replicate (length acs) false))) in
          sized acs ls /\ recorded ls /\ untouched rs acs ls) as (_ & H2 & _).
  { apply (forRange_invariant
             (fun ls => sized acs ls /\ recorded ls /\ untouched rs acs ls)).
    - apply recorded_pinManual.
    - intros i x ls Hi H. by apply recorded_placeIdeal. }
  apply attractPasses_keep; [apply recorded_kept|].
  unfold layoutRelaxed, layoutStarted. cbv zeta.
  apply relaxation_keeps; [apply recorded_kept|].
  apply initBounds_keeps; [apply recorded_kept|].
  apply startIdeal_keeps; [apply recorded_kept|]. exact H2.
Qed.

(** The box recorded for a placed aircraft is its padded label box, up to
    the sign of a zero, when the aircraft has a manual offset or stood at
    its ideal offset already. *)
Lemma recorded_label (ls : LayoutState) (i : nat) (x : AcPtr) (b : Extent2D) :
  let s := default newScopeState (aircraft rs !! x) in
  recorded ls -> acs !! i = Some x -> placedAt ls i = true ->
  hasManualOffset s = true
  \/ (datablockAutomaticOffset s = offsetSelfOnly deref rs x s
      /\ finite2f (offsetSelfOnly deref rs x s) = true) ->
  Overlaps (boundsAt ls i) b
  = Overlaps (paddedLabelBox deref windowFromLatLongP x (stateOf ls x)) b.
Proof.
  intros s Hrec Hi Hp Hsettled. specialize (Hrec i x Hi Hp). cbv zeta in Hrec. fold s in Hrec.
  destruct (hasManualOffset s) eqn:Hm.
  - destruct Hrec as [-> ->]. done.
  - destruct Hsettled as [?|[Hideal Hfin]]; [done|]. destruct Hrec as [-> ->].
    replace (setAutomaticOffset (offsetSelfOnly deref rs x s) s) with s
      by (by rewrite <- Hideal, setAutomaticOffset_same).
    unfold movedToIdeal. rewrite Hideal, sub2f_diag by done.
    apply Overlaps_Offset_zero_l.
Qed.

End Recorded.

(** C3, as the code has it.  After the automatic layout, over every slice of
    aircraft and after every number of passes of its last loop, the boxes
    that the layout holds for two distinct placed indices do not overlap as
    soon as one of the two aircraft has no manual offset, that is, was
    accepted by the second pass ([pinManual_placed]: the first pass places
    exactly the aircraft with a manual offset).  Over a slice without
    duplicates of tracked aircraft, such as the one that the layout builds,
    the box held for an aircraft with a manual offset is its padded label
    box, and the box held for an aircraft of the second pass is the padded
    label box that it had, moved by the difference between its ideal and its
    former automatic offset ([recorded]).  The padded label boxes themselves
    do not overlap when each of the two aircraft has a manual offset or
    stood at its ideal offset, a finite one, before the layout: then nothing
    is moved.  Nothing is said of two aircraft that both have a manual
    offset: the first pass places them without looking at any other box. *)
Theorem C3_placed_boxes_separated
    (deref : AcPtr -> Aircraft) (windowFromLatLongP : vec2 -> vec2)
    (rs : RadarScopePane) (acs : list AcPtr) (n : nat)
    (i j : nat) (xi xj : AcPtr) :
  let ls := passes (attractPass deref rs acs) n
              (layoutRelaxed deref windowFromLatLongP rs acs) in
  let before x := default newScopeState (aircraft rs !! x) in
  let label x := paddedLabelBox deref windowFromLatLongP x (stateOf ls x) in
  let settled x :=
    hasManualOffset (before x) = true
    \/ (datablockAutomaticOffset (before x) = offsetSelfOnly deref rs x (before x)
        /\ finite2f (offsetSelfOnly deref rs x (before x)) = true) in
  i <> j -> acs !! i = Some xi -> acs !! j = Some xj ->
  placedAt ls i = true -> placedAt ls j = true ->
  hasManualOffset (before xi) = false \/ hasManualOffset (before xj) = false ->
  Overlaps (boundsAt ls i) (boundsAt ls j) = false
  /\ (NoDup acs -> (forall x, x ∈ acs -> is_Some (aircraft rs !! x)) ->
      recorded deref windowFromLatLongP rs acs ls
      /\ (settled xi -> settled xj -> Overlaps (label xi) (label xj) = false)).
Proof.
  intros ls before label settled Hij Hi Hj Hpi Hpj Hman.
  assert (Overlaps (boundsAt ls i) (boundsAt ls j) = false) as Hsep.
  { destruct (separated_passes deref windowFromLatLongP rs acs n) as [[_ [_ Hsep]] Hkept].
    fold ls in Hsep, Hkept.
    apply (Hsep i j xi xj); try done.
    unfold hasManualOffset in *. by rewrite !Hkept. }
  split; [done|]. intros Hnodup Htracked.
  pose proof (recorded_passes deref windowFromLatLongP rs acs Hnodup Htracked n) as Hrec.
  fold ls in Hrec. split; [done|]. intros Hsi Hsj. unfold label.
  rewrite <- (recorded_label deref windowFromLatLongP rs acs ls i xi _ Hrec Hi Hpi Hsi).
  rewrite Overlaps_sym.
  rewrite <- (recorded_label deref windowFromLatLongP rs acs ls j xj _ Hrec Hj Hpj Hsj).
  by rewrite Overlaps_sym.
Qed.

(** [AAL1] with its manual offset and [DAL3] at its ideal offset (5,-5): both
    are placed and their padded label boxes are apart. *)
Lemma C3_placed_boxes_separated_witness :
  let rs := Scene.pane true EdgeScene.settled in
  let ls := passes (attractPass EdgeScene.deref rs [1%positive; 3%positive]) 1
              (layoutRelaxed EdgeScene.deref Scene.project rs [1%positive; 3%positive]) in
  placedAt ls 0 = true /\ placedAt ls 1 = true
  /\ Overlaps (boundsAt ls 0) (boundsAt ls 1) = false
  /\ Overlaps (paddedLabelBox EdgeScene.deref Scene.project 1%positive (stateOf ls 1%positive))
       (paddedLabelBox EdgeScene.deref Scene.project 3%positive (stateOf ls 3%positive))
     = false.
Proof.
  intros rs ls. split; [reflexivity|]. split; [reflexivity|].
  destruct (C3_placed_boxes_separated EdgeScene.deref Scene.project rs
              [1%positive; 3%positive] 1 0 1 1%positive 3%positive)
    as [Hheld Hlabel].
  - discriminate.
  - reflexivity.
  - reflexivity.
  - reflexivity.
  - reflexivity.
  - right. reflexivity.
  - split; [exact Hheld|]. apply Hlabel.
    + apply (bool_decide_unpack (NoDup [1%positive; 3%positive])). reflexivity.
    + intros x Hx. apply elem_of_cons in Hx as [->|Hx]; [by eexists|].
      apply list_elem_of_singleton in Hx as ->. by eexists.
    + left. reflexivity.
    + right. split; reflexivity.
Defined.

(** C3 as the specification states it fails, in two ways.  Two aircraft on
    the same spot that both have the manual offset (10,10) are both placed,
    with the same padded label box.  And [BAW2], which the second pass
    accepts next to the manual box of [AAL1], is tested with a box that
    begins at x = 60 + 2^-18, just right of that box, while its padded label
    box begins at x = 60, where the box of [AAL1] ends: the sum of the
    position and of the offset is rounded. *)
Lemma C3_counterexample :
  (exists ls : LayoutState,
     layoutAutomatic LayoutScene.deref Scene.project
       (Scene.pane true LayoutScene.bothManual)
       (layoutAircraft LayoutScene.deref Scene.project Scene.side Scene.side
          (Scene.pane true LayoutScene.bothManual)) 1 = Some ls
     /\ placedAt ls 0 = true /\ placedAt ls 1 = true
     /\ Overlaps
          (paddedLabelBox LayoutScene.deref Scene.project 1%positive (stateOf ls 1%positive))
          (paddedLabelBox LayoutScene.deref Scene.project 2%positive (stateOf ls 2%positive))
        = true)
  /\ (exists ls : LayoutState,
        layoutAutomatic EdgeScene.deref Scene.project
          (Scene.pane true EdgeScene.touching)
          (layoutAircraft EdgeScene.deref Scene.project Scene.side Scene.side
             (Scene.pane true EdgeScene.touching)) 1 = Some ls
        /\ placedAt ls 0 = true /\ placedAt ls 1 = true
        /\ hasManualOffset (stateOf ls 2%positive) = false
        /\ Overlaps (boundsAt ls 0) (boundsAt ls 1) = false
        /\ Overlaps
             (paddedLabelBox EdgeScene.deref Scene.project 1%positive (stateOf ls 1%positive))
             (paddedLabelBox EdgeScene.deref Scene.project 2%positive (stateOf ls 2%positive))
           = true).
Proof.
  split; (eexists; split; [vm_compute; reflexivity|]; by vm_compute).
Qed.

(** ** The anchor policy *)

Lemma offsetSelfOnly_anchor (deref : AcPtr -> Aircraft) (rs : RadarScopePane)
    (ac : AcPtr) (info : AircraftScopeState) (a : Anchor) :
  let bbox := Extent2D.Expand (datablockBounds info) (#5)%f32 in
  datablockConnectP bbox (Heading (deref ac) + RotationAngle rs)%f32
    = (anchorPoint a bbox, anchorIsCorner a) ->
  offsetSelfOnly deref rs ac info = anchorOffset a bbox.
Proof.
  intros bbox H. unfold offsetSelfOnly. fold bbox. rewrite H.
  unfold anchorOffset. by destruct (anchorIsCorner a).
Qed.

(** C6, as the code has it.  With [h] the heading plus the display rotation
    plus 15 degrees, corrected by at most one full turn, the anchor of the padded label box is taken from eight
    sectors of widths 30/60/30/60/30/60/30/60 degrees: the left-edge
    midpoint in [0,30), the corner at the left of the edge at [p1]'s height
    in [30,90), the midpoint of that edge in [90,120), the corner [p0] in
    [120,180), the left-edge midpoint in [180,210), the corner at the left
    of the edge at [p1]'s height in [210,270), the midpoint of the edge at
    [p0]'s height in [270,300) and the corner [p0] in [300,360).  No anchor
    lies on the right-hand edge.  The ideal offset is the opposite of the
    anchor, which puts a corner anchor on the track, and an edge midpoint
    is pushed 3 units further along that direction. *)
Theorem C6_anchor_choice
    (deref : AcPtr -> Aircraft) (rs : RadarScopePane) (ac : AcPtr)
    (info : AircraftScopeState) :
  let bbox := Extent2D.Expand (datablockBounds info) (#5)%f32 in
  let heading := (Heading (deref ac) + RotationAngle rs)%f32 in
  exists a : Anchor,
    datablockConnectP bbox heading = (anchorPoint a bbox, anchorIsCorner a)
    /\ sectorTable (wrapHeading heading) a
    /\ ((anchorPoint a bbox).1 = (p0 bbox).1
        \/ (anchorPoint a bbox).1 = (Extent2D.Center bbox).1)
    /\ offsetSelfOnly deref rs ac info = anchorOffset a bbox
    /\ (anchorIsCorner a = true ->
        offsetSelfOnly deref rs ac info = scale2f (anchorPoint a bbox) (#(-1))%f32)
    /\ (anchorIsCorner a = false ->
        offsetSelfOnly deref rs ac info
        = add2f (scale2f (anchorPoint a bbox) (#(-1))%f32)
            (scale2f (normalize2f (scale2f (anchorPoint a bbox) (#(-1))%f32)) (#3)%f32)).
Proof.
  intros bbox heading.
  destruct (datablockConnectP_sector bbox heading) as (a & Ha & Htab).
  exists a. split; [done|]. split; [done|]. split; [destruct a; simpl; auto|].
  pose proof (offsetSelfOnly_anchor deref rs ac info a Ha) as Hoff.
  fold bbox in Hoff. split; [done|].
  rewrite Hoff. unfold anchorOffset. split; intros ->; reflexivity.
Qed.

(** An aircraft of the scene turned to heading 45: the wrapped heading is
    60, in the second sector. *)
Lemma C6_anchor_choice_witness :
  let bbox := Extent2D.Expand Scene.box (#5)%f32 in
  offsetSelfOnly (fun _ => Scene.mkAc "AAL1" 100 100 45 5000)
    (Scene.pane false LayoutScene.store) 1%positive LayoutScene.fresh
  = scale2f ((p0 bbox).1, (p1 bbox).2) (#(-1))%f32.
Proof.
  destruct (C6_anchor_choice (fun _ => Scene.mkAc "AAL1" 100 100 45 5000)
              (Scene.pane false LayoutScene.store) 1%positive LayoutScene.fresh)
    as (a & _ & Htab & _ & _ & Hcorner & _).
  destruct Htab as (_ & H2 & _).
  specialize (H2 eq_refl eq_refl). subst a. exact (Hcorner eq_refl).
Defined.

(** C6 as the specification states it fails.  At heading 175 the wrapped
    heading is 190, inside the fourth sector of the specification (from 120,
    90 degrees wide), whose anchor is the bottom-left corner; the code
    returns the midpoint of the left edge, not a corner. *)
Lemma C6_counterexample :
  ~ (forall (bbox : Extent2D) (heading : float32) (a : Anchor),
       claimedAnchor (wrapHeading heading) = Some a ->
       datablockConnectP bbox heading = (anchorPoint a bbox, anchorIsCorner a)).
Proof.
  intros H.
  specialize (H (Extent2D.Expand Scene.box (#5)%f32) (#175)%f32 BottomLeftCorner eq_refl).
  vm_compute in H. discriminate H.
Qed.

(** The same at heading 45: the second sector's anchor is the corner at the
    left of the edge at [p1]'s height, not the corner [p0] of the fourth
    and eighth sectors. *)
Example datablockConnectP_second_sector :
  wrapHeading (#45)%f32 = (#60)%f32
  /\ claimedAnchor (#60)%f32 = Some BottomLeftCorner
  /\ datablockConnectP (Extent2D.Expand Scene.box (#5)%f32) (#45)%f32
     = ((#(-5), #5)%f32, true)
  /\ datablockConnectP (Extent2D.Expand Scene.box (#5)%f32) (#135)%f32
     = ((#(-5), #(-17))%f32, true).
Proof. by vm_compute. Qed.

(** A heading and rotation that add up to 345 give the wrapped heading 360,
    which the single correction leaves alone. *)
Example wrapHeading_345 : wrapHeading (#345)%f32 = (#360)%f32.
Proof. by vm_compute. Qed.

(** ** The relaxation *)

Lemma relaxOne_bounds (i : nat) (ac : AcPtr) (st : LayoutState * bool) :
  ls_bounds (relaxOne i ac st).1 = ls_bounds st.1.
Proof.
  destruct st as [ls any]. unfold relaxOne. simpl.
  destruct (placedAt ls i); [done|].
  destruct (relaxStep i ls any) as [force any']. simpl.
  unfold boundsAt. destruct (ls_bounds ls !! i) as [db|] eqn:Hi; simpl.
  - by apply list_insert_id.
  - apply list_insert_ge. by apply lookup_ge_None.
Qed.

Lemma relaxIteration_bounds (acs : list AcPtr) (ls : LayoutState) :
  ls_bounds (relaxIteration acs ls) = ls_bounds ls.
Proof.
  unfold relaxIteration.
  apply (forRange_invariant (fun st => ls_bounds st.1 = ls_bounds ls)); [done|].
  intros i x st _ Hst. by rewrite relaxOne_bounds.
Qed.

Lemma relaxation_bounds (acs : list AcPtr) (ls : LayoutState) :
  ls_bounds (relaxation acs ls) = ls_bounds ls.
Proof.
  unfold relaxation. generalize 20. intros n.
  induction n as [|n IH]; simpl; [done|]. by rewrite relaxIteration_bounds.
Qed.

(** C2, what the code does.  No relaxation iteration moves a box: the step
    is added to the automatic offset of the aircraft, and the box written
    back to [datablockBounds] is the one read from it.  In the scene of
    [AAL1], pinned by its manual offset, and [BAW2] on the same spot, the
    box of [BAW2] (index 1) is not placed, overlaps the box of [AAL1], and
    the first iteration computes a step that is not zero and adds it to the
    automatic offset; the box stays where it was, not where the step would
    take it. *)
Theorem C2_relaxation_keeps_boxes :
  (forall (acs : list AcPtr) (ls : LayoutState),
     ls_bounds (relaxIteration acs ls) = ls_bounds ls
     /\ ls_bounds (relaxation acs ls) = ls_bounds ls)
  /\ (let acs := [1%positive; 2%positive] in
      let ls := layoutStarted LayoutScene.deref Scene.project
                  (Scene.pane true LayoutScene.store) acs in
      let step := (relaxStep 1 ls false).1 in
      let ls' := relaxIteration acs ls in
      placedAt ls 1 = false
      /\ Overlaps (boundsAt ls 1) (boundsAt ls 0) = true
      /\ length2f step <> F32.zero
      /\ datablockAutomaticOffset (stateOf ls' 2%positive)
         = add2f (datablockAutomaticOffset (stateOf ls 2%positive)) step
      /\ boundsAt ls' 1 = boundsAt ls 1
      /\ boundsAt ls' 1 <> Extent2D.Offset (boundsAt ls 1) step).
Proof.
  split.
  - intros acs ls. split; [apply relaxIteration_bounds|apply relaxation_bounds].
  - cbv zeta. repeat split; try (by vm_compute).
Qed.

(** ** The last loop *)

Lemma offsetSelfOnly_bounds (deref : AcPtr -> Aircraft) (rs : RadarScopePane) (ac : AcPtr)
    (info info' : AircraftScopeState) :
  datablockBounds info = datablockBounds info' ->
  offsetSelfOnly deref rs ac info = offsetSelfOnly deref rs ac info'.
Proof. intros H. unfold offsetSelfOnly. by rewrite H. Qed.

Section Attraction.

Variable deref : AcPtr -> Aircraft.
Variable rs : RadarScopePane.
Variable acs : list AcPtr.




End Attraction.


(** ** The conflict alert *)

Section Alert.

Variable deref : AcPtr -> Aircraft.
Variable GetConflicts : list AcPtr -> list RangeLimits -> list RangeConflict * list RangeConflict.

Lemma drawRangeIndicators_off (rs : RadarScopePane) (clock : Z * Z) :
  DrawRangeIndicators rs = false ->
  drawRangeIndicators deref GetConflicts rs clock = (rs, []).
Proof. intros H. unfold drawRangeIndicators. by rewrite H. Qed.

Lemma drawRangeIndicators_on (rs : RadarScopePane) (clock : Z * Z)
    (warnings violations : list RangeConflict) :
  DrawRangeIndicators rs = true ->
  GetConflicts (rangeAircraft deref rs) (RangeLimitsTable rs) = (warnings, violations) ->
  drawRangeIndicators deref GetConflicts rs clock
  = let rs1 := setRangeWarnings (addRangeWarnings violations (addRangeWarnings warnings ∅)) rs in
    if (0 <? length violations)
       && (timeSince clock.1 (lastRangeNotificationPlayed rs) >? 3 * Second)%Z
    then (setLastRangeNotificationPlayed clock.2 rs1, [AudioEventConflictAlert])
    else (rs1, []).
Proof. intros Hon Hc. unfold drawRangeIndicators. by rewrite Hon, Hc. Qed.

(** Never more than one event in a frame. *)
Lemma drawRangeIndicators_at_most_one (rs : RadarScopePane) (clock : Z * Z) :
  length (drawRangeIndicators deref GetConflicts rs clock).2 <= 1.
Proof.
  unfold drawRangeIndicators. destruct (negb (DrawRangeIndicators rs)); [simpl; lia|].
  destruct (GetConflicts _ _) as [warnings violations].
  destruct (_ && _); simpl; lia.
Qed.

End Alert.

Lemma timeSince_small (now t : Z) :
  (0 <= now - t <= 3 * Second)%Z -> timeSince now t = (now - t)%Z.
Proof. unfold timeSince, timeSub, maxDuration, minDuration, Second. lia. Qed.

Lemma timeSince_gt (now t : Z) :
  (timeSince now t >? 3 * Second)%Z = (now - t >? 3 * Second)%Z.
Proof.
  unfold timeSince, timeSub, maxDuration, minDuration, Second.
  rewrite !Z.gtb_ltb.
  destruct (Z.ltb_spec (3 * 1000000000) (now - t)) as [H|H];
    [apply Z.ltb_lt|apply Z.ltb_ge]; lia.
Qed.

(** C4, as the code has it.  In a frame with range indicators on and at
    least one violation, exactly one alert is fired and the time of the
    last alert becomes the reading of the clock when strictly more than 3
    seconds have passed since the last alert; no alert is fired and that
    time stays when at most 3 seconds have passed.  No frame fires more
    than one alert, however many violations it has.  With violations in two
    frames, the first of them after the cooldown: one second apart there is
    one alert in all, four seconds apart there are two. *)
Theorem C4_alert_cooldown
    (deref : AcPtr -> Aircraft)
    (GetConflicts : list AcPtr -> list RangeLimits -> list RangeConflict * list RangeConflict)
    (rs : RadarScopePane) (warnings violations : list RangeConflict) :
  DrawRangeIndicators rs = true ->
  GetConflicts (rangeAircraft deref rs) (RangeLimitsTable rs) = (warnings, violations) ->
  violations <> [] ->
  (forall clock,
     (clock.1 - lastRangeNotificationPlayed rs > 3 * Second)%Z ->
     (drawRangeIndicators deref GetConflicts rs clock).2 = [AudioEventConflictAlert]
     /\ lastRangeNotificationPlayed (drawRangeIndicators deref GetConflicts rs clock).1
        = clock.2)
  /\ (forall clock,
        (clock.1 - lastRangeNotificationPlayed rs <= 3 * Second)%Z ->
        (drawRangeIndicators deref GetConflicts rs clock).2 = []
        /\ lastRangeNotificationPlayed (drawRangeIndicators deref GetConflicts rs clock).1
           = lastRangeNotificationPlayed rs)
  /\ (forall clock, length (drawRangeIndicators deref GetConflicts rs clock).2 <= 1)
  /\ (forall t,
        (t - lastRangeNotificationPlayed rs > 3 * Second)%Z ->
        (drawRangeIndicatorsOver deref GetConflicts rs
           [(t, t); (t + 1 * Second, t + 1 * Second)%Z]).2 = [AudioEventConflictAlert]
        /\ (drawRangeIndicatorsOver deref GetConflicts rs
              [(t, t); (t + 4 * Second, t + 4 * Second)%Z]).2
           = [AudioEventConflictAlert; AudioEventConflictAlert]).
Proof.
  intros Hon Hc Hv.
  assert ((0 <? length violations) = true) as Hlen.
  { destruct violations; [done|]. reflexivity. }
  assert (forall clock,
     (clock.1 - lastRangeNotificationPlayed rs > 3 * Second)%Z ->
     drawRangeIndicators deref GetConflicts rs clock
     = (setLastRangeNotificationPlayed clock.2
          (setRangeWarnings (addRangeWarnings violations (addRangeWarnings warnings ∅)) rs),
        [AudioEventConflictAlert])) as Hfire.
  { intros clock Hgt. rewrite (drawRangeIndicators_on _ _ _ _ _ _ Hon Hc). cbv zeta.
    rewrite Hlen, timeSince_gt. simpl.
    destruct (Z.gtb_spec (clock.1 - lastRangeNotificationPlayed rs) (3 * Second)); [done|lia]. }
  assert (forall clock,
     (clock.1 - lastRangeNotificationPlayed rs <= 3 * Second)%Z ->
     drawRangeIndicators deref GetConflicts rs clock
     = (setRangeWarnings (addRangeWarnings violations (addRangeWarnings warnings ∅)) rs, []))
    as Hquiet.
  { intros clock Hle. rewrite (drawRangeIndicators_on _ _ _ _ _ _ Hon Hc). cbv zeta.
    rewrite Hlen, timeSince_gt. simpl.
    destruct (Z.gtb_spec (clock.1 - lastRangeNotificationPlayed rs) (3 * Second)); [lia|done]. }
  split; [|split; [|split]].
  - intros clock Hgt. by rewrite (Hfire clock Hgt).
  - intros clock Hle. by rewrite (Hquiet clock Hle).
  - intros clock. apply drawRangeIndicators_at_most_one.
  - intros t Ht.
    set (rs1 := setLastRangeNotificationPlayed t
                  (setRangeWarnings (addRangeWarnings violations (addRangeWarnings warnings ∅)) rs)).
    assert (forall d, drawRangeIndicators deref GetConflicts rs1 (t + d, t + d)%Z
              = if (d >? 3 * Second)%Z
                then (setLastRangeNotificationPlayed (t + d)%Z
                        (setRangeWarnings
                           (addRangeWarnings violations (addRangeWarnings warnings ∅)) rs1),
                      [AudioEventConflictAlert])
                else (setRangeWarnings
                        (addRangeWarnings violations (addRangeWarnings warnings ∅)) rs1, []))
      as Hnext.
    { intros d. rewrite (drawRangeIndicators_on _ _ _ _ warnings violations); [|done|done].
      cbv zeta. rewrite Hlen, timeSince_gt. simpl.
      replace (t + d - t)%Z with d by lia. done. }
    unfold drawRangeIndicatorsOver. simpl.
    rewrite (Hfire (t, t)) by done. fold rs1. rewrite !Hnext. by split.
Qed.

Lemma C4_alert_cooldown_witness :
  (drawRangeIndicatorsOver AlertScene.deref AlertScene.twoViolations (AlertScene.pane 0)
     [(AlertScene.t0, AlertScene.t0);
      (AlertScene.t0 + 1 * Second, AlertScene.t0 + 1 * Second)%Z]).2
  = [AudioEventConflictAlert]
  /\ (drawRangeIndicatorsOver AlertScene.deref AlertScene.twoViolations (AlertScene.pane 0)
        [(AlertScene.t0, AlertScene.t0);
         (AlertScene.t0 + 4 * Second, AlertScene.t0 + 4 * Second)%Z]).2
     = [AudioEventConflictAlert; AudioEventConflictAlert].
Proof.
  destruct (C4_alert_cooldown AlertScene.deref AlertScene.twoViolations (AlertScene.pane 0)
              [] [mkConflict (1%positive, 2%positive) AlertScene.limits;
                  mkConflict (1%positive, 3%positive) AlertScene.limits])
    as (_ & _ & _ & H).
  - reflexivity.
  - reflexivity.
  - discriminate.
  - apply (H AlertScene.t0). reflexivity.
Defined.

(** C4 as the specification states it fails: with a violation exactly 3
    seconds after the last alert, no alert is fired. *)
Lemma C4_counterexample :
  ~ (forall (rs : RadarScopePane) (clock : Z * Z),
       DrawRangeIndicators rs = true ->
       (AlertScene.twoViolations (rangeAircraft AlertScene.deref rs) (RangeLimitsTable rs)).2
         <> [] ->
       (clock.1 - lastRangeNotificationPlayed rs >= 3 * Second)%Z ->
       (drawRangeIndicators AlertScene.deref AlertScene.twoViolations rs clock).2
       = [AudioEventConflictAlert]).
Proof.
  intros H.
  assert ((drawRangeIndicators AlertScene.deref AlertScene.twoViolations
             (AlertScene.pane AlertScene.t0)
             (AlertScene.t0 + 3 * Second, AlertScene.t0 + 3 * Second)%Z).2
          = [AudioEventConflictAlert]) as Hfired.
  { apply H.
    - reflexivity.
    - discriminate.
    - simpl. unfold AlertScene.t0, Second. lia. }
  vm_compute in Hfired. discriminate Hfired.
Qed.

(** ** Miles in trail *)

Lemma addRangeWarnings_subseteq (l : list RangeConflict) (m : gset AircraftPair) :
  m ⊆ addRangeWarnings l m.
Proof.
  revert m. induction l as [|w l IH]; intros m; simpl; [done|].
  etrans; [|apply IH]. intros p Hp. apply elem_of_union. right. by apply elem_of_union; right.
Qed.

Lemma addRangeWarnings_both (l : list RangeConflict) (m : gset AircraftPair) (w : RangeConflict) :
  w ∈ l ->
  ((conflictAircraft w).1, (conflictAircraft w).2) ∈ addRangeWarnings l m
  /\ ((conflictAircraft w).2, (conflictAircraft w).1) ∈ addRangeWarnings l m.
Proof.
  revert m. induction l as [|w' l IH]; intros m Hw; [by apply elem_of_nil in Hw|].
  apply elem_of_cons in Hw as [Heq|Hw].
  - subst w'. simpl. split; apply addRangeWarnings_subseteq.
    + apply elem_of_union. right. apply elem_of_union. left. by apply elem_of_singleton.
    + apply elem_of_union. left. by apply elem_of_singleton.
  - by apply IH.
Qed.

Section MITFacts.

Variable deref : AcPtr -> Aircraft.
Variable windowFromLatLongP : vec2 -> vec2.
Variables paneWidth paneHeight : float32.
Variable nmdistance2ll : vec2 -> vec2 -> float32.
Variable headingp2ll : vec2 -> vec2 -> float32 -> float32.
Variable headingDifference : float32 -> float32 -> float32.
Variable mid2ll : vec2 -> vec2 -> vec2.
Variable EstimatedFutureDistance : AcPtr -> AcPtr -> Z -> float32.
Variable MagneticVariation : float32.
Variable getDistanceSortedArrivals : gset string -> list Arrival.
Variable mit : list AcPtr.
Variable rs : RadarScopePane.

Local Abbreviation drawMIT' :=
  (drawMIT deref windowFromLatLongP paneWidth paneHeight nmdistance2ll headingp2ll
     headingDifference mid2ll EstimatedFutureDistance MagneticVariation
     getDistanceSortedArrivals mit rs).

(** No line is drawn for a pair that [rangeWarnings] holds. *)
Lemma drawMIT_not_warned (line : MITLine) :
  line ∈ drawMIT' -> mitPair line ∉ rangeWarnings rs.
Proof.
  unfold drawMIT. destruct (AutoMIT rs && (length mit =? 0)).
  - set (arr := getDistanceSortedArrivals (AutoMITAirports rs)).
    revert line.
    apply (forRange_invariant
             (fun out : list MITLine =>
                forall line, line ∈ out -> mitPair line ∉ rangeWarnings rs)).
    { intros line Hl. by apply elem_of_nil in Hl. }
    intros i ai out _ IH line. unfold autoMITStep.
    destruct (i =? 0); [apply IH|].
    destruct (search _ _ _ _ _ _ _ _ _) as [minDist [[closest estDist]|]]; [|apply IH].
    destruct (bool_decide _) eqn:Hw; [apply IH|].
    apply bool_decide_eq_false in Hw.
    intros Hl. apply elem_of_app in Hl as [Hl|Hl]; [by apply IH|].
    apply list_elem_of_singleton in Hl. by subst line.
  - revert line.
    apply (forRange_invariant
             (fun out : list MITLine =>
                forall line, line ∈ out -> mitPair line ∉ rangeWarnings rs)).
    { intros line Hl. by apply elem_of_nil in Hl. }
    intros i trailing out _ IH line. unfold sequenceMITStep.
    destruct i as [|i']; [apply IH|].
    destruct (mit !! i') as [front|]; [|apply IH].
    destruct (bool_decide _) eqn:Hw; [apply IH|].
    apply bool_decide_eq_false in Hw.
    intros Hl. apply elem_of_app in Hl as [Hl|Hl]; [by apply IH|].
    apply list_elem_of_singleton in Hl. by subst line.
Qed.

End MITFacts.

(** C7.  With range indicators on, the frame's warnings and violations are
    stored in [rangeWarnings] in both orders, and [drawMIT], in the branch
    of the sequence as in the automatic one, then draws no line for a pair
    that is among them, in either order. *)
Theorem C7_flagged_pairs_have_no_MIT_line
    (deref : AcPtr -> Aircraft) (windowFromLatLongP : vec2 -> vec2)
    (paneWidth paneHeight : float32)
    (GetConflicts : list AcPtr -> list RangeLimits -> list RangeConflict * list RangeConflict)
    (nmdistance2ll : vec2 -> vec2 -> float32)
    (headingp2ll : vec2 -> vec2 -> float32 -> float32)
    (headingDifference : float32 -> float32 -> float32)
    (mid2ll : vec2 -> vec2 -> vec2)
    (EstimatedFutureDistance : AcPtr -> AcPtr -> Z -> float32)
    (MagneticVariation : float32)
    (getDistanceSortedArrivals : gset string -> list Arrival)
    (mit : list AcPtr) (rs : RadarScopePane) (clock : Z * Z)
    (warnings violations : list RangeConflict) (w : RangeConflict) (line : MITLine) :
  DrawRangeIndicators rs = true ->
  GetConflicts (rangeAircraft deref rs) (RangeLimitsTable rs) = (warnings, violations) ->
  w ∈ warnings ++ violations ->
  line ∈ drawMIT deref windowFromLatLongP paneWidth paneHeight nmdistance2ll headingp2ll
           headingDifference mid2ll EstimatedFutureDistance MagneticVariation
           getDistanceSortedArrivals mit
           (drawRangeIndicators deref GetConflicts rs clock).1 ->
  mitPair line <> ((conflictAircraft w).1, (conflictAircraft w).2)
  /\ mitPair line <> ((conflictAircraft w).2, (conflictAircraft w).1).
Proof.
  intros Hon Hc Hw Hline.
  apply drawMIT_not_warned in Hline.
  assert (rangeWarnings (drawRangeIndicators deref GetConflicts rs clock).1
          = addRangeWarnings violations (addRangeWarnings warnings ∅)) as Hrw.
  { rewrite (drawRangeIndicators_on _ _ _ _ _ _ Hon Hc). cbv zeta.
    by destruct (_ && _). }
  rewrite Hrw in Hline.
  assert (((conflictAircraft w).1, (conflictAircraft w).2)
            ∈ addRangeWarnings violations (addRangeWarnings warnings ∅)
          /\ ((conflictAircraft w).2, (conflictAircraft w).1)
               ∈ addRangeWarnings violations (addRangeWarnings warnings ∅)) as [H1 H2].
  { apply elem_of_app in Hw as [Hw|Hw].
    - destruct (addRangeWarnings_both warnings ∅ w Hw) as [H1 H2].
      split; by apply addRangeWarnings_subseteq.
    - by apply addRangeWarnings_both. }
  split; intros Heq; rewrite Heq in Hline; done.
Qed.

(** The sequence [AAL1], [BAW2], [DAL3] with a warning between [BAW2] and
    [AAL1]: the only line drawn is the one between [BAW2] and [DAL3]. *)
Lemma C7_flagged_pairs_have_no_MIT_line_witness :
  let lines :=
    drawMIT MITScene.deref Scene.project Scene.side Scene.side MITScene.nmdistance2ll
      MITScene.headingp2ll MITScene.headingDifference MITScene.mid2ll
      MITScene.EstimatedFutureDistance (#0)%f32 MITScene.arrivals
      [1%positive; 2%positive; 3%positive]
      (drawRangeIndicators MITScene.deref MITScene.oneWarning
         (MITScene.pane false ∅) (AlertScene.t0, AlertScene.t0)).1 in
  mitPair <$> lines = [(2%positive, 3%positive)]
  /\ forall line, line ∈ lines ->
       mitPair line <> (2%positive, 1%positive) /\ mitPair line <> (1%positive, 2%positive).
Proof.
  split; [reflexivity|]. intros line Hline.
  apply (C7_flagged_pairs_have_no_MIT_line MITScene.deref Scene.project Scene.side Scene.side
           MITScene.oneWarning MITScene.nmdistance2ll MITScene.headingp2ll
           MITScene.headingDifference MITScene.mid2ll MITScene.EstimatedFutureDistance
           (#0)%f32 MITScene.arrivals [1%positive; 2%positive; 3%positive]
           (MITScene.pane false ∅) (AlertScene.t0, AlertScene.t0)
           [mkConflict (2%positive, 1%positive) AlertScene.limits] []
           (mkConflict (2%positive, 1%positive) AlertScene.limits) line).
  - reflexivity.
  - reflexivity.
  - left.
  - exact Hline.
Defined.

Section SearchFacts.

Variable deref : AcPtr -> Aircraft.
Variable nmdistance2ll : vec2 -> vec2 -> float32.
Variable headingp2ll : vec2 -> vec2 -> float32 -> float32.
Variable headingDifference : float32 -> float32 -> float32.
Variable EstimatedFutureDistance : AcPtr -> AcPtr -> Z -> float32.
Variable MagneticVariation : float32.

Variable arr : list Arrival.
Variable i : nat.
Variable ai : Arrival.

Local Abbreviation dist aj :=
  (nmdistance2ll (Position (deref (arrivalAircraft ai))) (Position (deref (arrivalAircraft aj)))).

Local Abbreviation candidate' :=
  (candidate deref headingp2ll headingDifference MagneticVariation i ai).

(** The search returns the first of the nearest candidates within 20
    miles, and nothing when there is none. *)
Lemma search_nearest_candidate :
  match search deref nmdistance2ll headingp2ll headingDifference EstimatedFutureDistance
          MagneticVariation arr i ai with
  | (minDist, Some (closest, estDist)) =>
      exists j, arr !! j = Some closest
        /\ candidate' j closest = true
        /\ minDist = dist closest
        /\ (minDist <? #20)%f32 = true
        /\ estDist = EstimatedFutureDistance (arrivalAircraft closest) (arrivalAircraft ai) 30%Z
        /\ forall k ak, arr !! k = Some ak -> candidate' k ak = true ->
                        (dist ak <? minDist)%f32 = false
  | (minDist, None) =>
      minDist = (#20)%f32
      /\ forall k ak, arr !! k = Some ak -> candidate' k ak = true ->
                      (dist ak <? #20)%f32 = false
  end.
Proof.
  pose (P := fun (n : nat) (st : Search) =>
    match st with
    | (minDist, Some (closest, estDist)) =>
        exists j, arr !! j = Some closest
          /\ candidate' j closest = true
          /\ minDist = dist closest
          /\ (minDist <? #20)%f32 = true
          /\ estDist = EstimatedFutureDistance (arrivalAircraft closest) (arrivalAircraft ai) 30%Z
          /\ forall k ak, k < n -> arr !! k = Some ak -> candidate' k ak = true ->
                          (dist ak <? minDist)%f32 = false
    | (minDist, None) =>
        minDist = (#20)%f32
        /\ forall k ak, k < n -> arr !! k = Some ak -> candidate' k ak = true ->
                        (dist ak <? #20)%f32 = false
    end).
  assert (P (length arr)
            (search deref nmdistance2ll headingp2ll headingDifference EstimatedFutureDistance
               MagneticVariation arr i ai)) as HP.
  { unfold search. apply forRange_invariant_indexed.
    - simpl. split; [done|]. intros; lia.
    - intros n an st Hn Hst. unfold searchStep.
      assert (forall k ak, k < Datatypes.S n -> arr !! k = Some ak ->
                k < n \/ (k = n /\ ak = an)) as Hsplit.
      { intros k ak Hk Hak. destruct (decide (k = n)) as [->|]; [right|left; lia].
        split; [done|congruence]. }
      destruct ((i =? n) || negb (String.eqb _ _)) eqn:Hskip.
      { (* not a candidate *)
        assert (candidate' n an = false) as Hno.
        { unfold candidate. apply orb_true_iff in Hskip as [->|Hd]; [done|].
          apply negb_true_iff in Hd. rewrite Hd. by rewrite andb_false_r. }
        destruct st as [minDist [[closest estDist]|]]; simpl in Hst |- *.
        - destruct Hst as (j & H1 & H2 & H3 & H4 & H5 & H6).
          exists j. repeat (split; [done|]). intros k ak Hk Hak Hadm.
          destruct (Hsplit k ak Hk Hak) as [?|[-> ->]]; [by apply (H6 k)|congruence].
        - destruct Hst as [H1 H2]. split; [done|]. intros k ak Hk Hak Hadm.
          destruct (Hsplit k ak Hk Hak) as [?|[-> ->]]; [by apply (H2 k)|congruence]. }
      apply orb_false_iff in Hskip as [Hin Hdest]. apply negb_false_iff in Hdest.
      assert (candidate' n an
              = inTrail deref headingp2ll headingDifference MagneticVariation ai an) as Hadm'.
      { unfold candidate. by rewrite Hin, Hdest. }
      destruct ((dist an <? st.1)%f32
                && inTrail deref headingp2ll headingDifference MagneticVariation ai an)
        eqn:Htake.
      { (* a nearer candidate *)
        apply andb_true_iff in Htake as [Hlt Htrail]. simpl.
        assert (forall k ak, k < n -> arr !! k = Some ak -> candidate' k ak = true ->
                  (dist ak <? st.1)%f32 = false) as Hold.
        { destruct st as [minDist [[closest estDist]|]]; simpl in Hst |- *.
          - destruct Hst as (j & _ & _ & _ & _ & _ & H6). exact H6.
          - destruct Hst as [-> H2]. exact H2. }
        assert ((dist an <? #20)%f32 = true) as H20.
        { destruct st as [minDist [[closest estDist]|]]; simpl in Hst, Hlt.
          - destruct Hst as (j & _ & _ & _ & H4 & _). by apply ltb_trans with minDist.
          - destruct Hst as [-> _]. done. }
        exists n. split; [done|]. split; [by rewrite Hadm'|]. split; [done|].
        split; [done|]. split; [done|]. intros k ak Hk Hak Hadm.
        destruct (Hsplit k ak Hk Hak) as [Hkn|[-> ->]]; [|apply ltb_irrefl].
        destruct (dist ak <? dist an)%f32 eqn:Hc; [|done].
        rewrite <- (Hold k ak Hkn Hak Hadm). symmetry. by apply ltb_trans with (dist an). }
      (* not nearer, or not in trail *)
      destruct st as [minDist [[closest estDist]|]]; simpl in Hst, Htake |- *.
      + destruct Hst as (j & H1 & H2 & H3 & H4 & H5 & H6).
        exists j. repeat (split; [done|]). intros k ak Hk Hak Hadm.
        destruct (Hsplit k ak Hk Hak) as [?|[-> ->]]; [by apply (H6 k)|].
        rewrite Hadm' in Hadm. rewrite Hadm, andb_true_r in Htake. exact Htake.
      + destruct Hst as [-> H2]. split; [done|]. intros k ak Hk Hak Hadm.
        destruct (Hsplit k ak Hk Hak) as [?|[-> ->]]; [by apply (H2 k)|].
        rewrite Hadm' in Hadm. by rewrite Hadm, andb_true_r in Htake. }
  unfold P in HP.
  destruct (search _ _ _ _ _ _ _ _ _) as [minDist [[closest estDist]|]].
  - destruct HP as (j & H1 & H2 & H3 & H4 & H5 & H6).
    exists j. repeat (split; [done|]). intros k ak Hak.
    apply (H6 k ak); [|done]. by apply lookup_lt_Some in Hak.
  - destruct HP as [H1 H2]. split; [done|]. intros k ak Hak.
    apply (H2 k ak); [|done]. by apply lookup_lt_Some in Hak.
Qed.

End SearchFacts.

(** C5, what the code does.  In the scene of three arrivals in trail,
    [AAL1] ahead of [BAW2] ahead of [DAL3], all bound for the same airport,
    5 miles apart and level, the predecessor that the specification asks
    for [BAW2] is [AAL1], and [DAL3] is none: [BAW2] heads along the
    bearing to [AAL1] and away from [DAL3].  The search for [BAW2] returns
    [DAL3]: the call [inTrail(arr[i], arr[j])] hands the arrival over as
    [front] and the candidate as [back], so that the heading tested is the
    candidate's, against the bearing from the candidate to the arrival.
    With [AAL1] and [BAW2] alone nothing is found and no line is drawn. *)
Theorem C5_auto_MIT_takes_the_follower :
  let AAL1 := mkArrival 1%positive (#10)%f32 in
  let BAW2 := mkArrival 2%positive (#15)%f32 in
  let DAL3 := mkArrival 3%positive (#20)%f32 in
  let predecessor :=
    claimedPredecessor MITScene.deref MITScene.nmdistance2ll MITScene.headingp2ll
      MITScene.headingDifference (#0)%f32 in
  let searchFor arr :=
    search MITScene.deref MITScene.nmdistance2ll MITScene.headingp2ll
      MITScene.headingDifference MITScene.EstimatedFutureDistance (#0)%f32 arr 1 BAW2 in
  predecessor 2%positive 1%positive = true
  /\ predecessor 2%positive 3%positive = false
  /\ searchFor [AAL1; BAW2; DAL3] = ((#5)%f32, Some (DAL3, (#5)%f32))
  /\ searchFor [AAL1; BAW2] = ((#20)%f32, None)
  /\ drawMIT MITScene.deref Scene.project Scene.side Scene.side MITScene.nmdistance2ll
       MITScene.headingp2ll MITScene.headingDifference MITScene.mid2ll
       MITScene.EstimatedFutureDistance (#0)%f32 (fun _ => [AAL1; BAW2]) []
       (MITScene.pane true ∅) = [].
Proof. cbv zeta. repeat split; by vm_compute. Qed.

(** ** Events *)

Lemma aircraft_newGhost (ghost : option AcPtr) (ac x : AcPtr) (rs : RadarScopePane) :
  (CRDAEnabled rs = true -> ghost <> Some x) ->
  aircraft (newGhost ghost ac rs) !! x = aircraft rs !! x.
Proof.
  intros Hg. unfold newGhost. destruct (CRDAEnabled rs); [|done].
  destruct ghost as [g|]; [|done]. simpl. apply lookup_insert_ne.
  intros ->. by apply Hg.
Qed.

(** C10.  A modify event for an aircraft that the store does not hold
    gives it a new scope state, all fields zero, and has the effect of an
    add event when the aircraft has no ghost link either; for an aircraft
    that the store holds it only marks the cached text stale, the offsets
    and every other field of its state staying as they were.  The ghost of
    an aircraft is never the aircraft itself (section 3): that is assumed
    of the ghost link and of the ghost made for the event when converging
    runway display is on.  The event cannot fail: map reads, writes and
    deletions are total. *)
Theorem C10_modify_event
    (rs : RadarScopePane) (ac : AcPtr) (ghost : option AcPtr) :
  (CRDAEnabled rs = true -> ghost <> Some ac /\ ghostAircraft rs !! ac <> Some ac) ->
  let rs' := processEvent rs (ModifiedAircraftEvent ac, ghost) in
  (aircraft rs !! ac = None -> aircraft rs' !! ac = Some newScopeState)
  /\ (aircraft rs !! ac = None -> ghostAircraft rs !! ac = None ->
      rs' = processEvent rs (AddedAircraftEvent ac, ghost))
  /\ (forall state, aircraft rs !! ac = Some state ->
        aircraft rs' !! ac = Some (setTextCurrent false state)
        /\ exists state',
             aircraft rs' !! ac = Some state'
             /\ datablockTextCurrent state' = false
             /\ datablockManualOffset state' = datablockManualOffset state
             /\ datablockAutomaticOffset state' = datablockAutomaticOffset state).
Proof.
  intros Hghost rs'. unfold rs', processEvent.
  set (rs1 := if CRDAEnabled rs then _ else rs).
  assert (CRDAEnabled rs1 = CRDAEnabled rs) as Hcrda.
  { unfold rs1. destruct (CRDAEnabled rs) eqn:Hc; [|done].
    by destruct (ghostAircraft rs !! ac). }
  assert (aircraft rs1 !! ac = aircraft rs !! ac) as Hsame.
  { unfold rs1. destruct (CRDAEnabled rs) eqn:Hc; [|done].
    destruct (ghostAircraft rs !! ac) as [old|] eqn:Hold; [|done]. simpl.
    apply lookup_delete_ne. intros ->. by destruct (Hghost eq_refl). }
  split; [|split].
  - intros Hnone. rewrite aircraft_newGhost.
    + rewrite Hsame, Hnone. simpl. apply lookup_insert_eq.
    + rewrite Hsame, Hnone. simpl. rewrite Hcrda. intros Hc. by destruct (Hghost Hc).
  - intros Hnone Hnolink.
    assert (rs1 = rs) as ->.
    { unfold rs1. rewrite Hnolink. by destruct (CRDAEnabled rs). }
    by rewrite Hnone.
  - intros state Hstate.
    assert (aircraft
              (newGhost ghost ac
                 match aircraft rs1 !! ac with
                 | Some state0 =>
                     setAircraft (<[ac:=setTextCurrent false state0]> (aircraft rs1)) rs1
                 | None => setAircraft (<[ac:=newScopeState]> (aircraft rs1)) rs1
                 end) !! ac = Some (setTextCurrent false state)) as Hres.
    { rewrite aircraft_newGhost.
      + rewrite Hsame, Hstate. simpl. apply lookup_insert_eq.
      + rewrite Hsame, Hstate. simpl. rewrite Hcrda. intros Hc. by destruct (Hghost Hc). }
    split; [exact Hres|]. exists (setTextCurrent false state). by rewrite Hres.
Qed.

(** The modify event for [AAL1], tracked with the manual offset (10,10) and
    with a ghost: the old ghost 9 leaves, a new ghost 10 comes, and the
    state of [AAL1] keeps its offsets. *)
Lemma C10_modify_event_witness :
  exists state',
    aircraft (processEvent StoreScene.pane (ModifiedAircraftEvent 1%positive, Some 10%positive))
      !! 1%positive = Some state'
    /\ datablockTextCurrent state' = false
    /\ datablockManualOffset state' = (#10, #10)%f32
    /\ datablockAutomaticOffset state' = (#3, #4)%f32.
Proof.
  destruct (C10_modify_event StoreScene.pane 1%positive (Some 10%positive))
    as (_ & _ & H).
  - intros _. split; discriminate.
  - destruct (H StoreScene.tracked eq_refl) as (_ & state' & H1 & H2 & H3 & H4).
    exists state'. split; [exact H1|]. split; [exact H2|]. split; [exact H3|exact H4].
Defined.

(** ** Duplicating a pane *)

Section Duplicate.

Variable h : Dup.Heap.

(** What the loop over [rs.aircraft] has built when it has gone through the
    part [m] of the map: the old states are as they were, and every key of
    [m] has a state of its own, newly allocated, with the ghost flag and
    the text of the state it comes from. *)
Lemma copyTracked_fold (m : gmap AcPtr Dup.StatePtr) :
  let r := map_fold (Dup.copyTracked h) (Dup.states h, ∅) m in
  (forall q s, Dup.states h !! q = Some s -> r.1 !! q = Some s)
  /\ (forall ac, (r.2 !! ac = None) <-> (m !! ac = None))
  /\ (forall ac p', r.2 !! ac = Some p' ->
        (p' ∉ dom (Dup.states h))
        /\ exists tracked,
             m !! ac = Some tracked
             /\ r.1 !! p'
                = Some (Dup.copyState (default newScopeState (Dup.states h !! tracked))))
  /\ (forall ac1 ac2 p', r.2 !! ac1 = Some p' -> r.2 !! ac2 = Some p' -> ac1 = ac2).
Proof.
  cbv zeta.
  apply (map_fold_weak_ind
    (fun (r : gmap Dup.StatePtr AircraftScopeState * gmap AcPtr Dup.StatePtr)
         (m : gmap AcPtr Dup.StatePtr) =>
       (forall q s, Dup.states h !! q = Some s -> r.1 !! q = Some s)
       /\ (forall ac, (r.2 !! ac = None) <-> (m !! ac = None))
       /\ (forall ac p', r.2 !! ac = Some p' ->
             (p' ∉ dom (Dup.states h))
             /\ exists tracked,
                  m !! ac = Some tracked
                  /\ r.1 !! p'
                     = Some (Dup.copyState (default newScopeState (Dup.states h !! tracked))))
       /\ (forall ac1 ac2 p', r.2 !! ac1 = Some p' -> r.2 !! ac2 = Some p' -> ac1 = ac2))).
  - simpl. split; [done|]. split; [done|]. split; intros; by simplify_map_eq.
  - intros i x m' [S' A'] Hi (Hold & Hdom & Hnew & Hinj). simpl in *.
    pose proof (is_fresh (dom S')) as Hfresh. set (p := fresh (dom S')) in *.
    assert (forall q, is_Some (S' !! q) -> q <> p) as Hne.
    { intros q Hq ->. apply Hfresh. by apply elem_of_dom. }
    split; [|split; [|split]].
    + intros q s Hq. rewrite lookup_insert_ne; [by apply Hold|].
      intros <-. apply (Hne p); [|done]. rewrite (Hold p s Hq). by eexists.
    + intros ac. destruct (decide (i = ac)) as [->|Hiac].
      * rewrite !lookup_insert_eq. done.
      * rewrite !lookup_insert_ne by done. apply Hdom.
    + intros ac p'. destruct (decide (i = ac)) as [->|Hiac].
      * rewrite !lookup_insert_eq. intros [= <-]. split.
        -- intros Hp. apply elem_of_dom in Hp as [s Hs].
           apply (Hne p); [|done]. rewrite (Hold p s Hs). by eexists.
        -- exists x. split; [done|]. apply lookup_insert_eq.
      * rewrite !lookup_insert_ne by done. intros Hac.
        destruct (Hnew ac p' Hac) as (Hp' & tracked & Ht & Hs). split; [done|].
        exists tracked. split; [done|]. rewrite lookup_insert_ne; [done|].
        intros <-. apply (Hne p); [|done]. rewrite Hs. by eexists.
    + intros ac1 ac2 p' H1 H2.
      destruct (decide (ac1 = i)) as [E1|N1], (decide (ac2 = i)) as [E2|N2].
      * congruence.
      * subst ac1. rewrite lookup_insert_eq in H1. rewrite lookup_insert_ne in H2 by done.
        injection H1 as <-. destruct (Hnew ac2 p H2) as (_ & t & _ & Hs).
        exfalso. apply (Hne p); [|done]. rewrite Hs. by eexists.
      * subst ac2. rewrite lookup_insert_eq in H2. rewrite lookup_insert_ne in H1 by done.
        injection H2 as <-. destruct (Hnew ac1 p H1) as (_ & t & _ & Hs).
        exfalso. apply (Hne p); [|done]. rewrite Hs. by eexists.
      * rewrite lookup_insert_ne in H1, H2 by done. by apply (Hinj ac1 ac2 p').
Qed.

(** The same for the loop over [rs.ghostAircraft] and the aircraft
    objects. *)
Lemma copyGhost_fold (m : gmap AcPtr AcPtr) :
  let r := map_fold (Dup.copyGhost h) (Dup.objects h, ∅) m in
  (forall q a, Dup.objects h !! q = Some a -> r.1 !! q = Some a)
  /\ (forall ac, (r.2 !! ac = None) <-> (m !! ac = None))
  /\ (forall ac g', r.2 !! ac = Some g' ->
        (g' ∉ dom (Dup.objects h))
        /\ exists gh,
             m !! ac = Some gh
             /\ r.1 !! g' = Some (default zeroAircraft (Dup.objects h !! gh))).
Proof.
  cbv zeta.
  apply (map_fold_weak_ind
    (fun (r : gmap AcPtr Aircraft * gmap AcPtr AcPtr) (m : gmap AcPtr AcPtr) =>
       (forall q a, Dup.objects h !! q = Some a -> r.1 !! q = Some a)
       /\ (forall ac, (r.2 !! ac = None) <-> (m !! ac = None))
       /\ (forall ac g', r.2 !! ac = Some g' ->
             (g' ∉ dom (Dup.objects h))
             /\ exists gh,
                  m !! ac = Some gh
                  /\ r.1 !! g' = Some (default zeroAircraft (Dup.objects h !! gh))))).
  - simpl. split; [done|]. split; [done|]. intros; by simplify_map_eq.
  - intros i x m' [O' G'] Hi (Hold & Hdom & Hnew). simpl in *.
    pose proof (is_fresh (dom O')) as Hfresh. set (g := fresh (dom O')) in *.
    assert (forall q, is_Some (O' !! q) -> q <> g) as Hne.
    { intros q Hq ->. apply Hfresh. by apply elem_of_dom. }
    split; [|split].
    + intros q a Hq. rewrite lookup_insert_ne; [by apply Hold|].
      intros <-. apply (Hne g); [|done]. rewrite (Hold g a Hq). by eexists.
    + intros ac. destruct (decide (i = ac)) as [->|Hiac].
      * rewrite !lookup_insert_eq. done.
      * rewrite !lookup_insert_ne by done. apply Hdom.
    + intros ac g'. destruct (decide (i = ac)) as [->|Hiac].
      * rewrite !lookup_insert_eq. intros [= <-]. split.
        -- intros Hg. apply elem_of_dom in Hg as [a Ha].
           apply (Hne g); [|done]. rewrite (Hold g a Ha). by eexists.
        -- exists x. split; [done|]. apply lookup_insert_eq.
      * rewrite !lookup_insert_ne by done. intros Hac.
        destruct (Hnew ac g' Hac) as (Hg' & gh & Ht & Hs). split; [done|].
        exists gh. split; [done|]. rewrite lookup_insert_ne; [done|].
        intros <-. apply (Hne g); [|done]. rewrite Hs. by eexists.
Qed.

End Duplicate.

(** C9, as the code has it.  The duplicate tracks the same aircraft as the
    original.  For each of them it holds a scope state of its own, newly
    allocated and shared neither with the original nor with another
    aircraft of the duplicate, which has the ghost flag and the cached text
    of the original's state; its offsets and its bounds are zero and its
    text is marked stale.  The states of the original are left as they
    were.  The ghost links of the duplicate have the sources of the
    original's, each leading to a newly allocated copy of the ghost
    aircraft. *)
Theorem C9_duplicate_copies_flag_and_text
    (h : Dup.Heap) (rs : Dup.Pane) (nameAsCopy : bool) :
  let h' := (Dup.Duplicate h rs nameAsCopy).1 in
  let d := (Dup.Duplicate h rs nameAsCopy).2 in
  (forall q s, Dup.states h !! q = Some s -> Dup.states h' !! q = Some s)
  /\ (forall ac, (Dup.aircraft d !! ac = None) <-> (Dup.aircraft rs !! ac = None))
  /\ (forall ac p st,
        Dup.aircraft rs !! ac = Some p -> Dup.states h !! p = Some st ->
        exists p' st',
          Dup.aircraft d !! ac = Some p'
          /\ (p' ∉ dom (Dup.states h))
          /\ Dup.states h' !! p' = Some st'
          /\ isGhost st' = isGhost st
          /\ datablockText st' = datablockText st
          /\ datablockManualOffset st' = vzero
          /\ datablockAutomaticOffset st' = vzero
          /\ datablockBounds st' = Extent2D.zero
          /\ datablockTextCurrent st' = false)
  /\ (forall ac1 ac2 p',
        Dup.aircraft d !! ac1 = Some p' -> Dup.aircraft d !! ac2 = Some p' -> ac1 = ac2)
  /\ (forall ac, (Dup.ghostAircraft d !! ac = None) <-> (Dup.ghostAircraft rs !! ac = None))
  /\ (forall ac gh a,
        Dup.ghostAircraft rs !! ac = Some gh -> Dup.objects h !! gh = Some a ->
        exists g',
          Dup.ghostAircraft d !! ac = Some g'
          /\ (g' ∉ dom (Dup.objects h))
          /\ Dup.objects h' !! g' = Some a).
Proof.
  cbv zeta. unfold Dup.Duplicate.
  pose proof (copyTracked_fold h (Dup.aircraft rs)) as HT.
  pose proof (copyGhost_fold h (Dup.ghostAircraft rs)) as HG.
  cbv zeta in HT, HG.
  destruct (map_fold (Dup.copyTracked h) _ _) as [S' A'].
  destruct (map_fold (Dup.copyGhost h) _ _) as [O' G'].
  simpl in *.
  destruct HT as (Hold & Hdom & Hnew & Hinj). destruct HG as (Gold & Gdom & Gnew).
  split; [done|]. split; [done|]. split; [|split; [done|split; [done|]]].
  - intros ac p st Hac Hst.
    destruct (A' !! ac) as [p'|] eqn:Hp'.
    + destruct (Hnew ac p' Hp') as (Hfresh & tracked & Ht & Hs).
      assert (tracked = p) as -> by congruence. rewrite Hst in Hs. simpl in Hs.
      exists p', (Dup.copyState st). by repeat split.
    + apply Hdom in Hp'. congruence.
  - intros ac gh a Hac Ha.
    destruct (G' !! ac) as [g'|] eqn:Hg'.
    + destruct (Gnew ac g' Hg') as (Hfresh & gh' & Hgh & Hs).
      assert (gh' = gh) as -> by congruence. rewrite Ha in Hs. simpl in Hs.
      exists g'. by repeat split.
    + apply Gdom in Hg'. congruence.
Qed.

Lemma C9_duplicate_copies_flag_and_text_witness :
  exists p' st',
    Dup.aircraft (Dup.Duplicate StoreScene.heap StoreScene.refs true).2 !! 1%positive
      = Some p'
    /\ p' <> 1%positive
    /\ Dup.states (Dup.Duplicate StoreScene.heap StoreScene.refs true).1 !! p' = Some st'
    /\ datablockText st' = ("AAL1"%string, "AAL1 50"%string)
    /\ datablockManualOffset st' = vzero.
Proof.
  destruct (C9_duplicate_copies_flag_and_text StoreScene.heap StoreScene.refs true)
    as (_ & _ & H & _).
  destruct (H 1%positive 1%positive StoreScene.tracked eq_refl eq_refl)
    as (p' & st' & H1 & H2 & H3 & _ & H5 & H6 & _).
  exists p', st'. split; [exact H1|]. split.
  - intros ->. apply H2. vm_compute. reflexivity.
  - split; [exact H3|]. split; [exact H5|exact H6].
Defined.

(** C9 as the specification states it fails: the state that the duplicate
    holds for [AAL1] has lost the manual offset (10,10), the automatic
    offset and the bounds of the original's. *)
Lemma C9_counterexample :
  ~ (forall (h : Dup.Heap) (rs : Dup.Pane) (nameAsCopy : bool)
            (ac : AcPtr) (p : Dup.StatePtr) (st : AircraftScopeState),
       Dup.aircraft rs !! ac = Some p -> Dup.states h !! p = Some st ->
       exists p',
         Dup.aircraft (Dup.Duplicate h rs nameAsCopy).2 !! ac = Some p'
         /\ Dup.states (Dup.Duplicate h rs nameAsCopy).1 !! p' = Some st).
Proof.
  intros H.
  destruct (H StoreScene.heap StoreScene.refs true 1%positive 1%positive StoreScene.tracked
              eq_refl eq_refl) as (p' & Hp' & Hst).
  vm_compute in Hp'. injection Hp' as <-. vm_compute in Hst. discriminate Hst.
Qed.

(** The ghost link of the duplicate leads to the copy of the ghost
    aircraft, for which the duplicate holds no scope state: the state it
    copied for the ghost is still filed under the original's ghost. *)
Example Duplicate_ghost_link :
  let d := (Dup.Duplicate StoreScene.heap StoreScene.refs true).2 in
  Dup.ghostAircraft d !! 1%positive = Some 10%positive
  /\ Dup.aircraft d !! 10%positive = None
  /\ is_Some (Dup.aircraft d !! 9%positive).
Proof. cbv zeta. repeat split; vm_compute; eauto. Qed.

(** * The rest of the pane *)

From Stdlib Require OrderedTypeEx.
From Stdlib Require Import Sorted.

(** ** The store under events *)

Section Ghosts.

(** The three steps that the cases of [processEvents] are made of keep the
    two maps in agreement. *)
Lemma ghostsConsistent_unlink (rs : RadarScopePane) (ac old : AcPtr) :
  ghostsConsistent rs -> ghostAircraft rs !! ac = Some old ->
  ghostsConsistent
    (setGhostAircraft (delete ac (ghostAircraft rs))
       (setAircraft (delete old (aircraft rs)) rs)).
Proof.
  intros (Ha & Hb & Hc) Hold. split; [|split]; simpl.
  - intros x g Hx. apply lookup_delete_Some in Hx as [Hne Hx].
    destruct (Ha x g Hx) as (s & Hs & Hg). exists s. split; [|done].
    rewrite lookup_delete_ne; [done|]. intros <-. apply Hne. by apply (Hc ac x old).
  - intros g s Hs Hg. apply lookup_delete_Some in Hs as [Hne Hs].
    destruct (Hb g s Hs Hg) as (x & Hx). exists x.
    rewrite lookup_delete_ne; [done|]. intros <-. congruence.
  - intros a1 a2 g H1 H2. apply lookup_delete_Some in H1 as [_ H1].
    apply lookup_delete_Some in H2 as [_ H2]. by apply (Hc a1 a2 g).
Qed.

Lemma ghostsConsistent_write (rs : RadarScopePane) (ac : AcPtr) (s : AircraftScopeState) :
  ghostsConsistent rs -> notGhost rs ac -> isGhost s = false ->
  ghostsConsistent (setAircraft (<[ac := s]> (aircraft rs)) rs).
Proof.
  intros (Ha & Hb & Hc) Hng Hs. split; [|split]; simpl.
  - intros x g Hx. destruct (Ha x g Hx) as (s' & Hs' & Hg). exists s'. split; [|done].
    rewrite lookup_insert_ne; [done|]. intros <-. by apply (Hng x ac).
  - intros g s' Hs' Hg. destruct (decide (ac = g)) as [->|Hne].
    + rewrite lookup_insert_eq in Hs'. congruence.
    + rewrite lookup_insert_ne in Hs' by done. by apply (Hb g s').
  - exact Hc.
Qed.

Lemma ghostsConsistent_drop (rs : RadarScopePane) (ac : AcPtr) :
  ghostsConsistent rs -> notGhost rs ac -> ghostAircraft rs !! ac = None ->
  ghostsConsistent
    (setGhostAircraft (delete ac (ghostAircraft rs))
       (setAircraft (delete ac (aircraft rs)) rs)).
Proof.
  intros (Ha & Hb & Hc) Hng Hno. split; [|split]; simpl.
  - intros x g Hx. apply lookup_delete_Some in Hx as [Hne Hx].
    destruct (Ha x g Hx) as (s & Hs & Hg). exists s. split; [|done].
    rewrite lookup_delete_ne; [done|]. intros <-. by apply (Hng x ac).
  - intros g s Hs Hg. apply lookup_delete_Some in Hs as [Hne Hs].
    destruct (Hb g s Hs Hg) as (x & Hx). exists x.
    rewrite lookup_delete_ne; [done|]. intros <-. congruence.
  - intros a1 a2 g H1 H2. apply lookup_delete_Some in H1 as [_ H1].
    apply lookup_delete_Some in H2 as [_ H2]. by apply (Hc a1 a2 g).
Qed.

Lemma ghostsConsistent_newGhost (rs : RadarScopePane) (ac : AcPtr) (ghost : option AcPtr) :
  ghostsConsistent rs -> notGhost rs ac ->
  (forall g, ghost = Some g -> g <> ac /\ aircraft rs !! g = None) ->
  (CRDAEnabled rs = true -> is_Some ghost -> ghostAircraft rs !! ac = None) ->
  ghostsConsistent (newGhost ghost ac rs).
Proof.
  intros Hcons Hng Hnew Hno. unfold newGhost.
  destruct (CRDAEnabled rs) eqn:Hcr; [|done]. destruct ghost as [g|]; [|done].
  destruct (Hnew g eq_refl) as [Hgac Hg]. specialize (Hno eq_refl (ltac:(by eexists))).
  destruct Hcons as (Ha & Hb & Hc). split; [|split]; simpl.
  - intros x g' Hx. destruct (decide (ac = x)) as [->|Hne].
    + rewrite lookup_insert_eq in Hx. injection Hx as <-.
      exists newGhostScopeState. by rewrite lookup_insert_eq.
    + rewrite lookup_insert_ne in Hx by done.
      destruct (Ha x g' Hx) as (s & Hs & Hgs). exists s. split; [|done].
      rewrite lookup_insert_ne; [done|]. intros <-. congruence.
  - intros g' s Hs Hgs. destruct (decide (g = g')) as [<-|Hne].
    + exists ac. by rewrite lookup_insert_eq.
    + rewrite lookup_insert_ne in Hs by done.
      destruct (Hb g' s Hs Hgs) as (x & Hx). exists x.
      rewrite lookup_insert_ne; [done|]. intros <-. congruence.
  - intros a1 a2 g' H1 H2.
    assert (forall a, a <> ac -> ghostAircraft rs !! a = Some g' -> g' <> g) as Hold.
    { intros a _ Hl ->. destruct (Ha a g Hl) as (s & Hs & _). congruence. }
    destruct (decide (ac = a1)) as [<-|Hn1], (decide (ac = a2)) as [<-|Hn2]; [done| | |].
    + rewrite lookup_insert_eq in H1. rewrite lookup_insert_ne in H2 by done.
      injection H1 as <-. by destruct (Hold a2 (ltac:(done)) H2).
    + rewrite lookup_insert_eq in H2. rewrite lookup_insert_ne in H1 by done.
      injection H2 as <-. by destruct (Hold a1 (ltac:(done)) H1).
    + rewrite lookup_insert_ne in H1, H2 by done. by apply (Hc a1 a2 g').
Qed.

Lemma ghostsConsistent_removed (rs : RadarScopePane) (ac : AcPtr) (ghost : option AcPtr) :
  ghostsConsistent rs -> notGhost rs ac ->
  ghostsConsistent (processEvent rs (RemovedAircraftEvent ac, ghost)).
Proof.
  intros Hcons Hng. simpl.
  destruct (ghostAircraft rs !! ac) as [g|] eqn:Hlink; simpl.
  - pose proof (ghostsConsistent_unlink rs ac g Hcons Hlink) as (Ha & Hb & Hc).
    simpl in Ha, Hb, Hc. split; [|split]; simpl.
    + intros x g' Hx. destruct (Ha x g' Hx) as (s & Hs & Hg). exists s. split; [|done].
      rewrite lookup_delete_ne; [done|]. intros <-.
      apply lookup_delete_Some in Hx as [_ Hx]. by apply (Hng x ac).
    + intros g' s Hs Hg. apply lookup_delete_Some in Hs as [_ Hs]. by apply (Hb g' s).
    + exact Hc.
  - by apply ghostsConsistent_drop.
Qed.

Lemma processEvent_consistent (rs : RadarScopePane) (ev : Event * option AcPtr) :
  ghostsConsistent rs -> eventFits rs ev -> ghostsConsistent (processEvent rs ev).
Proof.
  intros Hcons. destruct ev as [[ac|ac|ac|ac c] ghost]; unfold eventFits; cbn [fst snd].
  - intros (Hng & Hnew & Hno). cbn [processEvent].
    apply ghostsConsistent_newGhost; [by apply ghostsConsistent_write|done| |done].
    intros g Hg. destruct (Hnew g Hg) as [Hne Hnone]. split; [done|]. simpl.
    by rewrite lookup_insert_ne.
  - intros Hng. by apply ghostsConsistent_removed.
  - intros (Hng & Hnew). cbn [processEvent].
    set (rs1 := if CRDAEnabled rs then _ else rs).
    assert (ghostsConsistent rs1 /\ notGhost rs1 ac
            /\ (forall g, ghost = Some g -> g <> ac /\ aircraft rs1 !! g = None)
            /\ CRDAEnabled rs1 = CRDAEnabled rs
            /\ (CRDAEnabled rs = true -> ghostAircraft rs1 !! ac = None))
      as (Hcons1 & Hng1 & Hnew1 & Hcr & Hno1).
    { unfold rs1. destruct (CRDAEnabled rs) eqn:Hc; [|by repeat (split; [done|])].
      destruct (ghostAircraft rs !! ac) as [old|] eqn:Hold; [|by repeat (split; [done|])].
      split; [by apply ghostsConsistent_unlink|]. split; [|split; [|split]]; simpl.
      - intros x g Hx. simpl in Hx. apply lookup_delete_Some in Hx as [_ Hx].
        by apply (Hng x g).
      - intros g Hg. destruct (Hnew g Hg) as [Hne Hnone]. split; [done|]. simpl.
        apply lookup_delete_None. by right.
      - done.
      - intros _. apply lookup_delete_eq. }
    clearbody rs1.
    assert (forall s, aircraft rs1 !! ac = Some s -> isGhost s = false) as Hplain.
    { intros s Hs. destruct (isGhost s) eqn:Hg; [|done].
      destruct Hcons1 as (_ & Hb & _). destruct (Hb ac s Hs Hg) as (x & Hx).
      by destruct (Hng1 x ac Hx). }
    destruct (aircraft rs1 !! ac) as [state|] eqn:Hstate.
    + apply ghostsConsistent_newGhost.
      * apply ghostsConsistent_write; [done|done|]. simpl. by apply Hplain.
      * done.
      * intros g Hg. destruct (Hnew1 g Hg) as [Hne Hnone]. split; [done|]. simpl.
        by rewrite lookup_insert_ne.
      * simpl. rewrite Hcr. intros Hc _. by apply Hno1.
    + apply ghostsConsistent_newGhost.
      * by apply ghostsConsistent_write.
      * done.
      * intros g Hg. destruct (Hnew1 g Hg) as [Hne Hnone]. split; [done|]. simpl.
        by rewrite lookup_insert_ne.
      * simpl. rewrite Hcr. intros Hc _. by apply Hno1.
  - intros _. done.
Qed.

End Ghosts.

(** X1.  The events of a frame keep the two maps of the store in
    agreement: when every ghost link leads to a ghost state and every ghost
    state is reached by exactly one link, the same holds after
    [processEvents], for events about aircraft that are not ghosts
    themselves, with new objects for ghosts, no aircraft with a ghost being
    added a second time. *)
Theorem X1_events_keep_ghosts_consistent
    (rs : RadarScopePane) (events : list (Event * option AcPtr)) :
  ghostsConsistent rs -> eventsFit rs events ->
  ghostsConsistent (processEvents rs events).
Proof.
  revert rs. induction events as [|ev events IH]; intros rs Hcons Hfit; [done|].
  destruct Hfit as [Hev Hrest]. unfold processEvents. simpl.
  apply IH; [|done]. by apply processEvent_consistent.
Qed.

(** The pane of the scene, where [AAL1] has the ghost 9: [AAL1] is
    modified and gets the ghost 10, aircraft 2 is added with its ghost 11,
    and [AAL1] is removed. *)
Lemma X1_events_keep_ghosts_consistent_witness :
  ghostsConsistent
    (processEvents StoreScene.pane
       [(ModifiedAircraftEvent 1%positive, Some 10%positive);
        (AddedAircraftEvent 2%positive, Some 11%positive);
        (RemovedAircraftEvent 1%positive, None)]).
Proof.
  apply X1_events_keep_ghosts_consistent.
  - unfold ghostsConsistent, StoreScene.pane; simpl. split; [|split].
    + intros ac g H. apply lookup_insert_Some in H as [[<- <-]|[_ H]]; [|done].
      by eexists.
    + intros g s H Hg. apply lookup_insert_Some in H as [[<- <-]|[_ H]]; [done|].
      apply lookup_insert_Some in H as [[<- <-]|[_ H]]; [|done]. by exists 1%positive.
    + intros a1 a2 g H1 H2.
      apply lookup_insert_Some in H1 as [[<- <-]|[_ H1]]; [|done].
      apply lookup_insert_Some in H2 as [[<- _]|[_ H2]]; done.
  - cbn [eventsFit eventFits fst snd].
    repeat split;
      try (refine (bool_decide_unpack (map_Forall _ _) _); vm_compute; exact I);
      try (match goal with H : Some _ = Some _ |- _ => injection H as <- end;
           first [done | by vm_compute]);
      try (intros _ _; by vm_compute).
Defined.

(** X2.  A remove event takes the aircraft out of the store together with
    its ghost link and the state of the ghost that the link names, and
    leaves every other state and every other link as it was; for an
    aircraft that the pane does not hold the event changes nothing. *)
Theorem X2_removed_event (rs : RadarScopePane) (ac : AcPtr) (ghost : option AcPtr) :
  let rs' := processEvent rs (RemovedAircraftEvent ac, ghost) in
  aircraft rs' !! ac = None
  /\ ghostAircraft rs' !! ac = None
  /\ (forall g, ghostAircraft rs !! ac = Some g -> aircraft rs' !! g = None)
  /\ (forall x, x <> ac -> ghostAircraft rs !! ac <> Some x ->
        aircraft rs' !! x = aircraft rs !! x)
  /\ (forall x, x <> ac -> ghostAircraft rs' !! x = ghostAircraft rs !! x)
  /\ (aircraft rs !! ac = None -> ghostAircraft rs !! ac = None -> rs' = rs).
Proof.
  cbv zeta. cbn [processEvent].
  destruct (ghostAircraft rs !! ac) as [g|] eqn:Hlink; simpl.
  - split; [apply lookup_delete_eq|]. split; [apply lookup_delete_eq|].
    split; [|split; [|split]].
    + intros g' [= <-]. destruct (decide (ac = g)) as [->|Hne].
      * apply lookup_delete_eq.
      * rewrite lookup_delete_ne by done. apply lookup_delete_eq.
    + intros x Hx Hg. rewrite !lookup_delete_ne; [done|congruence|congruence].
    + intros x Hx. by rewrite lookup_delete_ne.
    + done.
  - split; [apply lookup_delete_eq|]. split; [apply lookup_delete_eq|].
    split; [done|]. split; [|split].
    + intros x Hx _. by rewrite lookup_delete_ne.
    + intros x Hx. by rewrite lookup_delete_ne.
    + intros Hnone _. rewrite !delete_id by done. by destruct rs.
Qed.

(** X3.  Adding an aircraft and removing it again leaves the pane as it
    was, when the aircraft was not tracked and had no ghost link, and the
    ghost made for it is a new object. *)
Theorem X3_added_then_removed
    (rs : RadarScopePane) (ac : AcPtr) (ghost ghost' : option AcPtr) :
  aircraft rs !! ac = None -> ghostAircraft rs !! ac = None ->
  newObject rs ac ghost ->
  processEvents rs [(AddedAircraftEvent ac, ghost); (RemovedAircraftEvent ac, ghost')] = rs.
Proof.
  intros Hac Hlink Hnew. unfold processEvents. cbn [foldl processEvent]. unfold newGhost.
  simpl. destruct (CRDAEnabled rs) eqn:Hcr; [destruct ghost as [g|]|]; simpl.
  - destruct (Hnew g eq_refl) as [Hne Hg].
    rewrite lookup_insert_eq. simpl.
    rewrite (delete_insert_id _ g) by (by rewrite lookup_insert_ne).
    rewrite !delete_insert_id by done. destruct rs; simpl in *. by subst.
  - rewrite Hlink. simpl. rewrite delete_insert_id by done. rewrite delete_id by done.
    destruct rs; simpl in *. by subst.
  - rewrite Hlink. simpl. rewrite delete_insert_id by done. rewrite delete_id by done.
    destruct rs; simpl in *. by subst.
Qed.

(** Aircraft 2 comes with the ghost 11 and leaves again. *)
Lemma X3_added_then_removed_witness :
  processEvents StoreScene.pane
    [(AddedAircraftEvent 2%positive, Some 11%positive);
     (RemovedAircraftEvent 2%positive, None)] = StoreScene.pane.
Proof.
  apply X3_added_then_removed; [by vm_compute|by vm_compute|].
  intros g [= <-]. split; [done|by vm_compute].
Defined.

(** ** Setting up the store *)

(** What the loop of [initializeAircraft] has done to a pane [rs0] when it
    has gone through [all]. *)
Lemma initializeAircraft_fold (all : list (AcPtr * option AcPtr)) (rs0 : RadarScopePane) :
  let rs' :=
    foldl (fun rs p =>
             newGhost p.2 p.1 (setAircraft (<[p.1 := newScopeState]> (aircraft rs)) rs))
          rs0 all in
  CRDAEnabled rs' = CRDAEnabled rs0
  /\ (forall ac, is_Some (aircraft rs' !! ac)
                 <-> (is_Some (aircraft rs0 !! ac) \/ ac ∈ all.*1
                      \/ (CRDAEnabled rs0 = true /\ Some ac ∈ all.*2)))
  /\ (forall ac s, aircraft rs' !! ac = Some s ->
        aircraft rs0 !! ac = Some s \/ s = newScopeState \/ s = newGhostScopeState)
  /\ (forall ac g, ghostAircraft rs' !! ac = Some g ->
        ghostAircraft rs0 !! ac = Some g
        \/ (CRDAEnabled rs0 = true /\ (ac, Some g) ∈ all)).
Proof.
  cbv zeta. revert rs0. induction all as [|[a gh] all IH]; intros rs0.
  - simpl. split; [done|]. split; [|split].
    + intros ac. split; [by left|]. intros [H|[H|[_ H]]]; [done| |];
        by apply elem_of_nil in H.
    + intros ac s H. by left.
    + intros ac g H. by left.
  - cbn [foldl fst snd].
    set (rs1 := newGhost gh a (setAircraft (<[a := newScopeState]> (aircraft rs0)) rs0)).
    destruct (IH rs1) as (Hcr & Hdom & Hst & Hlk).
    assert (CRDAEnabled rs1 = CRDAEnabled rs0) as Hcr1.
    { unfold rs1, newGhost. simpl. destruct (CRDAEnabled rs0) eqn:Hc; [|done].
      by destruct gh. }
    assert (forall ac, is_Some (aircraft rs1 !! ac)
                       <-> (is_Some (aircraft rs0 !! ac) \/ ac = a
                            \/ (CRDAEnabled rs0 = true /\ gh = Some ac))) as Hdom1.
    { intros ac. unfold rs1, newGhost. simpl.
      destruct (CRDAEnabled rs0); [destruct gh as [g|]|]; simpl.
      - rewrite !lookup_insert_is_Some. split.
        + intros [->|[_ [->|[_ H]]]]; [right; right; by split|by right; left|by left].
        + intros [H|[->|[_ [= ->]]]].
          * destruct (decide (g = ac)); [by left|right]. split; [done|].
            destruct (decide (a = ac)); [by left|right]. by split.
          * destruct (decide (g = a)); [by left|right]. split; [done|]. by left.
          * by left.
      - rewrite lookup_insert_is_Some. split.
        + intros [->|[_ H]]; [by right; left|by left].
        + intros [H|[->|[_ [=]]]]; [|by left].
          destruct (decide (a = ac)); [by left|right]. by split.
      - rewrite lookup_insert_is_Some. split.
        + intros [->|[_ H]]; [by right; left|by left].
        + intros [H|[->|[[=] _]]]; [|by left].
          destruct (decide (a = ac)); [by left|right]. by split. }
    assert (forall ac s, aircraft rs1 !! ac = Some s ->
              aircraft rs0 !! ac = Some s \/ s = newScopeState \/ s = newGhostScopeState)
      as Hst1.
    { intros ac s. unfold rs1, newGhost. simpl.
      destruct (CRDAEnabled rs0); [destruct gh as [g|]|]; simpl.
      - intros H. apply lookup_insert_Some in H as [[_ <-]|[_ H]]; [by right; right|].
        apply lookup_insert_Some in H as [[_ <-]|[_ H]]; [by right; left|by left].
      - intros H. apply lookup_insert_Some in H as [[_ <-]|[_ H]]; [by right; left|by left].
      - intros H. apply lookup_insert_Some in H as [[_ <-]|[_ H]]; [by right; left|by left]. }
    assert (forall ac g, ghostAircraft rs1 !! ac = Some g ->
              ghostAircraft rs0 !! ac = Some g
              \/ (CRDAEnabled rs0 = true /\ ac = a /\ gh = Some g)) as Hlk1.
    { intros ac g. unfold rs1, newGhost. simpl.
      destruct (CRDAEnabled rs0); [destruct gh as [g'|]|]; simpl; [|by left..].
      intros H. apply lookup_insert_Some in H as [[<- <-]|[_ H]]; [by right|by left]. }
    split; [congruence|]. split; [|split].
    + intros ac. rewrite Hdom, Hdom1, Hcr1. rewrite !fmap_cons, !elem_of_cons. simpl.
      split.
      * intros [[H|[->|[Hc ->]]]|[H|[Hc H]]]; auto 8.
      * intros [H|[[->|H]|[Hc [[= ->]|H]]]]; auto 8.
    + intros ac s H. destruct (Hst ac s H) as [H1|H1]; [|by right]. by apply Hst1.
    + intros ac g H. rewrite elem_of_cons. destruct (Hlk ac g H) as [H1|[Hc H1]].
      * destruct (Hlk1 ac g H1) as [H2|(Hc & -> & ->)]; [by left|right]. split; [done|by left].
      * right. split; [congruence|by right].
Qed.

(** X4.  [initializeAircraft] starts the store anew: afterwards the pane
    tracks the aircraft of the server and, with converging runway display
    on, their ghosts, and nothing else; every state is a new one, all
    offsets zero and the text stale, whatever the pane held before; every
    ghost link is one that the loop made; and the result is what the add
    events for these aircraft give on an empty store. *)
Theorem X4_initializeAircraft_starts_anew
    (rs : RadarScopePane) (all : list (AcPtr * option AcPtr)) :
  let rs' := initializeAircraft rs all in
  (forall ac, is_Some (aircraft rs' !! ac)
              <-> (ac ∈ all.*1 \/ (CRDAEnabled rs = true /\ Some ac ∈ all.*2)))
  /\ (forall ac s, aircraft rs' !! ac = Some s ->
        s = newScopeState \/ s = newGhostScopeState)
  /\ (forall ac g, ghostAircraft rs' !! ac = Some g ->
        CRDAEnabled rs = true /\ (ac, Some g) ∈ all)
  /\ rs' = processEvents (setGhostAircraft ∅ (setAircraft ∅ rs))
             ((fun p => (AddedAircraftEvent p.1, p.2)) <$> all).
Proof.
  cbv zeta. unfold initializeAircraft.
  destruct (initializeAircraft_fold all (setGhostAircraft ∅ (setAircraft ∅ rs)))
    as (_ & Hdom & Hst & Hlk). simpl in Hdom, Hst, Hlk.
  split; [|split; [|split]].
  - intros ac. rewrite Hdom. rewrite lookup_empty. split; [|by right].
    intros [H|H]; [by destruct H|done].
  - intros ac s H. destruct (Hst ac s H) as [H1|H1]; [|done]. by rewrite lookup_empty in H1.
  - intros ac g H. destruct (Hlk ac g H) as [H1|H1]; [|done]. by rewrite lookup_empty in H1.
  - clear Hdom Hst Hlk. unfold processEvents.
    generalize (setGhostAircraft ∅ (setAircraft ∅ rs)).
    induction all as [|[a gh] all IH]; intros rs0; [done|]. simpl. apply IH.
Qed.

(** ** The cached text of a datablock *)

Section DatablockText.

Variable deref : AcPtr -> Aircraft.
Variable squawk : AcPtr -> Z.
Variables InboundHandoffController OutboundHandoffController : string -> string.
Variable pointedOutGet : gmap AcPtr (string * Z) -> AcPtr -> option string.
Variable Format : AcPtr -> bool -> Z -> string.
Variable BoundText : string -> Z -> Z * Z.
Variable max : float32 -> float32 -> float32.
Variables FontAwesomeIconArrowLeft FontAwesomeIconArrowRight
  FontAwesomeIconExclamationTriangle : string.

Local Abbreviation update :=
  (updateDatablockTextAndBounds deref squawk InboundHandoffController
     OutboundHandoffController pointedOutGet Format BoundText max
     FontAwesomeIconArrowLeft FontAwesomeIconArrowRight FontAwesomeIconExclamationTriangle).

Local Abbreviation updateOne :=
  (updateText deref squawk InboundHandoffController OutboundHandoffController
     pointedOutGet Format BoundText max FontAwesomeIconArrowLeft FontAwesomeIconArrowRight
     FontAwesomeIconExclamationTriangle).

Local Abbreviation textOf :=
  (formatted deref squawk InboundHandoffController OutboundHandoffController
     pointedOutGet Format FontAwesomeIconArrowLeft FontAwesomeIconArrowRight
     FontAwesomeIconExclamationTriangle).

Lemma updateDatablockTextAndBounds_lookup (rs : RadarScopePane) (ac : AcPtr) :
  aircraft (update rs) !! ac = updateOne rs ac <$> aircraft rs !! ac.
Proof.
  unfold updateDatablockTextAndBounds. simpl. rewrite map_lookup_imap.
  by destruct (aircraft rs !! ac).
Qed.

Lemma textBounds_corner (text : string * string) :
  (p0 (textBounds BoundText max text)).1 = (#0)%f32
  /\ (p1 (textBounds BoundText max text)).2 = (#0)%f32.
Proof.
  unfold textBounds. destruct (BoundText text.1 _), (BoundText text.2 _). by split.
Qed.

(** X5.  [updateDatablockTextAndBounds] works as a cache: an aircraft that
    is skipped or whose text is current keeps its state as it is; any other
    aircraft gets the two formatted texts, is marked current and gets a box
    whose upper left corner is the origin; the offsets and the ghost flag
    of a state are never written, and no aircraft is added or dropped. *)
Theorem X5_text_update_is_a_cache (rs : RadarScopePane) (ac : AcPtr) :
  (aircraft rs !! ac = None -> aircraft (update rs) !! ac = None)
  /\ (forall s, aircraft rs !! ac = Some s ->
        exists s',
          aircraft (update rs) !! ac = Some s'
          /\ isGhost s' = isGhost s
          /\ datablockAutomaticOffset s' = datablockAutomaticOffset s
          /\ datablockManualOffset s' = datablockManualOffset s
          /\ (filteredOut deref rs ac = true \/ datablockTextCurrent s = true -> s' = s)
          /\ (filteredOut deref rs ac = false -> datablockTextCurrent s' = true)
          /\ (filteredOut deref rs ac = false -> datablockTextCurrent s = false ->
              datablockText s' = textOf rs ac
              /\ (p0 (datablockBounds s')).1 = (#0)%f32
              /\ (p1 (datablockBounds s')).2 = (#0)%f32)).
Proof.
  split.
  - intros Hnone. by rewrite updateDatablockTextAndBounds_lookup, Hnone.
  - intros s Hs. exists (updateOne rs ac s).
    rewrite updateDatablockTextAndBounds_lookup, Hs. split; [done|].
    unfold updateText. destruct (filteredOut deref rs ac) eqn:Hf.
    { repeat split; try done. }
    destruct (datablockTextCurrent s) eqn:Hc.
    { repeat split; try done. }
    simpl. repeat split; try done.
    + by intros [?|?].
    + apply textBounds_corner.
    + apply textBounds_corner.
Qed.

(** X6.  Running [updateDatablockTextAndBounds] a second time changes
    nothing. *)
Theorem X6_text_update_idempotent (rs : RadarScopePane) :
  update (update rs) = update rs.
Proof.
  assert (aircraft (update (update rs)) = aircraft (update rs)) as Hsame.
  { apply map_eq. intros ac. rewrite !updateDatablockTextAndBounds_lookup.
    destruct (aircraft rs !! ac) as [s|]; [|done]. simpl. f_equal.
    unfold updateText.
    change (filteredOut deref (update rs) ac) with (filteredOut deref rs ac).
    destruct (filteredOut deref rs ac) eqn:Hf; [done|].
    destruct (datablockTextCurrent s) eqn:Hc; [by rewrite Hc|done]. }
  change (update (update rs))
    with (setAircraft (aircraft (update (update rs))) (update rs)).
  rewrite Hsame. unfold updateDatablockTextAndBounds. by destruct rs.
Qed.

(** A modify event leaves the state of a tracked aircraft in place, its
    text marked stale, and the altitude range as it is. *)
Lemma processEvent_range (rs : RadarScopePane) (ev : Event * option AcPtr) :
  MinAltitude (processEvent rs ev) = MinAltitude rs
  /\ MaxAltitude (processEvent rs ev) = MaxAltitude rs.
Proof.
  destruct ev as [[ac|ac|ac|ac c] ghost]; cbn [processEvent]; unfold newGhost.
  - simpl. destruct (CRDAEnabled rs); [destruct ghost|]; done.
  - by destruct (ghostAircraft rs !! ac).
  - set (rs1 := if CRDAEnabled rs then _ else rs).
    assert (MinAltitude rs1 = MinAltitude rs /\ MaxAltitude rs1 = MaxAltitude rs) as [<- <-].
    { unfold rs1. destruct (CRDAEnabled rs); [|done]. by destruct (ghostAircraft rs !! ac). }
    clearbody rs1.
    destruct (aircraft rs1 !! ac); simpl;
      (destruct (CRDAEnabled rs1); [destruct ghost|]; done).
  - done.
Qed.

Lemma processEvent_modified_tracked
    (rs : RadarScopePane) (ac : AcPtr) (ghost : option AcPtr) (s : AircraftScopeState) :
  aircraft rs !! ac = Some s ->
  (CRDAEnabled rs = true -> ghost <> Some ac /\ ghostAircraft rs !! ac <> Some ac) ->
  aircraft (processEvent rs (ModifiedAircraftEvent ac, ghost)) !! ac
  = Some (setTextCurrent false s).
Proof.
  intros Hs Hghost. cbn [processEvent].
  set (rs1 := if CRDAEnabled rs then _ else rs).
  assert (CRDAEnabled rs1 = CRDAEnabled rs) as Hcrda.
  { unfold rs1. destruct (CRDAEnabled rs) eqn:Hc; [|done].
    by destruct (ghostAircraft rs !! ac). }
  assert (aircraft rs1 !! ac = Some s) as Hsame.
  { rewrite <- Hs. unfold rs1. destruct (CRDAEnabled rs) eqn:Hc; [|done].
    destruct (ghostAircraft rs !! ac) as [old|] eqn:Hold; [|done]. simpl.
    apply lookup_delete_ne. intros ->. by destruct (Hghost eq_refl). }
  clearbody rs1. rewrite Hsame. unfold newGhost. simpl. rewrite Hcrda.
  destruct (CRDAEnabled rs) eqn:Hc; [|apply lookup_insert_eq].
  destruct ghost as [g|]; [|apply lookup_insert_eq]. simpl.
  rewrite lookup_insert_ne; [apply lookup_insert_eq|].
  intros ->. by destruct (Hghost eq_refl).
Qed.

(** X7.  What marks a text stale makes the next update format it again: for
    a tracked aircraft that is not skipped, the update that follows a
    modify event, and the update that follows an edit of the datablock
    format, store the newly formatted texts, whereas a text that is current
    is served as it is. *)
Theorem X7_stale_text_is_formatted_again
    (rs : RadarScopePane) (ac : AcPtr) (ghost : option AcPtr) (s : AircraftScopeState) :
  aircraft rs !! ac = Some s ->
  filteredOut deref rs ac = false ->
  (CRDAEnabled rs = true -> ghost <> Some ac /\ ghostAircraft rs !! ac <> Some ac) ->
  let rs1 := processEvent rs (ModifiedAircraftEvent ac, ghost) in
  let rs2 := staleDatablockText rs in
  datablockText <$> aircraft (update rs1) !! ac = Some (textOf rs1 ac)
  /\ datablockText <$> aircraft (update rs2) !! ac = Some (textOf rs2 ac)
  /\ (datablockTextCurrent s = true ->
      datablockText <$> aircraft (update rs) !! ac = Some (datablockText s)).
Proof.
  intros Hs Hf Hghost rs1 rs2. split; [|split].
  - rewrite updateDatablockTextAndBounds_lookup.
    unfold rs1 at 2. rewrite (processEvent_modified_tracked rs ac ghost s Hs Hghost).
    simpl. unfold updateText.
    assert (filteredOut deref rs1 ac = false) as ->.
    { unfold filteredOut, rs1.
      destruct (processEvent_range rs (ModifiedAircraftEvent ac, ghost)) as [-> ->].
      exact Hf. }
    done.
  - rewrite updateDatablockTextAndBounds_lookup. unfold rs2 at 2. simpl.
    rewrite lookup_fmap, Hs. simpl. unfold updateText.
    change (filteredOut deref rs2 ac) with (filteredOut deref rs ac). by rewrite Hf.
  - intros Hc. rewrite updateDatablockTextAndBounds_lookup, Hs. simpl.
    unfold updateText. by rewrite Hf, Hc.
Qed.

End DatablockText.

(** [AAL1], whose cached text is current, is modified. *)
Lemma X7_stale_text_is_formatted_again_witness :
  let update :=
    updateDatablockTextAndBounds LayoutScene.deref TextScene.squawk TextScene.noController
      TextScene.noController TextScene.pointedOutGet TextScene.Format TextScene.BoundText
      TextScene.max "<"%string ">"%string "!"%string in
  let rs := Scene.pane false TextScene.store in
  datablockText
    <$> aircraft (update (processEvent rs (ModifiedAircraftEvent 1%positive, None)))
          !! 1%positive
  = Some ("AAL1*"%string, "AAL1* 050"%string)
  /\ datablockText <$> aircraft (update rs) !! 1%positive = Some ("OLD"%string, "OLD"%string).
Proof.
  cbv zeta.
  destruct (X7_stale_text_is_formatted_again LayoutScene.deref TextScene.squawk
              TextScene.noController TextScene.noController TextScene.pointedOutGet
              TextScene.Format TextScene.BoundText TextScene.max "<"%string ">"%string
              "!"%string (Scene.pane false TextScene.store) 1%positive None TextScene.cached)
    as (H1 & _ & H3).
  - by vm_compute.
  - by vm_compute.
  - intros H. discriminate H.
  - split; [|by apply H3]. etransitivity; [apply H1|]. by vm_compute.
Defined.

(** ** The slice of the automatic layout *)

Section Callsigns.

Lemma String_ltb_asym (a b : string) : String.ltb a b = true -> String.ltb b a = false.
Proof.
  unfold String.ltb. rewrite (String.compare_antisym b a).
  by destruct (String.compare a b).
Qed.

Lemma String_ltb_trans (a b c : string) :
  String.ltb a b = true -> String.ltb b c = true -> String.ltb a c = true.
Proof.
  unfold String.ltb. intros Hab Hbc.
  assert (String.compare a b = Lt) as Hab' by (by destruct (String.compare a b)).
  assert (String.compare b c = Lt) as Hbc' by (by destruct (String.compare b c)).
  apply OrderedTypeEx.String_as_OT.cmp_lt in Hab', Hbc'.
  pose proof (OrderedTypeEx.String_as_OT.lt_trans _ _ _ Hab' Hbc') as Hac.
  apply OrderedTypeEx.String_as_OT.cmp_lt in Hac.
  unfold OrderedTypeEx.String_as_OT.cmp in Hac. by rewrite Hac.
Qed.

Lemma String_ltb_total (a b : string) :
  String.ltb a b = false -> String.ltb b a = false -> a = b.
Proof.
  unfold String.ltb. rewrite (String.compare_antisym b a). intros Hab Hba.
  apply String.compare_eq_iff. by destruct (String.compare a b).
Qed.

(** Not after: the order in which two aircraft may follow each other in a
    slice sorted by callsign. *)
Lemma String_ltb_below (a b c : string) :
  String.ltb b a = false -> String.ltb c b = false -> String.ltb c a = false.
Proof.
  intros Hab Hbc. destruct (String.ltb c a) eqn:Hca; [|done].
  destruct (String.ltb a b) eqn:Hab'.
  - by rewrite (String_ltb_trans c a b Hca Hab') in Hbc.
  - rewrite (String_ltb_total a b Hab' Hab) in Hca. congruence.
Qed.

Variable name : AcPtr -> string.

Lemma insertByCallsign_perm (ac : AcPtr) (l : list AcPtr) :
  insertByCallsign name ac l ≡ₚ ac :: l.
Proof.
  induction l as [|x l IH]; simpl; [done|].
  destruct (String.ltb (name x) (name ac)); [|done].
  rewrite IH. apply Permutation_swap.
Qed.

Lemma sortByCallsign_perm (l : list AcPtr) : sortByCallsign name l ≡ₚ l.
Proof.
  induction l as [|x l IH]; simpl; [done|].
  unfold sortByCallsign in *. simpl. rewrite insertByCallsign_perm. by rewrite IH.
Qed.

Lemma insertByCallsign_sorted (ac : AcPtr) (l : list AcPtr) :
  StronglySorted (fun a b => String.ltb (name b) (name a) = false) l ->
  StronglySorted (fun a b => String.ltb (name b) (name a) = false)
    (insertByCallsign name ac l).
Proof.
  induction l as [|x l IH]; intros Hl; simpl.
  - repeat constructor.
  - apply StronglySorted_inv in Hl as [Hl Hx].
    destruct (String.ltb (name x) (name ac)) eqn:Hlt.
    + constructor; [by apply IH|].
      rewrite insertByCallsign_perm. constructor; [|done].
      by apply String_ltb_asym.
    + constructor; [by constructor|]. constructor; [done|].
      eapply Forall_impl; [exact Hx|]. intros b Hb. simpl in Hb.
      by apply (String_ltb_below (name ac) (name x) (name b)).
Qed.

Lemma sortByCallsign_sorted (l : list AcPtr) :
  StronglySorted (fun a b => String.ltb (name b) (name a) = false) (sortByCallsign name l).
Proof.
  induction l as [|x l IH]; [constructor|].
  unfold sortByCallsign in *. simpl. by apply insertByCallsign_sorted.
Qed.

End Callsigns.

Lemma layoutAircraft_elem_of
    (deref : AcPtr -> Aircraft) (windowFromLatLongP : vec2 -> vec2)
    (paneWidth paneHeight : float32) (rs : RadarScopePane) (ac : AcPtr) :
  ac ∈ layoutAircraft deref windowFromLatLongP paneWidth paneHeight rs
  <-> (is_Some (aircraft rs !! ac)
       /\ filteredOut deref rs ac = false
       /\ onScreen paneWidth paneHeight (windowFromLatLongP (Position (deref ac))) = true).
Proof.
  unfold layoutAircraft. rewrite sortByCallsign_perm. rewrite list_elem_of_filter.
  rewrite list_elem_of_fmap. split.
  - intros [Hf ([x s] & -> & Hin)]. apply elem_of_map_to_list in Hin. simpl in *.
    apply andb_true_iff in Hf as [Hf Hon]. apply negb_true_iff in Hf.
    split; [by exists s|done].
  - intros ([s Hs] & Hf & Hon). split.
    + by rewrite Hf, Hon.
    + exists (ac, s). split; [done|]. by apply elem_of_map_to_list.
Qed.

Lemma layoutAircraft_NoDup
    (deref : AcPtr -> Aircraft) (windowFromLatLongP : vec2 -> vec2)
    (paneWidth paneHeight : float32) (rs : RadarScopePane) :
  NoDup (layoutAircraft deref windowFromLatLongP paneWidth paneHeight rs).
Proof.
  unfold layoutAircraft. rewrite sortByCallsign_perm.
  apply NoDup_filter, NoDup_fst_map_to_list.
Qed.

(** X8.  The slice that the automatic layout works on holds the tracked
    aircraft that are neither skipped nor off screen, each of them once, in
    the order of their callsigns. *)
Theorem X8_layout_slice
    (deref : AcPtr -> Aircraft) (windowFromLatLongP : vec2 -> vec2)
    (paneWidth paneHeight : float32) (rs : RadarScopePane) :
  let acs := layoutAircraft deref windowFromLatLongP paneWidth paneHeight rs in
  (forall ac,
     ac ∈ acs
     <-> (is_Some (aircraft rs !! ac)
          /\ filteredOut deref rs ac = false
          /\ onScreen paneWidth paneHeight (windowFromLatLongP (Position (deref ac))) = true))
  /\ NoDup acs
  /\ StronglySorted
       (fun a b => String.ltb (Callsign (deref b)) (Callsign (deref a)) = false) acs.
Proof.
  cbv zeta. split; [|split].
  - apply layoutAircraft_elem_of.
  - apply layoutAircraft_NoDup.
  - apply (sortByCallsign_sorted (fun ac => Callsign (deref ac))).
Qed.

(** ** What the layout writes *)

Section Frame.

Variable deref : AcPtr -> Aircraft.
Variable windowFromLatLongP : vec2 -> vec2.
Variable rs : RadarScopePane.
Variable acs : list AcPtr.

Lemma framed_write (x : AcPtr) (v : vec2) (m : gmap AcPtr AircraftScopeState)
    (ls : LayoutState) (bs : list Extent2D) (ps : list bool) :
  x ∈ acs -> framed m acs ls ->
  framed m acs (mkLayout (alter (setAutomaticOffset v) x (ls_states ls)) bs ps).
Proof.
  intros Hx Hf ac. specialize (Hf ac). simpl.
  destruct (decide (x = ac)) as [->|Hne].
  - rewrite lookup_alter_eq. destruct (m !! ac) as [s|], (ls_states ls !! ac) as [s'|];
      simpl; try done.
    destruct Hf as [Hs _]. split; [|done]. rewrite Hs. by destruct s.
  - by rewrite lookup_alter_ne.
Qed.

Lemma framed_states (m : gmap AcPtr AircraftScopeState) (ls ls' : LayoutState) :
  ls_states ls' = ls_states ls -> framed m acs ls -> framed m acs ls'.
Proof. intros Hs Hf ac. rewrite Hs. apply Hf. Qed.

Lemma framed_kept (m : gmap AcPtr AircraftScopeState) : keptByAdjust acs (framed m acs).
Proof.
  intros i x ov ob ls Hi _ Hf. destruct ov as [v|].
  - apply framed_write; [|done]. by apply list_elem_of_lookup_2 in Hi.
  - by apply (framed_states m ls).
Qed.

Lemma framed_passes (n : nat) :
  framed (aircraft rs) acs
    (passes (attractPass deref rs acs) n (layoutRelaxed deref windowFromLatLongP rs acs)).
Proof.
  apply attractPasses_keep; [apply framed_kept|].
  unfold layoutRelaxed, layoutStarted. cbv zeta.
  apply relaxation_keeps; [apply framed_kept|].
  apply initBounds_keeps; [apply framed_kept|].
  apply startIdeal_keeps; [apply framed_kept|].
  apply forRange_invariant.
  - apply forRange_invariant.
    + intros ac. simpl. destruct (aircraft rs !! ac) as [s|]; [|done]. split; [|done].
      by destruct s.
    + intros i x ls Hi Hf. unfold pinManual. destruct (hasManualOffset _); [|done].
      by apply (framed_states _ ls).
  - intros i x ls Hi Hf. unfold placeIdeal. destruct (placedAt ls i); [done|].
    destruct (allowed _ _); [|done]. unfold writeAutomaticOffset. simpl.
    apply (framed_write x _ _ ls); [|done]. by apply list_elem_of_lookup_2 in Hi.
Qed.

End Frame.

(** What [layoutDatablocks] leaves alone. *)
Lemma layoutDatablocks_writes
    (deref : AcPtr -> Aircraft) (windowFromLatLongP : vec2 -> vec2)
    (paneWidth paneHeight : float32) (rs rs' : RadarScopePane) (fuel : nat) :
  layoutDatablocks deref windowFromLatLongP paneWidth paneHeight rs fuel = Some rs' ->
  rs' = setAircraft (aircraft rs') rs
  /\ (forall ac, aircraft rs' !! ac = None <-> aircraft rs !! ac = None)
  /\ (forall ac s s',
        aircraft rs !! ac = Some s -> aircraft rs' !! ac = Some s' ->
        s' = setAutomaticOffset (datablockAutomaticOffset s') s
        /\ (filteredOut deref rs ac = true -> s' = s)
        /\ (AutomaticDatablockLayout rs = true ->
            onScreen paneWidth paneHeight (windowFromLatLongP (Position (deref ac))) = false ->
            s' = s)).
Proof.
  unfold layoutDatablocks. destruct (AutomaticDatablockLayout rs) eqn:Hauto; simpl.
  - destruct (layoutAutomatic _ _ _ _ _) as [ls|] eqn:Hls; [|done]. simpl.
    intros [= <-]. split; [done|]. simpl.
    unfold layoutAutomatic in Hls. apply loopWhile_passes in Hls.
    pose proof (framed_passes deref windowFromLatLongP rs
                  (layoutAircraft deref windowFromLatLongP paneWidth paneHeight rs) fuel)
      as Hf.
    rewrite <- Hls in Hf.
    pose proof (layoutAircraft_elem_of deref windowFromLatLongP paneWidth paneHeight rs)
      as Hin.
    split.
    + intros ac. specialize (Hf ac).
      destruct (aircraft rs !! ac), (ls_states ls !! ac); done.
    + intros ac s s' Hs Hs'. specialize (Hf ac). rewrite Hs, Hs' in Hf.
      destruct Hf as [Hsame Hout]. split; [done|]. split.
      * intros Hfil. apply Hout. intros Hac. apply Hin in Hac as (_ & Hfil' & _).
        congruence.
      * intros _ Hoff. apply Hout. intros Hac. apply Hin in Hac as (_ & _ & Hon).
        congruence.
  - intros [= <-]. split; [done|]. simpl. split.
    + intros ac. rewrite layoutSelfOnly_lookup. by destruct (aircraft rs !! ac).
    + intros ac s s' Hs. rewrite layoutSelfOnly_lookup, Hs. simpl. intros [= <-].
      destruct (filteredOut deref rs ac) eqn:Hfil.
      * split; [by destruct s|]. by split.
      * split; [|by split]. by destruct (hasManualOffset s), s.
Qed.

(** X9.  [layoutDatablocks] writes automatic offsets and nothing else: the
    pane it returns differs from the one it was given in the store only,
    the store tracks the same aircraft, and the state of each differs from
    what it was in the automatic offset at most.  The state of an aircraft
    that is skipped stays as it is, and so does, in the automatic layout,
    the state of an aircraft that is off screen. *)
Theorem X9_layout_writes_automatic_offsets_only
    (deref : AcPtr -> Aircraft) (windowFromLatLongP : vec2 -> vec2)
    (paneWidth paneHeight : float32) (rs rs' : RadarScopePane) (fuel : nat) :
  layoutDatablocks deref windowFromLatLongP paneWidth paneHeight rs fuel = Some rs' ->
  rs' = setAircraft (aircraft rs') rs
  /\ (forall ac, aircraft rs' !! ac = None <-> aircraft rs !! ac = None)
  /\ (forall ac s s',
        aircraft rs !! ac = Some s -> aircraft rs' !! ac = Some s' ->
        s' = setAutomaticOffset (datablockAutomaticOffset s') s
        /\ (filteredOut deref rs ac = true -> s' = s)
        /\ (AutomaticDatablockLayout rs = true ->
            onScreen paneWidth paneHeight (windowFromLatLongP (Position (deref ac))) = false ->
            s' = s)).
Proof. apply layoutDatablocks_writes. Qed.

(** The automatic layout of [AAL1], pinned by its manual offset, and
    [DAL3], far from it. *)
Lemma X9_layout_writes_automatic_offsets_only_witness :
  let rs := Scene.pane true LayoutScene.apart in
  exists rs',
    layoutDatablocks LayoutScene.deref Scene.project Scene.side Scene.side rs 1 = Some rs'
    /\ rs' = setAircraft (aircraft rs') rs
    /\ (forall ac, aircraft rs' !! ac = None <-> aircraft rs !! ac = None).
Proof.
  cbv zeta.
  destruct (layoutDatablocks LayoutScene.deref Scene.project Scene.side Scene.side
              (Scene.pane true LayoutScene.apart) 1) as [rs'|] eqn:Hrs'.
  - exists rs'. split; [reflexivity|].
    destruct (X9_layout_writes_automatic_offsets_only LayoutScene.deref Scene.project
                Scene.side Scene.side (Scene.pane true LayoutScene.apart) rs' 1 Hrs')
      as (H1 & H2 & _).
    split; [exact H1|exact H2].
  - vm_compute in Hrs'. discriminate Hrs'.
Defined.

(** ** Placed without a manual offset means ideal *)

Section Ideal.

Variable deref : AcPtr -> Aircraft.
Variable windowFromLatLongP : vec2 -> vec2.
Variable rs : RadarScopePane.
Variable acs : list AcPtr.

Hypothesis acs_NoDup : NoDup acs.

Lemma idealWherePlaced_kept : keptByAdjust acs (idealWherePlaced deref rs acs).
Proof.
  intros i x ov ob ls Hi Hp (Hsz & Hdom & Hideal).
  split; [by apply sized_updUnplaced|]. split.
  - intros y Hy. destruct (Hdom y Hy) as [s Hs]. destruct ov as [v|]; simpl; [|by exists s].
    destruct (decide (x = y)) as [->|Hne].
    + rewrite lookup_alter_eq, Hs. by eexists.
    + rewrite lookup_alter_ne by done. by exists s.
  - intros k y Hk Hpk. rewrite placedAt_updUnplaced in Hpk.
    assert (x <> y) as Hne.
    { intros ->. assert (i = k) as -> by (by apply (NoDup_lookup acs i k y)). congruence. }
    assert (stateOf (updUnplaced i x ov ob ls) y = stateOf ls y) as ->.
    { unfold stateOf. destruct ov as [v|]; simpl; [|done]. by rewrite lookup_alter_ne. }
    by apply (Hideal k y).
Qed.

Lemma idealWherePlaced_placeIdeal (i : nat) (x : AcPtr) (ls : LayoutState) :
  acs !! i = Some x -> idealWherePlaced deref rs acs ls ->
  idealWherePlaced deref rs acs (placeIdeal deref windowFromLatLongP rs i x ls).
Proof.
  intros Hi (Hsz & Hdom & Hideal). unfold placeIdeal.
  destruct (placedAt ls i) eqn:Hp; [done|].
  destruct (allowed _ _); [|done].
  apply lookup_lt_Some in Hi as Hlt. destruct Hsz as [Hlb Hlp].
  set (ls1 := writeBounds i _ (writePlaced i true ls)).
  assert (forall y, stateOf ls1 y = stateOf ls y) as Hst1 by done.
  split; [split; simpl; by rewrite length_insert|]. split.
  - intros y Hy. destruct (Hdom y Hy) as [s Hs]. simpl.
    destruct (decide (x = y)) as [->|Hne].
    + rewrite lookup_alter_eq, Hs. by eexists.
    + rewrite lookup_alter_ne by done. by exists s.
  - intros k y Hk Hpk Hman. destruct (decide (x = y)) as [<-|Hne].
    + rewrite stateOf_writeAutomaticOffset_eq by (apply Hdom; by apply list_elem_of_lookup_2 in Hi).
      simpl. apply offsetSelfOnly_bounds. by rewrite Hst1.
    + rewrite stateOf_writeAutomaticOffset_ne in Hman |- * by done.
      rewrite Hst1 in Hman |- *. apply (Hideal k y Hk); [|done].
      assert (k <> i) as Hki by (intros ->; congruence).
      unfold placedAt in Hpk |- *. simpl in Hpk. by rewrite list_lookup_insert_ne in Hpk.
Qed.

Hypothesis acs_tracked : forall x, x ∈ acs -> is_Some (aircraft rs !! x).

Lemma idealWherePlaced_passes (n : nat) :
  idealWherePlaced deref rs acs
    (passes (attractPass deref rs acs) n (layoutRelaxed deref windowFromLatLongP rs acs)).
Proof.
  apply attractPasses_keep; [apply idealWherePlaced_kept|].
  unfold layoutRelaxed, layoutStarted. cbv zeta.
  apply relaxation_keeps; [apply idealWherePlaced_kept|].
  apply initBounds_keeps; [apply idealWherePlaced_kept|].
  apply startIdeal_keeps; [apply idealWherePlaced_kept|].
  apply forRange_invariant; [|intros i x ls Hi; by apply idealWherePlaced_placeIdeal].
  destruct (pinManual_placed deref windowFromLatLongP rs acs) as (Hsz & Hs & Hpl).
  split; [done|]. split.
  - intros x Hx. rewrite Hs. by apply acs_tracked.
  - intros i x Hi Hp Hman. rewrite (Hpl i x Hi) in Hp. congruence.
Qed.

End Ideal.

(** X10.  In the automatic layout over a slice of tracked aircraft, none of
    them twice, after every number of passes of the last loop: an aircraft
    that is placed and has no manual offset has the automatic offset that
    [offsetSelfOnly] gives it, the one it would have in the layout on its
    own track. *)
Theorem X10_placed_aircraft_has_ideal_offset
    (deref : AcPtr -> Aircraft) (windowFromLatLongP : vec2 -> vec2)
    (rs : RadarScopePane) (acs : list AcPtr) (n i : nat) (x : AcPtr) :
  NoDup acs ->
  (forall y, y ∈ acs -> is_Some (aircraft rs !! y)) ->
  let ls := passes (attractPass deref rs acs) n
              (layoutRelaxed deref windowFromLatLongP rs acs) in
  acs !! i = Some x -> placedAt ls i = true ->
  hasManualOffset (stateOf ls x) = false ->
  datablockAutomaticOffset (stateOf ls x) = offsetSelfOnly deref rs x (stateOf ls x).
Proof.
  intros Hnd Htr ls Hi Hp Hman.
  destruct (idealWherePlaced_passes deref windowFromLatLongP rs acs Hnd Htr n)
    as (_ & _ & Hideal).
  by apply (Hideal i x).
Qed.

(** [DAL3], far from the pinned [AAL1], is placed by the second pass. *)
Lemma X10_placed_aircraft_has_ideal_offset_witness :
  let rs := Scene.pane true LayoutScene.apart in
  let ls := passes (attractPass LayoutScene.deref rs [1%positive; 3%positive]) 1
              (layoutRelaxed LayoutScene.deref Scene.project rs [1%positive; 3%positive]) in
  datablockAutomaticOffset (stateOf ls 3%positive)
  = offsetSelfOnly LayoutScene.deref rs 3%positive (stateOf ls 3%positive).
Proof.
  apply (X10_placed_aircraft_has_ideal_offset LayoutScene.deref Scene.project
           (Scene.pane true LayoutScene.apart) [1%positive; 3%positive] 1 1 3%positive).
  - apply (bool_decide_unpack _). by vm_compute.
  - intros y Hy. apply elem_of_cons in Hy as [->|Hy]; [by vm_compute; eexists|].
    apply list_elem_of_singleton in Hy as ->. by vm_compute; eexists.
  - reflexivity.
  - reflexivity.
  - reflexivity.
Defined.

(** ** When the second pass places every aircraft *)

Section AllPlaced.

Variable deref : AcPtr -> Aircraft.
Variable windowFromLatLongP : vec2 -> vec2.
Variable rs : RadarScopePane.
Variable acs : list AcPtr.

Lemma allPlaced_relaxation (ls : LayoutState) :
  allPlaced acs ls -> relaxation acs ls = ls.
Proof.
  intros Hall.
  assert (relaxIteration acs ls = ls) as Hiter.
  { unfold relaxIteration.
    assert (forRange relaxOne acs (ls, false) = (ls, false)) as ->; [|done].
    apply (forRange_invariant (fun st => st = (ls, false))); [done|].
    intros i x st Hi ->. unfold relaxOne.
    rewrite Hall; [done|]. by apply lookup_lt_Some in Hi. }
  unfold relaxation. generalize 20. intros n.
  induction n as [|n IH]; simpl; [done|]. by rewrite IH.
Qed.

Lemma allPlaced_attractPass (ls : LayoutState) :
  allPlaced acs ls -> attractPass deref rs acs ls = (ls, false).
Proof.
  intros Hall. unfold attractPass.
  apply (forRange_invariant (fun st => st = (ls, false))); [done|].
  intros i x st Hi ->. unfold attractOne.
  rewrite Hall; [done|]. by apply lookup_lt_Some in Hi.
Qed.

Lemma allPlaced_layoutAutomatic (fuel : nat) :
  allPlaced acs (layoutStarted deref windowFromLatLongP rs acs) ->
  layoutAutomatic deref windowFromLatLongP rs acs (S fuel)
  = Some (layoutStarted deref windowFromLatLongP rs acs).
Proof.
  intros Hall. unfold layoutAutomatic, layoutRelaxed.
  rewrite allPlaced_relaxation by done. simpl.
  by rewrite allPlaced_attractPass.
Qed.

End AllPlaced.

(** X11.  When the first two passes of the automatic layout have placed
    every aircraft of the slice, the relaxation and the last loop change
    nothing, and the layout returns after one pass of the last loop with
    the state that the passes have built. *)
Theorem X11_all_placed_ends_the_layout
    (deref : AcPtr -> Aircraft) (windowFromLatLongP : vec2 -> vec2)
    (rs : RadarScopePane) (acs : list AcPtr) (fuel : nat) :
  allPlaced acs (layoutStarted deref windowFromLatLongP rs acs) ->
  layoutRelaxed deref windowFromLatLongP rs acs = layoutStarted deref windowFromLatLongP rs acs
  /\ layoutAutomatic deref windowFromLatLongP rs acs (S fuel)
     = Some (layoutStarted deref windowFromLatLongP rs acs).
Proof.
  intros Hall. split.
  - unfold layoutRelaxed. by apply allPlaced_relaxation.
  - by apply allPlaced_layoutAutomatic.
Qed.

Lemma X11_all_placed_ends_the_layout_witness :
  let rs := Scene.pane true LayoutScene.apart in
  layoutAutomatic LayoutScene.deref Scene.project rs [1%positive; 3%positive] 1
  = Some (layoutStarted LayoutScene.deref Scene.project rs [1%positive; 3%positive]).
Proof.
  apply (X11_all_placed_ends_the_layout LayoutScene.deref Scene.project
           (Scene.pane true LayoutScene.apart) [1%positive; 3%positive] 0).
  intros i Hi. simpl in Hi.
  destruct i as [|[|i]]; [reflexivity|reflexivity|lia].
Defined.

(** X12.  The automatic layout of a single aircraft always returns after
    one pass of the last loop.  An aircraft without a manual offset gets
    the automatic offset of [offsetSelfOnly], as in the layout on its own
    track; an aircraft with a manual offset keeps its state as it is, its
    automatic offset included, where the layout on its own track resets
    that offset to zero. *)
Theorem X12_single_aircraft_layout
    (deref : AcPtr -> Aircraft) (windowFromLatLongP : vec2 -> vec2)
    (rs : RadarScopePane) (x : AcPtr) (s : AircraftScopeState) (fuel : nat) :
  aircraft rs !! x = Some s ->
  exists ls,
    layoutAutomatic deref windowFromLatLongP rs [x] (S fuel) = Some ls
    /\ ls_states ls
       = (if hasManualOffset s then aircraft rs
          else <[x := setAutomaticOffset (offsetSelfOnly deref rs x s) s]> (aircraft rs))
    /\ (hasManualOffset s = false -> filteredOut deref rs x = false ->
        ls_states ls !! x = layoutSelfOnly deref rs !! x).
Proof.
  intros Hs.
  assert (allPlaced [x] (layoutStarted deref windowFromLatLongP rs [x])
          /\ ls_states (layoutStarted deref windowFromLatLongP rs [x])
             = (if hasManualOffset s then aircraft rs
                else <[x := setAutomaticOffset (offsetSelfOnly deref rs x s) s]> (aircraft rs)))
    as [Hall Hst].
  { set (ls0 := mkLayout (aircraft rs) [Extent2D.zero] [false]).
    assert (stateOf ls0 x = s) as H0 by (unfold stateOf; simpl; by rewrite Hs).
    unfold layoutStarted, forRange. cbn [forRangeFrom length replicate]. fold ls0.
    unfold pinManual. rewrite H0.
    destruct (hasManualOffset s) eqn:Hman.
    - set (ls1 := writePlaced 0 true _).
      assert (placedAt ls1 0 = true) as Hp1 by done.
      unfold placeIdeal. rewrite Hp1. unfold startIdeal. rewrite Hp1.
      unfold initBounds. rewrite Hp1. split; [|done].
      intros i Hi. simpl in Hi. by destruct i; [|lia].
    - unfold placeIdeal. change (placedAt ls0 0) with false. cbv iota. rewrite H0.
      change (allowed ls0 ?b) with true. cbv iota.
      set (ls1 := writeAutomaticOffset x _ _).
      assert (placedAt ls1 0 = true) as Hp1 by done.
      unfold startIdeal. rewrite Hp1. unfold initBounds. rewrite Hp1. split.
      + intros i Hi. simpl in Hi. by destruct i; [|lia].
      + unfold ls1. simpl. by rewrite alter_alt, Hs. }
  exists (layoutStarted deref windowFromLatLongP rs [x]).
  split; [by apply allPlaced_layoutAutomatic|]. split; [done|].
  intros Hman Hf. rewrite Hst, Hman, lookup_insert_eq.
  rewrite layoutSelfOnly_lookup, Hs. simpl. by rewrite Hf, Hman.
Qed.

(** [DAL3] alone. *)
Lemma X12_single_aircraft_layout_witness :
  let rs := Scene.pane true LayoutScene.apart in
  exists ls,
    layoutAutomatic LayoutScene.deref Scene.project rs [3%positive] 1 = Some ls
    /\ ls_states ls !! 3%positive = layoutSelfOnly LayoutScene.deref rs !! 3%positive.
Proof.
  cbv zeta.
  destruct (X12_single_aircraft_layout LayoutScene.deref Scene.project
              (Scene.pane true LayoutScene.apart) 3%positive LayoutScene.fresh 0 eq_refl)
    as (ls & H1 & _ & H3).
  exists ls. split; [exact H1|]. apply H3; reflexivity.
Defined.

(** ** The layout on the aircraft's own track *)

(** X13.  With the automatic layout off, [layoutDatablocks] returns whatever
    the bound on the passes is, the last loop not being run, and laying out
    the pane it returns gives that pane again. *)
Theorem X13_own_track_layout_idempotent
    (deref : AcPtr -> Aircraft) (windowFromLatLongP : vec2 -> vec2)
    (paneWidth paneHeight : float32) (rs : RadarScopePane) :
  AutomaticDatablockLayout rs = false ->
  exists rs1,
    (forall fuel,
       layoutDatablocks deref windowFromLatLongP paneWidth paneHeight rs fuel = Some rs1)
    /\ (forall fuel,
          layoutDatablocks deref windowFromLatLongP paneWidth paneHeight rs1 fuel = Some rs1).
Proof.
  intros Hauto. exists (setAircraft (layoutSelfOnly deref rs) rs). split.
  - intros fuel. unfold layoutDatablocks. by rewrite Hauto.
  - intros fuel. unfold layoutDatablocks. simpl. rewrite Hauto. simpl. f_equal.
    assert (layoutSelfOnly deref (setAircraft (layoutSelfOnly deref rs) rs)
            = layoutSelfOnly deref rs) as ->; [|by destruct rs].
    apply map_eq. intros ac. rewrite layoutSelfOnly_lookup. simpl.
    rewrite layoutSelfOnly_lookup. destruct (aircraft rs !! ac) as [s|]; [|done].
    simpl. f_equal.
    change (filteredOut deref (setAircraft (layoutSelfOnly deref rs) rs) ac)
      with (filteredOut deref rs ac).
    destruct (filteredOut deref rs ac); [done|].
    destruct (hasManualOffset s) eqn:Hman.
    + by rewrite hasManualOffset_setAutomaticOffset, Hman.
    + rewrite hasManualOffset_setAutomaticOffset, Hman. reflexivity.
Qed.

Lemma X13_own_track_layout_idempotent_witness :
  exists rs1,
    layoutDatablocks LayoutScene.deref Scene.project Scene.side Scene.side
      (Scene.pane false LayoutScene.store) 0 = Some rs1
    /\ layoutDatablocks LayoutScene.deref Scene.project Scene.side Scene.side rs1 0 = Some rs1.
Proof.
  destruct (X13_own_track_layout_idempotent LayoutScene.deref Scene.project Scene.side
              Scene.side (Scene.pane false LayoutScene.store) eq_refl) as (rs1 & H1 & H2).
  exists rs1. split; [apply H1|apply H2].
Defined.

(** ** The relaxation step *)

(** X14.  The relaxation does not push a box that no other box overlaps: the
    step that an iteration computes for it is zero, and the flag
    [anyOverlap] is left as it is. *)
Theorem X14_no_overlap_no_push (i : nat) (ls : LayoutState) (anyOverlap : bool) :
  (forall j pb, j <> i -> ls_bounds ls !! j = Some pb ->
                Overlaps (boundsAt ls i) pb = false) ->
  relaxStep i ls anyOverlap = (vzero, anyOverlap).
Proof.
  intros Hfree. unfold relaxStep.
  assert (forRange (repulse i (boundsAt ls i)) (ls_bounds ls) (vzero, anyOverlap)
          = (vzero, anyOverlap)) as ->.
  { apply (forRange_invariant (fun acc => acc = (vzero, anyOverlap))); [done|].
    intros j pb acc Hj ->. unfold repulse.
    destruct (decide (i = j)) as [->|Hne]; [by rewrite Nat.eqb_refl|].
    rewrite (Hfree j pb) by done. by rewrite orb_true_r. }
  by vm_compute.
Qed.

(** The box of [EZY4], alone. *)
Lemma X14_no_overlap_no_push_witness :
  relaxStep 0 LayoutScene.returning false = (vzero, false).
Proof.
  apply X14_no_overlap_no_push. intros j pb Hj Hpb.
  destruct j as [|j]; [done|]. by destruct j.
Defined.

(** ** The lines of miles in trail *)

Section MITLines.

Variable deref : AcPtr -> Aircraft.
Variable windowFromLatLongP : vec2 -> vec2.
Variables paneWidth paneHeight : float32.
Variable nmdistance2ll : vec2 -> vec2 -> float32.
Variable headingp2ll : vec2 -> vec2 -> float32 -> float32.
Variable headingDifference : float32 -> float32 -> float32.
Variable mid2ll : vec2 -> vec2 -> vec2.
Variable EstimatedFutureDistance : AcPtr -> AcPtr -> Z -> float32.
Variable MagneticVariation : float32.
Variable getDistanceSortedArrivals : gset string -> list Arrival.
Variable mit : list AcPtr.
Variable rs : RadarScopePane.

Local Abbreviation drawMIT' :=
  (drawMIT deref windowFromLatLongP paneWidth paneHeight nmdistance2ll headingp2ll
     headingDifference mid2ll EstimatedFutureDistance MagneticVariation
     getDistanceSortedArrivals mit rs).

Local Abbreviation lineBetween := (fun (p : AcPtr * AcPtr) =>
  let dist := nmdistance2ll (Position (deref p.1)) (Position (deref p.2)) in
  annotatedLine windowFromLatLongP paneWidth paneHeight mid2ll
    (Position (deref p.1)) (Position (deref p.2)) (severityOf dist)
    (dist, EstimatedFutureDistance p.1 p.2 30%Z) p).

(** The loop over the sequence from the index after [k], where the aircraft
    [prev] is. *)
Lemma sequenceMITStep_from (k : nat) (prev : AcPtr) (l : list AcPtr) (out : list MITLine) :
  mit !! k = Some prev ->
  (forall j, mit !! (S k + j) = l !! j) ->
  forRangeFrom
    (sequenceMITStep deref windowFromLatLongP paneWidth paneHeight nmdistance2ll mid2ll
       EstimatedFutureDistance mit rs) (S k) l out
  = out ++ (lineBetween <$> filter (fun p => p ∉ rangeWarnings rs) (zip (prev :: l) l)).
Proof.
  revert k prev out. induction l as [|t l IH]; intros k prev out Hprev Hrest.
  - simpl. by rewrite app_nil_r.
  - cbn [forRangeFrom]. rewrite (IH (S k) t).
    + unfold sequenceMITStep. rewrite Hprev. cbn [zip zip_with].
      rewrite filter_cons. destruct (bool_decide _) eqn:Hw.
      * apply bool_decide_eq_true in Hw. by rewrite decide_False by (by intros ?).
      * apply bool_decide_eq_false in Hw. rewrite decide_True by done.
        by rewrite fmap_cons, <- app_assoc.
    + specialize (Hrest 0). by rewrite Nat.add_0_r in Hrest.
    + intros j. specialize (Hrest (S j)). simpl in Hrest.
      by replace (S (S k) + j) with (S (k + S j)) by lia.
Qed.

(** X15.  With a sequence given, or with the automatic mode off, [drawMIT]
    draws one line for each two neighbours of the sequence that
    [rangeWarnings] does not hold, in the order of the sequence, from the
    aircraft in front to the one behind it, with their distance, its
    colour, and the distance estimated for 30 seconds later; nothing is
    drawn for a sequence of less than two aircraft. *)
Theorem X15_lines_of_a_sequence :
  AutoMIT rs && (length mit =? 0) = false ->
  let lines :=
    drawMIT deref windowFromLatLongP paneWidth paneHeight nmdistance2ll headingp2ll
      headingDifference mid2ll EstimatedFutureDistance MagneticVariation
      getDistanceSortedArrivals mit rs in
  lines = lineBetween <$> filter (fun p => p ∉ rangeWarnings rs) (zip mit (drop 1 mit))
  /\ length lines <= length mit - 1.
Proof.
  intros Hmode lines. subst lines.
  assert (drawMIT'
          = lineBetween <$> filter (fun p => p ∉ rangeWarnings rs) (zip mit (drop 1 mit)))
    as Heq.
  { unfold drawMIT. rewrite Hmode. unfold forRange.
    destruct mit as [|a l] eqn:Hmit; [done|]. cbn [forRangeFrom drop].
    rewrite <- Hmit. rewrite (sequenceMITStep_from 0 a l).
    - by rewrite Hmit.
    - by rewrite Hmit.
    - intros j. by rewrite Hmit. }
  split; [done|]. rewrite Heq, length_fmap.
  etransitivity; [apply length_filter|]. rewrite length_zip_with, length_drop. lia.
Qed.

Local Abbreviation arr := (getDistanceSortedArrivals (AutoMITAirports rs)).

Local Abbreviation distance ai aj :=
  (nmdistance2ll (Position (deref (arrivalAircraft ai)))
     (Position (deref (arrivalAircraft aj)))).

(** X16.  In the automatic mode, with no sequence given, every line that
    [drawMIT] draws starts at an arrival other than the first of the list
    and ends at the one that the search finds for it: another arrival to
    the same airport that passes [inTrail], less than 20 miles away and no
    farther than any other such arrival.  The text gives that distance and
    the one estimated for 30 seconds later, the colour is the one of the
    distance, and there are fewer lines than arrivals. *)
Theorem X16_lines_of_the_arrivals :
  AutoMIT rs = true -> mit = [] ->
  (forall line, line ∈ drawMIT' ->
   exists i ai j aj,
     arr !! i = Some ai /\ i <> 0 /\ arr !! j = Some aj
     /\ candidate deref headingp2ll headingDifference MagneticVariation i ai j aj = true
     /\ mitPair line = (arrivalAircraft ai, arrivalAircraft aj)
     /\ mitP0 line = Position (deref (arrivalAircraft ai))
     /\ mitP1 line = Position (deref (arrivalAircraft aj))
     /\ mitText line
        = (distance ai aj,
           EstimatedFutureDistance (arrivalAircraft aj) (arrivalAircraft ai) 30%Z)
     /\ mitColor line = severityOf (distance ai aj)
     /\ (distance ai aj <? #20)%f32 = true
     /\ forall k ak, arr !! k = Some ak ->
          candidate deref headingp2ll headingDifference MagneticVariation i ai k ak = true ->
          (distance ai ak <? distance ai aj)%f32 = false)
  /\ length drawMIT' <= length arr - 1.
Proof.
  intros Hauto Hmit. unfold drawMIT. rewrite Hauto, Hmit. cbn [length Nat.eqb andb].
  set (P := fun (n : nat) (out : list MITLine) =>
    (forall line, line ∈ out ->
       exists i ai j aj,
         arr !! i = Some ai /\ i <> 0 /\ arr !! j = Some aj
         /\ candidate deref headingp2ll headingDifference MagneticVariation i ai j aj = true
         /\ mitPair line = (arrivalAircraft ai, arrivalAircraft aj)
         /\ mitP0 line = Position (deref (arrivalAircraft ai))
         /\ mitP1 line = Position (deref (arrivalAircraft aj))
         /\ mitText line
            = (distance ai aj,
               EstimatedFutureDistance (arrivalAircraft aj) (arrivalAircraft ai) 30%Z)
         /\ mitColor line = severityOf (distance ai aj)
         /\ (distance ai aj <? #20)%f32 = true
         /\ forall k ak, arr !! k = Some ak ->
              candidate deref headingp2ll headingDifference MagneticVariation i ai k ak = true ->
              (distance ai ak <? distance ai aj)%f32 = false)
    /\ length out <= n - 1).
  assert (P (length arr)
            (forRange
               (autoMITStep deref windowFromLatLongP paneWidth paneHeight nmdistance2ll
                  headingp2ll headingDifference mid2ll EstimatedFutureDistance
                  MagneticVariation rs arr) arr [])) as [Hlines Hlen].
  { apply forRange_invariant_indexed.
    - split; [|simpl; lia]. intros l Hl. by apply elem_of_nil in Hl.
    - intros i ai out Hi [Hout Hlen]. unfold autoMITStep.
      destruct (i =? 0) eqn:Hi0; [split; [done|lia]|]. apply Nat.eqb_neq in Hi0.
      pose proof (search_nearest_candidate deref nmdistance2ll headingp2ll headingDifference
                    EstimatedFutureDistance MagneticVariation arr i ai) as Hsearch.
      destruct (search _ _ _ _ _ _ _ _ _) as [minDist [[closest estDist]|]];
        [|split; [done|lia]].
      destruct (bool_decide _); [split; [done|lia]|].
      destruct Hsearch as (j & Hj & Hcand & Hmin & H20 & Hest & Hnear).
      split; [|rewrite length_app; simpl; lia].
      intros l Hl. apply elem_of_app in Hl as [Hl|Hl]; [by apply Hout|].
      apply list_elem_of_singleton in Hl. subst l. simpl.
      exists i, ai, j, closest. subst minDist estDist. by repeat (split; [done|]). }
  split; [apply Hlines|done].
Qed.

End MITLines.

(** The sequence [AAL1], [BAW2], [DAL3], the automatic mode being off: two
    lines, from [AAL1] to [BAW2] and from [BAW2] to [DAL3]. *)
Lemma X15_lines_of_a_sequence_witness :
  mitPair
    <$> drawMIT MITScene.deref Scene.project Scene.side Scene.side MITScene.nmdistance2ll
          MITScene.headingp2ll MITScene.headingDifference MITScene.mid2ll
          MITScene.EstimatedFutureDistance (#0)%f32 MITScene.arrivals
          [1%positive; 2%positive; 3%positive] (MITScene.pane false ∅)
  = [(1%positive, 2%positive); (2%positive, 3%positive)].
Proof.
  destruct (X15_lines_of_a_sequence MITScene.deref Scene.project Scene.side Scene.side
              MITScene.nmdistance2ll MITScene.headingp2ll MITScene.headingDifference
              MITScene.mid2ll MITScene.EstimatedFutureDistance (#0)%f32 MITScene.arrivals
              [1%positive; 2%positive; 3%positive] (MITScene.pane false ∅) eq_refl)
    as [-> _].
  reflexivity.
Defined.

(** The three arrivals in the automatic mode: at most two lines. *)
Lemma X16_lines_of_the_arrivals_witness :
  length
    (drawMIT MITScene.deref Scene.project Scene.side Scene.side MITScene.nmdistance2ll
       MITScene.headingp2ll MITScene.headingDifference MITScene.mid2ll
       MITScene.EstimatedFutureDistance (#0)%f32 MITScene.arrivals []
       (MITScene.pane true ∅)) <= 2.
Proof.
  apply (X16_lines_of_the_arrivals MITScene.deref Scene.project Scene.side Scene.side
           MITScene.nmdistance2ll MITScene.headingp2ll MITScene.headingDifference
           MITScene.mid2ll MITScene.EstimatedFutureDistance (#0)%f32 MITScene.arrivals
           [] (MITScene.pane true ∅) eq_refl eq_refl).
Defined.

(** ** The warnings of a frame and the alerts of many *)

Lemma elem_of_addRangeWarnings (l : list RangeConflict) (m : gset AircraftPair)
    (a b : AcPtr) :
  (a, b) ∈ addRangeWarnings l m
  <-> ((a, b) ∈ m
       \/ exists w, w ∈ l /\ (conflictAircraft w = (a, b) \/ conflictAircraft w = (b, a))).
Proof.
  revert m. induction l as [|w l IH]; intros m; simpl.
  - split; [by left|]. intros [H|(w & Hw & _)]; [done|]. by apply elem_of_nil in Hw.
  - rewrite IH. rewrite !elem_of_union, !elem_of_singleton. split.
    + intros [[H|[H|H]]|(w' & Hw' & H)].
      * right. exists w. split; [by left|]. right. injection H as -> ->.
        by destruct (conflictAircraft w).
      * right. exists w. split; [by left|]. left. injection H as -> ->.
        by destruct (conflictAircraft w).
      * by left.
      * right. exists w'. split; [by right|done].
    + intros [H|(w' & Hw' & H)]; [left; right; by right|].
      apply elem_of_cons in Hw' as [->|Hw'].
      * left. destruct H as [H|H]; rewrite H; simpl; [right; by left|by left].
      * right. by exists w'.
Qed.

Section Frames.

Variable deref : AcPtr -> Aircraft.
Variable GetConflicts : list AcPtr -> list RangeLimits -> list RangeConflict * list RangeConflict.

Local Abbreviation frame := (drawRangeIndicators deref GetConflicts).

(** What a frame does to the time of the last alert. *)
Lemma drawRangeIndicators_last (rs : RadarScopePane) (clock : Z * Z) :
  ((frame rs clock).2 = []
   /\ lastRangeNotificationPlayed (frame rs clock).1 = lastRangeNotificationPlayed rs)
  \/ ((frame rs clock).2 = [AudioEventConflictAlert]
      /\ lastRangeNotificationPlayed (frame rs clock).1 = clock.2
      /\ (clock.1 - lastRangeNotificationPlayed rs > 3 * Second)%Z).
Proof.
  unfold drawRangeIndicators. destruct (negb (DrawRangeIndicators rs)); [by left|].
  destruct (GetConflicts _ _) as [warnings violations]. simpl.
  destruct (0 <? length violations); simpl; [|by left].
  rewrite timeSince_gt.
  destruct (Z.gtb_spec (clock.1 - lastRangeNotificationPlayed rs) (3 * Second));
    [right|by left].
  simpl. split; [done|]. split; [done|lia].
Qed.

Lemma drawRangeIndicatorsOver_last (rs : RadarScopePane) (clocks : list (Z * Z)) (t : Z) :
  (t <= lastRangeNotificationPlayed rs)%Z ->
  (forall c, c ∈ clocks -> (t <= c.2)%Z) ->
  (t <= lastRangeNotificationPlayed (drawRangeIndicatorsOver deref GetConflicts rs clocks).1)%Z.
Proof.
  unfold drawRangeIndicatorsOver. generalize (@nil AudioEvent).
  revert rs. induction clocks as [|c clocks IH]; intros rs events Hrs Hclocks; [done|].
  cbn [foldl fst snd].
  destruct (frame rs c) as [rs' ev] eqn:Hframe. apply IH.
  - destruct (drawRangeIndicators_last rs c) as [[_ Hl]|(_ & Hl & _)];
      rewrite Hframe in Hl; simpl in Hl; rewrite Hl; [done|].
    apply Hclocks. by left.
  - intros c' Hc'. apply Hclocks. by right.
Qed.

End Frames.

(** X17.  With range indicators on, the set [rangeWarnings] after a frame
    holds the pairs of the frame's warnings and violations, each in both
    orders, and no other pair, whatever it held before; the store and the
    ghost links are left alone. *)
Theorem X17_range_warnings_are_those_of_the_frame
    (deref : AcPtr -> Aircraft)
    (GetConflicts : list AcPtr -> list RangeLimits -> list RangeConflict * list RangeConflict)
    (rs : RadarScopePane) (clock : Z * Z) (warnings violations : list RangeConflict) :
  DrawRangeIndicators rs = true ->
  GetConflicts (rangeAircraft deref rs) (RangeLimitsTable rs) = (warnings, violations) ->
  let rs' := (drawRangeIndicators deref GetConflicts rs clock).1 in
  (forall a b,
     (a, b) ∈ rangeWarnings rs'
     <-> exists w, w ∈ warnings ++ violations
                   /\ (conflictAircraft w = (a, b) \/ conflictAircraft w = (b, a)))
  /\ aircraft rs' = aircraft rs
  /\ ghostAircraft rs' = ghostAircraft rs.
Proof.
  intros Hon Hc rs'. unfold rs'. rewrite (drawRangeIndicators_on _ _ _ _ _ _ Hon Hc).
  cbv zeta.
  assert (forall a b,
     (a, b) ∈ addRangeWarnings violations (addRangeWarnings warnings ∅)
     <-> exists w, w ∈ warnings ++ violations
                   /\ (conflictAircraft w = (a, b) \/ conflictAircraft w = (b, a))) as Hset.
  { intros a b. rewrite !elem_of_addRangeWarnings. split.
    - intros [[H|(w & Hw & H)]|(w & Hw & H)].
      + by apply elem_of_empty in H.
      + exists w. split; [|done]. apply elem_of_app. by left.
      + exists w. split; [|done]. apply elem_of_app. by right.
    - intros (w & Hw & H). apply elem_of_app in Hw as [Hw|Hw].
      + left. right. by exists w.
      + right. by exists w. }
  destruct (_ && _); simpl; (split; [exact Hset|by split]).
Qed.

Lemma X17_range_warnings_are_those_of_the_frame_witness :
  let rs' := (drawRangeIndicators MITScene.deref MITScene.oneWarning
                (MITScene.pane false {[(7%positive, 8%positive)]})
                (AlertScene.t0, AlertScene.t0)).1 in
  (1%positive, 2%positive) ∈ rangeWarnings rs'
  /\ (7%positive, 8%positive) ∉ rangeWarnings rs'.
Proof.
  cbv zeta.
  destruct (X17_range_warnings_are_those_of_the_frame MITScene.deref MITScene.oneWarning
              (MITScene.pane false {[(7%positive, 8%positive)]})
              (AlertScene.t0, AlertScene.t0)
              [mkConflict (2%positive, 1%positive) AlertScene.limits] [] eq_refl eq_refl)
    as [H _].
  split.
  - apply H. eexists. split; [by left|]. by right.
  - intros Hin. apply H in Hin as (w & Hw & Hp).
    apply list_elem_of_singleton in Hw as ->. by destruct Hp.
Defined.

(** X18.  Two alerts are never fired within three seconds of each other:
    when a frame fires an alert and a later frame fires the next, the clock
    has advanced by more than three seconds between the reading that the
    first frame stored and the reading that the later frame compared,
    whatever frames lie between them, as long as the clock does not run
    backwards. *)
Theorem X18_alerts_are_three_seconds_apart
    (deref : AcPtr -> Aircraft)
    (GetConflicts : list AcPtr -> list RangeLimits -> list RangeConflict * list RangeConflict)
    (rs : RadarScopePane) (c1 c2 : Z * Z) (between : list (Z * Z)) :
  (forall c, c ∈ between -> (c1.2 <= c.2)%Z) ->
  let rs1 := (drawRangeIndicators deref GetConflicts rs c1).1 in
  let rs2 := (drawRangeIndicatorsOver deref GetConflicts rs1 between).1 in
  (drawRangeIndicators deref GetConflicts rs c1).2 <> [] ->
  (drawRangeIndicators deref GetConflicts rs2 c2).2 <> [] ->
  (c2.1 - c1.2 > 3 * Second)%Z.
Proof.
  intros Hmono rs1 rs2 Hfirst Hsecond.
  assert (lastRangeNotificationPlayed rs1 = c1.2) as Hl1.
  { unfold rs1. destruct (drawRangeIndicators_last deref GetConflicts rs c1)
      as [[H _]|(_ & H & _)]; done. }
  assert (c1.2 <= lastRangeNotificationPlayed rs2)%Z as Hl2.
  { unfold rs2. apply drawRangeIndicatorsOver_last; [lia|done]. }
  destruct (drawRangeIndicators_last deref GetConflicts rs2 c2) as [[H _]|(_ & _ & H)];
    [done|lia].
Qed.

(** Violations in three frames, at [t0], one second later and four seconds
    later: the first and the third fire. *)
Lemma X18_alerts_are_three_seconds_apart_witness :
  (AlertScene.t0 + 4 * Second - AlertScene.t0 > 3 * Second)%Z.
Proof.
  apply (X18_alerts_are_three_seconds_apart AlertScene.deref AlertScene.twoViolations
           (AlertScene.pane 0) (AlertScene.t0, AlertScene.t0)
           (AlertScene.t0 + 4 * Second, AlertScene.t0 + 4 * Second)%Z
           [(AlertScene.t0 + 1 * Second, AlertScene.t0 + 1 * Second)%Z]).
  - intros c Hc. apply list_elem_of_singleton in Hc as ->. simpl. unfold Second. lia.
  - by vm_compute.
  - by vm_compute.
Defined.

(** ** The text of a range line *)

(** X19.  In the style of lines, every line drawn for a conflict joins the
    two aircraft of a warning or of a violation of the frame, and the
    altitude difference in its text is the difference of their altitudes in
    hundreds of feet, rounded to the nearest hundred, halves upwards: the
    same number whichever of the two aircraft comes first. *)
Theorem X19_range_line_text
    (deref : AcPtr -> Aircraft) (windowFromLatLongP : vec2 -> vec2)
    (pixelDistanceNm : float32) (nmdistance2ll : vec2 -> vec2 -> float32)
    (mid2ll : vec2 -> vec2 -> vec2)
    (warnings violations : list RangeConflict) (line : RangeLine) :
  line ∈ (rangeIndicatorDrawing deref windowFromLatLongP pixelDistanceNm nmdistance2ll
            mid2ll RangeIndicatorLine warnings violations).2 ->
  let a := (rangePair line).1 in
  let b := (rangePair line).2 in
  let d := Z.abs (Altitude (deref a) - Altitude (deref b)) in
  (exists w, w ∈ warnings ++ violations /\ conflictAircraft w = (a, b))
  /\ (100 * (rangeLineText line).2 - 50 <= d < 100 * (rangeLineText line).2 + 50)%Z
  /\ (rangeLineText line).2 = (rangeText deref nmdistance2ll b a).2.
Proof.
  unfold rangeIndicatorDrawing. simpl. intros Hline.
  assert (exists color w, w ∈ warnings ++ violations
            /\ line = rangeLine deref windowFromLatLongP nmdistance2ll mid2ll color w)
    as (color & w & Hw & ->).
  { apply elem_of_app in Hline as [H|H]; apply list_elem_of_fmap in H as (w & -> & Hw).
    - exists Caution, w. split; [|done]. apply elem_of_app. by left.
    - exists Error, w. split; [|done]. apply elem_of_app. by right. }
  cbv zeta. simpl. split; [|split].
  - exists w. split; [done|]. by destruct (conflictAircraft w).
  - pose proof (Z.quot_rem' (Z.abs (Altitude (deref (conflictAircraft w).1)
                                    - Altitude (deref (conflictAircraft w).2)) + 50) 100)
      as Hq.
    pose proof (Z.rem_bound_pos
                  (Z.abs (Altitude (deref (conflictAircraft w).1)
                          - Altitude (deref (conflictAircraft w).2)) + 50) 100) as Hr.
    lia.
  - f_equal. f_equal. lia.
Qed.

Lemma X19_range_line_text_witness :
  let line := rangeLine MITScene.deref Scene.project MITScene.nmdistance2ll MITScene.mid2ll
                Caution (mkConflict (2%positive, 1%positive) AlertScene.limits) in
  (rangeLineText line).2 = 0%Z
  /\ (rangeLineText line).2
     = (rangeText MITScene.deref MITScene.nmdistance2ll 1%positive 2%positive).2.
Proof.
  cbv zeta. split; [reflexivity|].
  apply (X19_range_line_text MITScene.deref Scene.project (#1)%f32 MITScene.nmdistance2ll
           MITScene.mid2ll [mkConflict (2%positive, 1%positive) AlertScene.limits] []).
  simpl. by left.
Defined.

(** ** Drawing the datablocks *)

(** X21.  [drawDatablocks] panics in one case only: the frequency of the
    flashing is zero and there is a datablock to draw.  For a frequency of
    at least one and a second of the minute, from 0 to 59 as
    [time.Now().Second()] gives it, the flash cycle is 0 or 1; it changes to
    the other value when the second advances by the frequency within the
    same minute, and it is 0 again when a minute begins, whatever it was at
    the end of the minute before. *)
Theorem X21_flash_cycle_alternates
    (deref : AcPtr -> Aircraft) (windowFromLatLongP latLongFromWindowP : vec2 -> vec2)
    (paneWidth paneHeight : float32) (selectedAircraft : option AcPtr)
    (InboundHandoffController OutboundHandoffController GetTrackingController
       : string -> string)
    (serverCallsign : string)
    (SortedMapKeysPred : gmap AcPtr AircraftScopeState -> (AcPtr -> AcPtr -> bool) -> list AcPtr)
    (formatDrawsLine : bool) (rs : RadarScopePane) (second frequency : Z) :
  (drawDatablocks deref windowFromLatLongP latLongFromWindowP paneWidth paneHeight
     selectedAircraft InboundHandoffController OutboundHandoffController
     GetTrackingController serverCallsign SortedMapKeysPred frequency
     formatDrawsLine rs second = None
   <-> (frequency = 0%Z
        /\ exists ac,
             ac ∈ SortedMapKeysPred (aircraft rs) (drawnBefore deref selectedAircraft)
             /\ datablockDrawn deref windowFromLatLongP paneWidth paneHeight rs ac = true))
  /\ ((1 <= frequency)%Z -> (0 <= second <= 59)%Z ->
      exists c, flashCycle second frequency = Some c
                /\ (c = 0 \/ c = 1)%Z
                /\ ((second + frequency <= 59)%Z ->
                    flashCycle (second + frequency) frequency = Some (1 - c)%Z)
                /\ flashCycle 0 frequency = Some 0%Z).
Proof.
  split.
  - unfold drawDatablocks.
    destruct (filter _ _) as [|ac l] eqn:Hdrawn.
    + split; [done|]. intros (_ & ac & Hin & Hd).
      assert (ac ∈ filter
                (fun ac => datablockDrawn deref windowFromLatLongP paneWidth paneHeight
                             rs ac = true)
                (SortedMapKeysPred (aircraft rs) (drawnBefore deref selectedAircraft)))
        as Hac by (by apply list_elem_of_filter).
      rewrite Hdrawn in Hac. by apply elem_of_nil in Hac.
    + assert (ac ∈ filter
                (fun ac => datablockDrawn deref windowFromLatLongP paneWidth paneHeight
                             rs ac = true)
                (SortedMapKeysPred (aircraft rs) (drawnBefore deref selectedAircraft)))
        as Hac by (rewrite Hdrawn; by left).
      apply list_elem_of_filter in Hac as [Hd Hin].
      unfold flashCycle. destruct (Z.eqb_spec frequency 0) as [->|Hne]; simpl.
      * split; [|done]. intros _. split; [done|]. by exists ac.
      * split; [done|]. by intros [? _].
  - intros Hfreq Hsec.
    assert (forall s, flashCycle s frequency = Some (Z.land (s ÷ frequency) 1)) as Hcycle.
    { intros s. unfold flashCycle. destruct (Z.eqb_spec frequency 0); [lia|done]. }
    rewrite !Hcycle.
    assert (forall n, Z.land n 1 = n mod 2)%Z as Hland.
    { intros n. change 1%Z with (Z.ones 1). by rewrite Z.land_ones by lia. }
    rewrite !Hland. exists ((second ÷ frequency) mod 2)%Z. split; [done|].
    assert ((second + frequency) ÷ frequency = second ÷ frequency + 1)%Z as ->.
    { rewrite !Z.quot_div_nonneg by lia.
      replace (second + frequency)%Z with (second + 1 * frequency)%Z by lia.
      rewrite Z.div_add by lia. done. }
    pose proof (Z.mod_pos_bound (second ÷ frequency) 2 ltac:(lia)) as Hb.
    split; [lia|]. split; [|by rewrite Z.quot_0_l by lia].
    intros _. f_equal.
    rewrite <- Zplus_mod_idemp_l.
    destruct (decide ((second ÷ frequency) mod 2 = 0)%Z) as [->| Hne]; [done|].
    assert ((second ÷ frequency) mod 2 = 1)%Z as -> by lia. done.
Qed.

Lemma X21_flash_cycle_alternates_witness :
  flashCycle 7 3 = Some 0%Z /\ flashCycle 10 3 = Some 1%Z.
Proof.
  destruct (X21_flash_cycle_alternates LayoutScene.deref Scene.project Scene.project
              Scene.side Scene.side None TextScene.noController TextScene.noController
              TextScene.noController "ME"%string (fun m _ => (map_to_list m).*1) true
              (Scene.pane false LayoutScene.store) 7 3) as [_ H].
  destruct H as (c & H1 & _ & H3 & _); [lia|lia|].
  assert (c = 0%Z) as -> by (vm_compute in H1; congruence).
  split; [exact H1|apply H3; lia].
Defined.

Section DrawOrder.

Variable deref : AcPtr -> Aircraft.
Variable selectedAircraft : option AcPtr.

Local Abbreviation before := (drawnBefore deref selectedAircraft).

Lemma String_ltb_irrefl (a : string) : String.ltb a a = false.
Proof.
  destruct (String.ltb a a) eqn:H; [|done]. by rewrite (String_ltb_asym a a H) in H.
Qed.

(** X22.  The predicate that sorts the aircraft for drawing is one that a
    sort can work with, a strict order whose ties are transitive, and it
    puts the selected aircraft after every other one. *)
Theorem X22_draw_order (a b c : AcPtr) :
  before a a = false
  /\ (before a b = true -> before b a = false)
  /\ (before a b = true -> before b c = true -> before a c = true)
  /\ (before a b = false -> before b a = false ->
      before b c = false -> before c b = false ->
      before a c = false /\ before c a = false)
  /\ (selectedAircraft = Some b -> a <> b -> before a b = true /\ before b a = false).
Proof.
  unfold drawnBefore.
  split; [|split; [|split; [|split]]].
  - rewrite eqb_reflx. apply String_ltb_irrefl.
  - destruct (bool_decide (Some a = selectedAircraft)) eqn:Ha,
      (bool_decide (Some b = selectedAircraft)) eqn:Hb; simpl; try done;
      apply String_ltb_asym.
  - destruct (bool_decide (Some a = selectedAircraft)) eqn:Ha,
      (bool_decide (Some b = selectedAircraft)) eqn:Hb,
      (bool_decide (Some c = selectedAircraft)) eqn:Hc; simpl; try done;
      apply String_ltb_trans.
  - destruct (bool_decide (Some a = selectedAircraft)) eqn:Ha,
      (bool_decide (Some b = selectedAircraft)) eqn:Hb,
      (bool_decide (Some c = selectedAircraft)) eqn:Hc; simpl; try done;
      intros H1 H2 H3 H4;
      rewrite (String_ltb_total _ _ H1 H2), (String_ltb_total _ _ H3 H4);
      by rewrite String_ltb_irrefl.
  - intros Hsel Hne. rewrite (bool_decide_eq_true_2 (Some b = selectedAircraft)) by done.
    rewrite (bool_decide_eq_false_2 (Some a = selectedAircraft)) by congruence.
    done.
Qed.

End DrawOrder.

(** ** The mouse *)

(** A number that compares equal to zero and that adding zero leaves as it
    is, is the positive zero. *)
Lemma SFadd_zero_keeps (x : float32) :
  (x ==? F32.zero)%f32 = true -> (x + F32.zero)%f32 = x -> x = F32.zero.
Proof. destruct x as [[]|[]| |[] m e]; done. Qed.

Section Mouse.

Variable deref : AcPtr -> Aircraft.
Variable windowFromLatLongP : vec2 -> vec2.
Variable distance2f : vec2 -> vec2 -> float32.
Variable Inside : Extent2D -> vec2 -> bool.
Variables visitTracks visitDatablocks : list AcPtr.

Local Abbreviation consume :=
  (consumeMouseEvents deref windowFromLatLongP distance2f Inside visitTracks visitDatablocks).

Local Abbreviation trackDistance mouse ac :=
  (distance2f (windowFromLatLongP (Position (deref ac))) (mousePos mouse)).

Lemma acSelectedByDatablock_dragMeasuringLine (ms : ScopeMouse) (mouse : MouseState) :
  acSelectedByDatablock (dragMeasuringLine ms mouse) = acSelectedByDatablock ms.
Proof.
  unfold dragMeasuringLine. destruct (_ && _); [done|].
  by destruct (primaryButtonDoubleClicked ms).
Qed.

(** X23.  [consumeMouseEvents] panics in one case only: the datablock of an
    aircraft is being dragged and the store does not hold that aircraft.
    This is where a remove event leads that arrives for the aircraft while
    its datablock is dragged, the events of a frame being processed before
    its mouse. *)
Theorem X23_mouse_fails_for_a_dragged_aircraft_that_left
    (rs : RadarScopePane) (ms : ScopeMouse) (mouse : option MouseState) :
  (consume rs ms mouse = None
   <-> exists m ac,
         mouse = Some m /\ acSelectedByDatablock ms = Some ac
         /\ draggingPrimary m = true /\ aircraft rs !! ac = None)
  /\ (forall m ac ghost,
        mouse = Some m -> acSelectedByDatablock ms = Some ac -> draggingPrimary m = true ->
        consume (processEvent rs (RemovedAircraftEvent ac, ghost)) ms mouse = None).
Proof.
  assert (forall rs0,
            consume rs0 ms mouse = None
            <-> exists m ac,
                  mouse = Some m /\ acSelectedByDatablock ms = Some ac
                  /\ draggingPrimary m = true /\ aircraft rs0 !! ac = None) as Hfail.
  { intros rs0. unfold consumeMouseEvents. destruct mouse as [m|].
    2:{ split; [done|]. by intros (m & ac & ? & _). }
    unfold dragDatablock. rewrite acSelectedByDatablock_dragMeasuringLine.
    destruct (acSelectedByDatablock ms) as [ac|] eqn:Hsel.
    2:{ split; [|by intros (m' & ac & _ & ? & _)].
        destruct (clickedPrimary m); [|done]. by destruct (datablockHit _ _ _ _ _ _). }
    destruct (draggingPrimary m) eqn:Hdrag.
    2:{ split; [|by intros (m' & ac' & [= <-] & _ & ? & _); congruence].
        destruct (clickedPrimary m); [|done]. by destruct (datablockHit _ _ _ _ _ _). }
    destruct (aircraft rs0 !! ac) as [s|] eqn:Hs.
    - split; [|by intros (m' & ac' & _ & [= <-] & _ & ?); congruence].
      destruct (clickedPrimary m); [|done]. by destruct (datablockHit _ _ _ _ _ _).
    - split; [|done]. intros _. by exists m, ac. }
  split; [apply Hfail|].
  intros m ac ghost Hm Hsel Hdrag. apply Hfail. exists m, ac.
  repeat (split; [done|]). cbn [processEvent].
  destruct (ghostAircraft rs !! ac); simpl; apply lookup_delete_eq.
Qed.

(** X24.  Dragging the datablock of a tracked aircraft, with no click in
    the frame, moves its automatic offset into the manual one: the manual
    offset becomes the sum of the automatic offset, the manual offset and
    the drag, the automatic offset becomes zero, nothing else changes and
    no event is posted.  When the drag begins, with no manual offset and no
    movement yet, the box stays where it is (for an automatic offset that
    adding zero leaves as it is). *)
Theorem X24_drag_moves_the_offset_to_manual
    (rs : RadarScopePane) (ms : ScopeMouse) (m : MouseState)
    (ac : AcPtr) (s : AircraftScopeState) :
  acSelectedByDatablock ms = Some ac ->
  aircraft rs !! ac = Some s ->
  draggingPrimary m = true ->
  clickedPrimary m = false ->
  let s' := dragged (dragDelta m) s in
  (exists ms',
     consume rs ms (Some m) = Some (setAircraft (<[ac := s']> (aircraft rs)) rs, ms', [])
     /\ acSelectedByDatablock ms' = Some ac)
  /\ datablockAutomaticOffset s' = vzero
  /\ datablockManualOffset s'
     = add2f (datablockAutomaticOffset s) (add2f (datablockManualOffset s) (dragDelta m))
  /\ (datablockManualOffset s = vzero -> dragDelta m = vzero ->
      add2f (datablockAutomaticOffset s) vzero = datablockAutomaticOffset s ->
      datablockManualOffset s' = datablockAutomaticOffset s
      /\ forall p, WindowDatablockBounds s' p = WindowDatablockBounds s p).
Proof.
  intros Hsel Hs Hdrag Hclick s'. split; [|split; [done|split; [done|]]].
  - unfold consumeMouseEvents, dragDatablock.
    rewrite acSelectedByDatablock_dragMeasuringLine, Hsel, Hdrag, Hs, Hclick.
    eexists. split; [done|].
    destruct (doubleClickedPrimary m); simpl;
      by rewrite acSelectedByDatablock_dragMeasuringLine.
  - intros Hman Hdelta Hzero.
    assert (datablockManualOffset s' = datablockAutomaticOffset s) as Hm'.
    { unfold s', dragged. simpl. rewrite Hman, Hdelta.
      by change (add2f vzero vzero) with vzero. }
    split; [done|]. intros p. unfold WindowDatablockBounds, hasManualOffset.
    rewrite Hm', Hman. change (nonzero2f vzero) with false. cbv iota.
    destruct (nonzero2f (datablockAutomaticOffset s)) eqn:Hnz; [done|].
    change (datablockAutomaticOffset s') with vzero. change (datablockBounds s')
      with (datablockBounds s). f_equal.
    destruct (datablockAutomaticOffset s) as [x y]. unfold nonzero2f in Hnz.
    simpl in Hnz. apply orb_false_iff in Hnz as [Hx Hy].
    apply negb_false_iff in Hx, Hy.
    unfold add2f in Hzero. simpl in Hzero. injection Hzero as Hx0 Hy0.
    by rewrite (SFadd_zero_keeps x Hx Hx0), (SFadd_zero_keeps y Hy Hy0).
Qed.

(** What the loop over the tracks returns when it starts with [st]: no
    track of the list is nearer than the distance returned, and the
    aircraft returned, if the loop has found one, is of the list, at that
    distance. *)
Lemma nearestTrack_fold (mouse : MouseState) (l : list AcPtr) (st : option AcPtr * float32) :
  let res :=
    foldl (fun (st : option AcPtr * float32) ac =>
             if (trackDistance mouse ac <? st.2)%f32
             then (Some ac, trackDistance mouse ac) else st) st l in
  (forall ac, ac ∈ l -> (trackDistance mouse ac <? res.2)%f32 = false)
  /\ (res = st
      \/ exists ac, ac ∈ l /\ res = (Some ac, trackDistance mouse ac)
                    /\ (trackDistance mouse ac <? st.2)%f32 = true).
Proof.
  cbv zeta. revert st. induction l as [|a l IH]; intros st.
  - simpl. split; [|by left]. intros ac Hac. by apply elem_of_nil in Hac.
  - cbn [foldl]. set (st' := if (_ <? _)%f32 then _ else st).
    destruct (IH st') as [Hnear Hres]. clear IH.
    set (res := foldl _ st' l) in *. clearbody res.
    assert (forall x y, (x <? y)%f32 = true -> (y <? x)%f32 = false) as Hasym.
    { intros x y Hxy. destruct (y <? x)%f32 eqn:Hyx; [|done].
      by rewrite <- (ltb_irrefl x), (ltb_trans x y x Hxy Hyx). }
    destruct (trackDistance mouse a <? st.2)%f32 eqn:Hlt; subst st'.
    + destruct Hres as [->|(ac & Hac & -> & Hd)]; simpl in *.
      * split.
        -- intros ac Hac. apply elem_of_cons in Hac as [->|Hac];
             [apply ltb_irrefl|by apply Hnear].
        -- right. exists a. split; [by left|done].
      * split.
        -- intros ac' Hac'. apply elem_of_cons in Hac' as [->|Hac'];
             [by apply Hasym|by apply Hnear].
        -- right. exists ac. split; [by right|]. split; [done|].
           by apply ltb_trans with (trackDistance mouse a).
    + destruct Hres as [->|(ac & Hac & -> & Hd)]; simpl in *.
      * split; [|by left].
        intros ac Hac. apply elem_of_cons in Hac as [->|Hac]; [done|by apply Hnear].
      * split.
        -- intros ac' Hac'. apply elem_of_cons in Hac' as [->|Hac']; [|by apply Hnear].
           destruct (trackDistance mouse a <? trackDistance mouse ac)%f32 eqn:Hc; [|done].
           by rewrite (ltb_trans _ _ _ Hc Hd) in Hlt.
        -- right. exists ac. split; [by right|done].
Qed.

(** X25.  A click with the primary button, no datablock being dragged:
    when the mouse is in the datablock of an aircraft that is not skipped,
    the first such aircraft visited is selected, for dragging too, whatever
    tracks are near; otherwise the aircraft selected is one whose track is
    less than 20 pixels from the mouse and none of whose fellows is nearer,
    skipped or not, and none is selected when no track is that near.  The
    store is left alone. *)
Theorem X25_click_selects
    (rs : RadarScopePane) (ms : ScopeMouse) (m : MouseState) :
  acSelectedByDatablock ms = None ->
  clickedPrimary m = true ->
  exists ms' posted,
    consume rs ms (Some m) = Some (rs, ms', posted)
    /\ (forall ac,
          datablockHit deref windowFromLatLongP Inside visitDatablocks rs m = Some ac ->
          posted = [ac] /\ acSelectedByDatablock ms' = Some ac
          /\ ac ∈ visitDatablocks /\ filteredOut deref rs ac = false
          /\ Inside (WindowDatablockBounds (default newScopeState (aircraft rs !! ac))
                       (windowFromLatLongP (Position (deref ac)))) (mousePos m) = true)
    /\ (datablockHit deref windowFromLatLongP Inside visitDatablocks rs m = None ->
        acSelectedByDatablock ms' = None
        /\ (forall ac, ac ∈ visitDatablocks -> filteredOut deref rs ac = false ->
              Inside (WindowDatablockBounds (default newScopeState (aircraft rs !! ac))
                        (windowFromLatLongP (Position (deref ac)))) (mousePos m) = false)
        /\ ((posted = []
             /\ forall ac, ac ∈ visitTracks -> (trackDistance m ac <? #20)%f32 = false)
            \/ exists ac,
                 posted = [ac] /\ ac ∈ visitTracks
                 /\ (trackDistance m ac <? #20)%f32 = true
                 /\ forall ac', ac' ∈ visitTracks ->
                      (trackDistance m ac' <? trackDistance m ac)%f32 = false)).
Proof.
  intros Hsel Hclick. unfold consumeMouseEvents, dragDatablock.
  rewrite acSelectedByDatablock_dragMeasuringLine, Hsel, Hclick.
  set (ms1 := if doubleClickedPrimary m then _ else _).
  assert (acSelectedByDatablock ms1 = None) as Hsel1.
  { unfold ms1. destruct (doubleClickedPrimary m); simpl;
      by rewrite acSelectedByDatablock_dragMeasuringLine. }
  clearbody ms1.
  destruct (datablockHit deref windowFromLatLongP Inside visitDatablocks rs m)
    as [hit|] eqn:Hhit.
  - eexists _, _. split; [done|]. split; [|done]. intros ac [= <-].
    split; [done|]. split; [done|].
    unfold datablockHit in Hhit. apply head_Some_elem_of in Hhit.
    apply list_elem_of_filter in Hhit as [Hp Hin]. split; [done|].
    apply andb_true_iff in Hp as [Hf Hi]. by apply negb_true_iff in Hf.
  - eexists _, _. split; [done|]. split; [done|]. intros _. split; [done|]. split.
    + intros ac Hac Hf. unfold datablockHit in Hhit. apply head_None in Hhit.
      destruct (Inside _ _) eqn:Hi; [|done].
      assert (ac ∈ filter (fun ac =>
                negb (filteredOut deref rs ac)
                && Inside (WindowDatablockBounds (default newScopeState (aircraft rs !! ac))
                             (windowFromLatLongP (Position (deref ac)))) (mousePos m) = true)
              visitDatablocks) as Hin.
      { apply list_elem_of_filter. split; [|done]. by rewrite Hf, Hi. }
      rewrite Hhit in Hin. by apply elem_of_nil in Hin.
    + unfold nearestTrack.
      destruct (nearestTrack_fold m visitTracks (None, (#20)%f32)) as [Hnear Hres].
      cbv zeta in Hnear, Hres.
      destruct Hres as [Hres|(ac & Hac & Hres & Hd)]; rewrite Hres in Hnear |- *; simpl in *.
      * by left.
      * right. by exists ac.
Qed.

End Mouse.

(** [AAL1], tracked with the automatic offset (3,4) and the manual offset
    (10,10), is dragged by (2,0). *)
Lemma X24_drag_moves_the_offset_to_manual_witness :
  datablockManualOffset (dragged (#2, #0)%f32 StoreScene.tracked) = (#15, #14)%f32
  /\ exists ms',
       consumeMouseEvents LayoutScene.deref Scene.project MouseScene.distance2f
         MouseScene.Inside [1%positive; 9%positive] [1%positive; 9%positive]
         StoreScene.pane MouseScene.dragging (Some MouseScene.drag)
       = Some (setAircraft (<[1%positive := dragged (#2, #0)%f32 StoreScene.tracked]>
                              (aircraft StoreScene.pane)) StoreScene.pane, ms', [])
       /\ acSelectedByDatablock ms' = Some 1%positive.
Proof.
  destruct (X24_drag_moves_the_offset_to_manual LayoutScene.deref Scene.project
              MouseScene.distance2f MouseScene.Inside [1%positive; 9%positive]
              [1%positive; 9%positive] StoreScene.pane MouseScene.dragging MouseScene.drag
              1%positive StoreScene.tracked eq_refl eq_refl eq_refl eq_refl)
    as (H1 & _ & H3 & _).
  split; [|exact H1]. etransitivity; [exact H3|]. by vm_compute.
Defined.

(** A click three pixels from the tracks of [AAL1] and [BAW2], which are on
    the same spot: the first of them visited is selected. *)
Lemma X25_click_selects_witness :
  exists ms',
    consumeMouseEvents LayoutScene.deref Scene.project MouseScene.distance2f
      MouseScene.Inside [1%positive; 2%positive] [1%positive; 2%positive]
      (Scene.pane false LayoutScene.store) MouseScene.idle (Some MouseScene.click)
    = Some (Scene.pane false LayoutScene.store, ms', [1%positive]).
Proof.
  destruct (X25_click_selects LayoutScene.deref Scene.project MouseScene.distance2f
              MouseScene.Inside [1%positive; 2%positive] [1%positive; 2%positive]
              (Scene.pane false LayoutScene.store) MouseScene.idle MouseScene.click
              eq_refl eq_refl) as (ms' & posted & H & _).
  exists ms'. rewrite H.
  assert (posted = [1%positive]) as ->; [|reflexivity].
  vm_compute in H. by injection H as _ <-.
Defined.

(** ** The measuring line *)

(** X26.  The label of the measuring line, for a heading that rounds to a
    number from 0 to 360: the heading shown is from 1 to 360, north being
    shown as 360 and never as 0, and the reciprocal shown is from 1 to 360
    as well and 180 away from the heading. *)
Theorem X26_measuring_line_headings (heading : float32) :
  let rounded := intOfFloat32 (heading + #1 / #2)%f32 in
  let hdg := (headingLabel heading).1 in
  let rhdg := (headingLabel heading).2 in
  (0 <= rounded <= 360)%Z ->
  (1 <= hdg <= 360)%Z
  /\ (1 <= rhdg <= 360)%Z
  /\ (hdg = if decide (rounded = 0%Z) then 360%Z else rounded)
  /\ (rhdg = if decide (hdg <= 180)%Z then (hdg + 180)%Z else (hdg - 180)%Z).
Proof.
  cbv zeta. unfold headingLabel.
  set (rounded := intOfFloat32 _). clearbody rounded. intros Hr. cbn [fst snd].
  destruct (Z.eqb_spec rounded 0) as [->|Hne]; simpl.
  - repeat split; lia.
  - rewrite Z.gtb_ltb. destruct (Z.ltb_spec 360 (rounded + 180));
      destruct (decide (rounded = 0%Z)); destruct (decide (rounded <= 180)%Z);
      repeat split; lia.
Qed.

(** From a point to one north of it, and back. *)
Lemma X26_measuring_line_headings_witness :
  headingLabel (MITScene.headingp2ll (#0, #0)%f32 (#0, #5)%f32 (#0)%f32) = (360, 180)%Z
  /\ (1 <= (headingLabel (MITScene.headingp2ll (#0, #5)%f32 (#0, #0)%f32 (#0)%f32)).2
      <= 360)%Z.
Proof.
  split; [reflexivity|].
  apply (X26_measuring_line_headings
           (MITScene.headingp2ll (#0, #5)%f32 (#0, #0)%f32 (#0)%f32)).
  by vm_compute.
Defined.

(** ** The route drawn *)

Section Route.

Variable Locate : string -> option vec2.
Variable IsZero : vec2 -> bool.

Hypothesis located_not_zero :
  forall w p, Locate w = Some p -> IsZero p = false.

Lemma routeStep_from (l : list string) (prev : vec2) (out : list (vec2 * vec2)) :
  IsZero prev = false ->
  (foldl (routeStep Locate IsZero) (prev, out) l).2
  = out ++ zip (prev :: omap Locate l) (omap Locate l).
Proof.
  revert prev out. induction l as [|w l IH]; intros prev out Hprev.
  - simpl. by rewrite app_nil_r.
  - cbn [foldl]. unfold routeStep at 2. cbn [omap list_omap].
    destruct (Locate w) as [p|] eqn:Hw.
    + simpl. rewrite Hprev. simpl. rewrite IH by (by apply (located_not_zero w)).
      by rewrite <- app_assoc.
    + by apply IH.
Qed.

Lemma routeStep_start (l : list string) (prev : vec2) :
  IsZero prev = true ->
  (foldl (routeStep Locate IsZero) (prev, []) l).2
  = zip (omap Locate l) (drop 1 (omap Locate l)).
Proof.
  intros Hprev. induction l as [|w l IH]; [done|].
  cbn [foldl]. unfold routeStep at 2. cbn [omap list_omap].
  destruct (Locate w) as [p|] eqn:Hw; [|done].
  simpl. rewrite Hprev. simpl. by rewrite routeStep_from by (by apply (located_not_zero w)).
Qed.

End Route.

(** X27.  [drawRoute] draws nothing when the time of the route is over.
    Otherwise it joins the waypoints that the database knows, in the order
    of the route, each to the next, so that the lines form one chain; a
    name that the database does not know is passed over and makes no gap.
    (No fix is at the zero position, which the code takes for "no waypoint
    yet".) *)
Theorem X27_route_is_a_chain
    (Locate : string -> option vec2) (IsZero : vec2 -> bool)
    (remaining : Z) (waypoints : list string) :
  IsZero vzero = true ->
  (forall w p, Locate w = Some p -> IsZero p = false) ->
  let located := omap Locate waypoints in
  ((remaining < 0)%Z -> drawRoute Locate IsZero remaining waypoints = [])
  /\ ((0 <= remaining)%Z ->
      drawRoute Locate IsZero remaining waypoints = zip located (drop 1 located)
      /\ drawRoute Locate IsZero remaining waypoints
         = drawRoute Locate IsZero remaining
             (filter (fun w => is_Some (Locate w)) waypoints)).
Proof.
  intros Hzero Hloc located. unfold drawRoute. split.
  - intros Hr. by destruct (Z.ltb_spec remaining 0); [|lia].
  - intros Hr. destruct (Z.ltb_spec remaining 0); [lia|].
    rewrite !(routeStep_start Locate IsZero Hloc) by done. split; [done|].
    assert (omap Locate (filter (fun w => is_Some (Locate w)) waypoints)
            = omap Locate waypoints) as ->; [|done].
    clear. induction waypoints as [|w l IH]; [done|].
    rewrite filter_cons. cbn [omap list_omap]. destruct (Locate w) as [p|] eqn:Hw.
    + rewrite decide_True by (by eexists). cbn [omap list_omap]. by rewrite Hw, IH.
    + rewrite decide_False by (by intros [? ?]). exact IH.
Qed.

(** The route MERIT, an airway, HFD, PUT. *)
Lemma X27_route_is_a_chain_witness :
  drawRoute RouteScene.Locate RouteScene.IsZero 5
    ["MERIT"%string; "V1"%string; "HFD"%string; "PUT"%string]
  = [((#1, #1)%f32, (#2, #2)%f32); ((#2, #2)%f32, (#3, #3)%f32)].
Proof.
  destruct (X27_route_is_a_chain RouteScene.Locate RouteScene.IsZero 5
              ["MERIT"%string; "V1"%string; "HFD"%string; "PUT"%string]) as [_ H].
  - reflexivity.
  - intros w p. unfold RouteScene.Locate.
    repeat (destruct (String.eqb w _); [by intros [= <-]|]). done.
  - destruct H as [-> _]; [lia|]. reflexivity.
Defined.

(** ** The ghost links of a duplicate *)

(** X28.  In the duplicate of a pane whose tracked aircraft are allocated
    objects, every ghost link leads to a new aircraft object for which the
    duplicate holds no scope state: the states that the duplicate has are
    filed under the aircraft of the original, its ghosts included.  The
    duplicate has no point outs, and the name of the original, with
    " Copy" appended when asked for. *)
Theorem X28_duplicate_ghost_links_lead_nowhere
    (h : Dup.Heap) (rs : Dup.Pane) (nameAsCopy : bool) :
  (forall ac, is_Some (Dup.aircraft rs !! ac) -> is_Some (Dup.objects h !! ac)) ->
  let d := (Dup.Duplicate h rs nameAsCopy).2 in
  (forall ac g', Dup.ghostAircraft d !! ac = Some g' -> Dup.aircraft d !! g' = None)
  /\ Dup.pointedOutAircraft d = ∅
  /\ Dup.ScopeName d
     = (if nameAsCopy then String.append (Dup.ScopeName rs) " Copy" else Dup.ScopeName rs).
Proof.
  intros Halloc. cbv zeta. unfold Dup.Duplicate.
  pose proof (copyTracked_fold h (Dup.aircraft rs)) as HT.
  pose proof (copyGhost_fold h (Dup.ghostAircraft rs)) as HG.
  cbv zeta in HT, HG.
  destruct (map_fold (Dup.copyTracked h) _ _) as [S' A'].
  destruct (map_fold (Dup.copyGhost h) _ _) as [O' G'].
  simpl in *.
  destruct HT as (_ & Hdom & _). destruct HG as (_ & _ & Gnew).
  split; [|done]. intros ac g' Hg'.
  destruct (Gnew ac g' Hg') as (Hfresh & _).
  apply Hdom. destruct (Dup.aircraft rs !! g') as [p|] eqn:Hp; [|done].
  destruct (Halloc g' ltac:(by eexists)) as [a Ha].
  exfalso. apply Hfresh. apply elem_of_dom. by eexists.
Qed.

Lemma X28_duplicate_ghost_links_lead_nowhere_witness :
  let d := (Dup.Duplicate StoreScene.heap StoreScene.refs true).2 in
  Dup.ghostAircraft d !! 1%positive = Some 10%positive
  /\ Dup.aircraft d !! 10%positive = None.
Proof.
  cbv zeta. split; [reflexivity|].
  destruct (X28_duplicate_ghost_links_lead_nowhere StoreScene.heap StoreScene.refs true)
    as [H _].
  - intros ac [p Hp]. unfold StoreScene.refs in Hp. simpl in Hp.
    apply lookup_insert_Some in Hp as [[<- _]|[_ Hp]]; [by vm_compute; eexists|].
    apply lookup_insert_Some in Hp as [[<- _]|[_ Hp]]; [by vm_compute; eexists|done].
  - apply (H 1%positive). reflexivity.
Defined.

(** ** A frame *)

(** The ghosts stay in agreement when the links and the ghost flags stay. *)
Lemma ghostsConsistent_flags (rs rs' : RadarScopePane) :
  ghostAircraft rs' = ghostAircraft rs ->
  (forall ac, isGhost <$> aircraft rs' !! ac = isGhost <$> aircraft rs !! ac) ->
  ghostsConsistent rs -> ghostsConsistent rs'.
Proof.
  intros Hg Hfl (Ha & Hb & Hc). unfold ghostsConsistent. rewrite Hg.
  split; [|split; [|done]].
  - intros ac g Hl. destruct (Ha ac g Hl) as (s & Hs & Hgs).
    specialize (Hfl g). rewrite Hs in Hfl. simpl in Hfl.
    destruct (aircraft rs' !! g) as [s'|]; [|done]. exists s'. split; [done|].
    simpl in Hfl. congruence.
  - intros g s' Hs' Hgs'. specialize (Hfl g). rewrite Hs' in Hfl. simpl in Hfl.
    destruct (aircraft rs !! g) as [s|] eqn:Hs; [|done]. apply (Hb g s Hs).
    simpl in Hfl. congruence.
Qed.

Lemma processEvents_consistent (events : list (Event * option AcPtr)) (rs : RadarScopePane) :
  ghostsConsistent rs -> eventsFit rs events -> ghostsConsistent (processEvents rs events).
Proof.
  revert rs. induction events as [|ev events IH]; intros rs Hcons Hfit; [done|].
  destruct Hfit as [Hev Hrest]. unfold processEvents. simpl.
  apply IH; [|done]. by apply processEvent_consistent.
Qed.

(** An event that spares [ac] leaves its ghost flag and its manual offset
    as they are, and makes it no ghost. *)
Lemma processEvent_spares (rs : RadarScopePane) (ev : Event * option AcPtr)
    (ac : AcPtr) (s : AircraftScopeState) :
  notGhost rs ac -> eventSpares ac ev -> aircraft rs !! ac = Some s ->
  notGhost (processEvent rs ev) ac
  /\ exists s', aircraft (processEvent rs ev) !! ac = Some s' /\ keptPart s' = keptPart s.
Proof.
  intros Hng [Hgh Hev] Hs. destruct ev as [[x|x|x|x c] ghost]; cbn [fst snd] in *.
  - cbn [processEvent]. split.
    + unfold newGhost. simpl. destruct (CRDAEnabled rs); [|done].
      destruct ghost as [g|]; [|done]. intros y g' Hy. simpl in Hy.
      apply lookup_insert_Some in Hy as [[_ <-]|[_ Hy]]; [congruence|by apply (Hng y)].
    + exists s. split; [|done]. rewrite aircraft_newGhost by done. simpl.
      by rewrite lookup_insert_ne.
  - cbn [processEvent]. split.
    + destruct (ghostAircraft rs !! x); intros y g' Hy; simpl in Hy;
        apply lookup_delete_Some in Hy as [_ Hy]; by apply (Hng y).
    + exists s. split; [|done].
      destruct (ghostAircraft rs !! x) as [g|] eqn:Hg; simpl.
      * rewrite !lookup_delete_ne; [done| |done]. intros <-. by apply (Hng x g).
      * by rewrite lookup_delete_ne.
  - cbn [processEvent]. set (rs1 := if CRDAEnabled rs then _ else rs).
    assert (notGhost rs1 ac /\ aircraft rs1 !! ac = Some s
            /\ CRDAEnabled rs1 = CRDAEnabled rs) as (Hng1 & Hs1 & Hcr).
    { unfold rs1. destruct (CRDAEnabled rs) eqn:Hc; [|done].
      destruct (ghostAircraft rs !! x) as [old|] eqn:Hold; [|done]. simpl.
      split; [|split; [|done]].
      - intros y g' Hy. simpl in Hy. apply lookup_delete_Some in Hy as [_ Hy].
        by apply (Hng y).
      - rewrite lookup_delete_ne; [done|]. intros <-. by apply (Hng x old). }
    clearbody rs1.
    set (rs2 := match aircraft rs1 !! x with Some _ => _ | None => _ end).
    assert (ghostAircraft rs2 = ghostAircraft rs1 /\ CRDAEnabled rs2 = CRDAEnabled rs1
            /\ exists s', aircraft rs2 !! ac = Some s' /\ keptPart s' = keptPart s)
      as (Hg2 & Hcr2 & s' & Hs2 & Hk).
    { unfold rs2. destruct (decide (x = ac)) as [->|Hne].
      - rewrite Hs1. simpl. repeat (split; [done|]).
        exists (setTextCurrent false s). by rewrite lookup_insert_eq.
      - destruct (aircraft rs1 !! x); simpl; repeat (split; [done|]);
          exists s; by rewrite lookup_insert_ne. }
    clearbody rs2. split.
    + unfold newGhost.
      destruct (CRDAEnabled rs2); [|unfold notGhost; by rewrite Hg2].
      destruct ghost as [g|]; [|unfold notGhost; by rewrite Hg2]. intros y g' Hy.
      simpl in Hy. apply lookup_insert_Some in Hy as [[_ <-]|[_ Hy]]; [congruence|].
      rewrite Hg2 in Hy. by apply (Hng1 y).
    + exists s'. split; [|done]. by rewrite aircraft_newGhost.
  - cbn [processEvent]. split; [done|]. by exists s.
Qed.

Lemma processEvents_spare (events : list (Event * option AcPtr)) (rs : RadarScopePane)
    (ac : AcPtr) (s : AircraftScopeState) :
  notGhost rs ac -> (forall ev, ev ∈ events -> eventSpares ac ev) ->
  aircraft rs !! ac = Some s ->
  exists s', aircraft (processEvents rs events) !! ac = Some s' /\ keptPart s' = keptPart s.
Proof.
  revert rs s. induction events as [|ev events IH]; intros rs s Hng Hev Hs.
  - by exists s.
  - unfold processEvents. cbn [foldl].
    destruct (processEvent_spares rs ev ac s Hng (Hev ev ltac:(by left)) Hs)
      as (Hng1 & s1 & Hs1 & Hk1).
    destruct (IH (processEvent rs ev) s1 Hng1) as (s' & Hs' & Hk'); [|done|].
    + intros ev' Hev'. apply Hev. by right.
    + exists s'. split; [done|congruence].
Qed.

Section Draw.

Variable deref : AcPtr -> Aircraft.
Variable windowFromLatLongP : vec2 -> vec2.
Variables paneWidth paneHeight : float32.
Variable GetConflicts : list AcPtr -> list RangeLimits -> list RangeConflict * list RangeConflict.
Variable squawk : AcPtr -> Z.
Variables InboundHandoffController OutboundHandoffController : string -> string.
Variable pointedOutGet : gmap AcPtr (string * Z) -> AcPtr -> option string.
Variable Format : AcPtr -> bool -> Z -> string.
Variable BoundText : string -> Z -> Z * Z.
Variable max : float32 -> float32 -> float32.
Variables FontAwesomeIconArrowLeft FontAwesomeIconArrowRight
  FontAwesomeIconExclamationTriangle : string.
Variable distance2f : vec2 -> vec2 -> float32.
Variable Inside : Extent2D -> vec2 -> bool.
Variables visitTracks visitDatablocks : list AcPtr.

Local Abbreviation update :=
  (updateDatablockTextAndBounds deref squawk InboundHandoffController
     OutboundHandoffController pointedOutGet Format BoundText max
     FontAwesomeIconArrowLeft FontAwesomeIconArrowRight FontAwesomeIconExclamationTriangle).

Local Abbreviation layout := (layoutDatablocks deref windowFromLatLongP paneWidth paneHeight).

Local Abbreviation range := (drawRangeIndicators deref GetConflicts).

Local Abbreviation consume :=
  (consumeMouseEvents deref windowFromLatLongP distance2f Inside visitTracks visitDatablocks).

Local Abbreviation Draw' :=
  (Draw deref windowFromLatLongP paneWidth paneHeight GetConflicts squawk
     InboundHandoffController OutboundHandoffController pointedOutGet Format BoundText max
     FontAwesomeIconArrowLeft FontAwesomeIconArrowRight FontAwesomeIconExclamationTriangle
     distance2f Inside visitTracks visitDatablocks).

(** What the steps of a frame after the events keep of the store. *)
Lemma update_keeps (rs : RadarScopePane) :
  ghostAircraft (update rs) = ghostAircraft rs
  /\ forall ac, keptPart <$> aircraft (update rs) !! ac = keptPart <$> aircraft rs !! ac.
Proof.
  split; [done|]. intros ac. rewrite updateDatablockTextAndBounds_lookup.
  destruct (aircraft rs !! ac) as [s|]; [|done]. simpl. f_equal.
  unfold updateText. destruct (filteredOut deref rs ac); [done|].
  by destruct (datablockTextCurrent s).
Qed.

Lemma layout_keeps (rs rs' : RadarScopePane) (fuel : nat) :
  layout rs fuel = Some rs' ->
  ghostAircraft rs' = ghostAircraft rs
  /\ forall ac, keptPart <$> aircraft rs' !! ac = keptPart <$> aircraft rs !! ac.
Proof.
  intros Hl.
  destruct (layoutDatablocks_writes deref windowFromLatLongP paneWidth paneHeight rs rs' fuel Hl)
    as (Hrs & Hdom & Hst).
  split; [by rewrite Hrs|]. intros ac.
  destruct (aircraft rs !! ac) as [s|] eqn:Hs.
  - destruct (aircraft rs' !! ac) as [s'|] eqn:Hs'.
    + destruct (Hst ac s s' Hs Hs') as [-> _]. done.
    + apply Hdom in Hs'. congruence.
  - apply Hdom in Hs. by rewrite Hs.
Qed.

Lemma range_keeps (rs : RadarScopePane) (clock : Z * Z) :
  ghostAircraft (range rs clock).1 = ghostAircraft rs
  /\ aircraft (range rs clock).1 = aircraft rs.
Proof.
  unfold drawRangeIndicators. destruct (negb (DrawRangeIndicators rs)); [done|].
  destruct (GetConflicts _ _) as [warnings violations]. by destruct (_ && _).
Qed.

Lemma consume_keeps (rs rs' : RadarScopePane) (ms ms' : ScopeMouse)
    (mouse : option MouseState) (posted : list AcPtr) :
  consume rs ms mouse = Some (rs', ms', posted) ->
  ghostAircraft rs' = ghostAircraft rs
  /\ (forall ac, isGhost <$> aircraft rs' !! ac = isGhost <$> aircraft rs !! ac)
  /\ (forall ac, ~ draggedBy ms mouse ac -> aircraft rs' !! ac = aircraft rs !! ac).
Proof.
  unfold consumeMouseEvents. destruct mouse as [m|]; [|by intros [= <- <- <-]].
  unfold dragDatablock. rewrite acSelectedByDatablock_dragMeasuringLine.
  assert (forall (rs1 : RadarScopePane) (ms1 : ScopeMouse),
            (if clickedPrimary m
             then match datablockHit deref windowFromLatLongP Inside visitDatablocks rs1 m with
                  | Some ac => Some (rs1, setSelectedByDatablock (Some ac) ms1, [ac])
                  | None =>
                      Some (rs1, ms1,
                            match (nearestTrack deref windowFromLatLongP distance2f
                                     visitTracks m).1 with
                            | Some ac => [ac]
                            | None => []
                            end)
                  end
             else Some (rs1, ms1, [])) = Some (rs', ms', posted) -> rs1 = rs') as Hclick.
  { intros rs1 ms1. destruct (clickedPrimary m); [|by intros [= <- _ _]].
    destruct (datablockHit _ _ _ _ _ _); by intros [= <- _ _]. }
  destruct (acSelectedByDatablock ms) as [sel|] eqn:Hsel.
  - destruct (draggingPrimary m) eqn:Hdrag.
    + destruct (aircraft rs !! sel) as [s|] eqn:Hs; [|done].
      intros H. apply Hclick in H as <-. simpl. split; [done|]. split.
      * intros ac. destruct (decide (sel = ac)) as [<-|Hne].
        -- by rewrite lookup_insert_eq, Hs.
        -- by rewrite lookup_insert_ne.
      * intros ac Hnot. rewrite lookup_insert_ne; [done|]. intros <-.
        apply Hnot. by exists m.
    + intros H. apply Hclick in H as <-. done.
  - intros H. apply Hclick in H as <-. done.
Qed.

(** X29.  A frame keeps the two maps of the store in agreement: when they
    agree about the ghosts before [Draw], and the events of the frame are
    such as the server delivers, they agree after it. *)
Theorem X29_frame_keeps_ghosts_consistent
    (rs rs' : RadarScopePane) (ms ms' : ScopeMouse) (events : list (Event * option AcPtr))
    (fuel : nat) (clock : Z * Z) (mouse : option MouseState)
    (audio : list AudioEvent) (posted : list AcPtr) :
  ghostsConsistent rs -> eventsFit rs events ->
  Draw' rs ms events fuel clock mouse = Some (rs', ms', audio, posted) ->
  ghostsConsistent rs'.
Proof.
  intros Hcons Hfit. unfold Draw.
  pose proof (processEvents_consistent events rs Hcons Hfit) as H1.
  set (rs1 := processEvents rs events) in *. clearbody rs1.
  destruct (update_keeps rs1) as [Hg2 Hk2].
  destruct (layout (update rs1) fuel) as [rs3|] eqn:Hl; [|done].
  destruct (layout_keeps _ _ _ Hl) as [Hg3 Hk3].
  destruct (range_keeps rs3 clock) as [Hg4 Ha4].
  destruct (range rs3 clock) as [rs4 audio'] eqn:Hr. simpl in Hg4, Ha4.
  destruct (consume rs4 ms mouse) as [[[rs5 ms5] posted5]|] eqn:Hc; [|done].
  intros [= <- <- <- <-].
  destruct (consume_keeps _ _ _ _ _ _ Hc) as (Hg5 & Hk5 & _).
  apply (ghostsConsistent_flags rs1); [congruence| |done].
  intros ac. rewrite Hk5, Ha4.
  assert (forall (o o' : option AircraftScopeState),
            keptPart <$> o = keptPart <$> o' -> isGhost <$> o = isGhost <$> o') as Hflag.
  { intros [s|] [s'|]; simpl; try done. intros [= H _]. by rewrite H. }
  apply Hflag. by rewrite Hk3, Hk2.
Qed.

(** X30.  A frame leaves the manual offset of a tracked aircraft alone, and
    the aircraft tracked, unless an event of the frame adds or removes the
    aircraft or its datablock is dragged: neither the other events, nor
    the texts, nor the layout, nor the range indicators, nor a click
    change it. *)
Theorem X30_frame_keeps_the_manual_offset
    (rs rs' : RadarScopePane) (ms ms' : ScopeMouse) (events : list (Event * option AcPtr))
    (fuel : nat) (clock : Z * Z) (mouse : option MouseState)
    (audio : list AudioEvent) (posted : list AcPtr) (ac : AcPtr) (s : AircraftScopeState) :
  aircraft rs !! ac = Some s ->
  notGhost rs ac ->
  (forall ev, ev ∈ events -> eventSpares ac ev) ->
  ~ draggedBy ms mouse ac ->
  Draw' rs ms events fuel clock mouse = Some (rs', ms', audio, posted) ->
  exists s',
    aircraft rs' !! ac = Some s'
    /\ datablockManualOffset s' = datablockManualOffset s
    /\ isGhost s' = isGhost s.
Proof.
  intros Hs Hng Hev Hdrag. unfold Draw.
  destruct (processEvents_spare events rs ac s Hng Hev Hs) as (s1 & Hs1 & Hk1).
  set (rs1 := processEvents rs events) in *. clearbody rs1.
  destruct (update_keeps rs1) as [_ Hk2].
  destruct (layout (update rs1) fuel) as [rs3|] eqn:Hl; [|done].
  destruct (layout_keeps _ _ _ Hl) as [_ Hk3].
  destruct (range_keeps rs3 clock) as [_ Ha4].
  destruct (range rs3 clock) as [rs4 audio'] eqn:Hr. simpl in Ha4.
  destruct (consume rs4 ms mouse) as [[[rs5 ms5] posted5]|] eqn:Hc; [|done].
  intros [= <- <- <- <-].
  destruct (consume_keeps _ _ _ _ _ _ Hc) as (_ & _ & Hk5).
  specialize (Hk5 ac Hdrag). specialize (Hk3 ac). specialize (Hk2 ac).
  rewrite Hk5, Ha4. rewrite Hk2, Hs1 in Hk3. simpl in Hk3.
  destruct (aircraft rs3 !! ac) as [s3|]; [|done]. simpl in Hk3.
  exists s3. split; [done|].
  assert (keptPart s3 = keptPart s) as [= H1 H2] by congruence. by split.
Qed.

End Draw.

Lemma StoreScene_consistent : ghostsConsistent StoreScene.pane.
Proof.
  unfold ghostsConsistent, StoreScene.pane; simpl. split; [|split].
  - intros ac g H. apply lookup_insert_Some in H as [[<- <-]|[_ H]]; [|done].
    by eexists.
  - intros g s H Hg. apply lookup_insert_Some in H as [[<- <-]|[_ H]]; [done|].
    apply lookup_insert_Some in H as [[<- <-]|[_ H]]; [|done]. by exists 1%positive.
  - intros a1 a2 g H1 H2.
    apply lookup_insert_Some in H1 as [[<- <-]|[_ H1]]; [|done].
    apply lookup_insert_Some in H2 as [[<- _]|[_ H2]]; done.
Qed.

Lemma X29_frame_keeps_ghosts_consistent_witness :
  exists rs' ms' audio posted,
    FrameScene.draw StoreScene.pane = Some (rs', ms', audio, posted)
    /\ ghostsConsistent rs'.
Proof.
  destruct (FrameScene.draw StoreScene.pane) as [[[[rs' ms'] audio] posted]|] eqn:Hdraw.
  - exists rs', ms', audio, posted. split; [reflexivity|].
    eapply X29_frame_keeps_ghosts_consistent; cycle 2;
      [exact Hdraw|exact StoreScene_consistent|].
    unfold FrameScene.events. cbn [eventsFit eventFits fst snd].
    repeat split;
      try (refine (bool_decide_unpack (map_Forall _ _) _); vm_compute; exact I);
      try (match goal with H : Some _ = Some _ |- _ => injection H as <- end;
           first [done | by vm_compute]);
      try (intros _ _; by vm_compute).
  - vm_compute in Hdraw. discriminate Hdraw.
Defined.

Lemma X30_frame_keeps_the_manual_offset_witness :
  exists rs' ms' audio posted s',
    FrameScene.draw StoreScene.pane = Some (rs', ms', audio, posted)
    /\ aircraft rs' !! 1%positive = Some s'
    /\ datablockManualOffset s' = (#10, #10)%f32.
Proof.
  destruct (FrameScene.draw StoreScene.pane) as [[[[rs' ms'] audio] posted]|] eqn:Hdraw.
  - assert (exists s', aircraft rs' !! 1%positive = Some s'
                         /\ datablockManualOffset s' = datablockManualOffset StoreScene.tracked
                         /\ isGhost s' = isGhost StoreScene.tracked) as (s' & Hs' & Hm & _).
    { eapply X30_frame_keeps_the_manual_offset; cycle 4; [exact Hdraw|reflexivity| | |].
      - refine (bool_decide_unpack (map_Forall _ _) _). vm_compute. exact I.
      - intros ev Hev. unfold FrameScene.events in Hev.
        apply elem_of_cons in Hev as [->|Hev]; [by split|].
        apply list_elem_of_singleton in Hev as ->. by split.
      - intros (m & _ & Hsel & _). discriminate Hsel. }
    exists rs', ms', audio, posted, s'. split; [reflexivity|]. split; [exact Hs'|exact Hm].
  - vm_compute in Hdraw. discriminate Hdraw.
Defined.
